(** * The QStash order-processing pipeline: webhook consumers, signature
    verifier, idempotency store and checkout transaction.

    The development embeds the TypeScript sources as functions in a state
    and exception monad over an explicit [World] (relational store, Redis,
    the ordered trace of observable effects) and an [Env] of configuration
    and of the outcomes of the external services (store faults, queue
    faults, generated UUIDs).

    Conventions of the embedding:
    - an [await] runs the awaited call to its end; a call whose promise is
      not awaited ([publishStockUpdate(...).catch(...)]) is issued at the
      point of the call, and its failure is logged there;
    - the packages the repository imports are not part of it: the signature
      receiver, the JSON parser, the SQL driver, Redis, the queue client and
      the mailer are taken as they are used, their failures given by [Env];
    - informational [console.log] lines and timestamps are left out;
      [console.warn] and [console.error] are recorded in the trace;
    - amounts and prices are carried as integers (the handlers copy them and
      never compute with them); stock and quantities are integer columns;
    - a delivery takes no time: Redis keys lose their time to live, and
      expire, only between deliveries, through [elapse];
    - a value that the code casts to an event type without checking it
      ([request.json() as T], [verified as T]) is a [Js T]: an object of
      that shape, or a boolean, which is what the signature receiver
      resolves to; other bodies ([null], an object that lacks a field the
      handlers read) are not modelled, except for a missing payload in the
      webhooks that only acknowledge;
    - the relational store is modelled without the schema's foreign keys
      and column ranges: the user, products and variations that a command
      names are taken to have their rows, and a statement that the
      database rejects is a fault of the plan in [Env]. *)

From stdpp Require Import base strings gmap list pretty.
From Stdlib Require Import ZArith Ascii.

Local Open Scope Z_scope.
Local Open Scope string_scope.
Local Open Scope list_scope.

(** ** JavaScript values that matter to the handlers *)

(** What a [throw] carries: an [Error] object with its [message], or some
    other value (shown through [String(error)]). *)
Inductive Thrown : Type :=
  | JsError (message : string)
  | JsValue (text : string).

Inductive Result (A : Type) : Type :=
  | Ok (a : A)
  | Throw (e : Thrown).
Arguments Ok {A} a.
Arguments Throw {A} e.

(** [String.prototype.includes]: does [needle] occur in [hay]? *)
Fixpoint includes (hay needle : string) : bool :=
  String.prefix needle hay ||
  match hay with
  | EmptyString => false
  | String _ rest => includes rest needle
  end.

(** [error instanceof Error && error.message.includes('signature')] *)
Definition mentions_signature (e : Thrown) : bool :=
  match e with
  | JsError m => includes m "signature"
  | JsValue _ => false
  end.

(** [error instanceof Error ? error.message : String(error)] *)
Definition details_of (e : Thrown) : string :=
  match e with
  | JsError m => m
  | JsValue t => t
  end.

(** Truthiness of an optional string: [undefined], [null] and [''] are falsy. *)
Definition truthy (s : option string) : bool :=
  match s with
  | Some EmptyString => false
  | Some _ => true
  | None => false
  end.

(** [a || b] on an optional string with a string fallback. *)
Definition or_else (a : option string) (b : string) : string :=
  match a with
  | Some s => if truthy a then s else b
  | None => b
  end.

(** A value that the code reads as a [T] without checking it: an object of
    that shape, or a boolean (what [Receiver.verify] resolves to, or a
    body that is the JSON text of a boolean). *)
Inductive Js (T : Type) : Type :=
  | JObject (o : T)
  | JBoolean (b : bool).
Arguments JObject {T} o.
Arguments JBoolean {T} b.

(** [value.name], for the property read by [f]; a boolean has no
    properties, and [None] stands for [undefined]. *)
Definition prop {T A} (f : T -> A) (value : Js T) : option A :=
  match value with
  | JObject o => Some (f o)
  | JBoolean _ => None
  end.

(** An optional string inside a template literal. *)
Definition js_string (s : option string) : string :=
  match s with
  | Some text => text
  | None => "undefined"
  end.

(** ** Events (services/shared/types.ts) *)

Record BaseEvent (P : Type) : Type := mkEvent {
  eventId : string;
  eventType : string;
  version : string;
  source : string;
  correlationId : option string;
  payload : P
}.
Arguments mkEvent {P}.
Arguments eventId {P}.
Arguments eventType {P}.
Arguments version {P}.
Arguments source {P}.
Arguments correlationId {P}.
Arguments payload {P}.

Record OrderItem : Type := mkItem {
  productId : string;
  variationId : option string;
  quantity : Z;
  price : Z;
  productName : option string
}.

Record CheckoutCommandPayload : Type := mkCheckout {
  userId : string;
  customerName : string;
  customerEmail : string;
  customerAddress : string;
  items : list OrderItem;
  totalAmount : Z;
  paymentId : string
}.

Definition CheckoutCommand : Type := BaseEvent CheckoutCommandPayload.

Record OrderPayload : Type := mkOrderPayload {
  op_orderId : string;
  op_userId : string;
  op_customerName : string;
  op_customerEmail : string;
  op_customerAddress : string;
  op_items : list OrderItem;
  op_totalAmount : Z;
  op_status : string
}.

(** [templateData] of the only producer of e-mail requests in the pipeline. *)
Record OrderConfirmationData : Type := mkConfirmation {
  oc_orderId : string;
  oc_customerName : string;
  oc_items : list OrderItem;
  oc_totalAmount : Z
}.

Record EmailNotificationPayload : Type := mkEmail {
  to : string;
  subject : string;
  templateId : string;
  templateData : OrderConfirmationData;
  priority : string
}.

Definition EmailNotificationEvent : Type := BaseEvent EmailNotificationPayload.

Record StockUpdatePayload : Type := mkStockUpdate {
  su_productId : string;
  su_variationId : option string;
  previousStock : Z;
  newStock : Z;
  reason : string;
  su_orderId : option string
}.

Inductive JsVal : Type :=
  | JStr (s : string)
  | JNum (n : Z)
  | JNaN.

Record AuditLogPayload : Type := mkAudit {
  action : string;
  entityType : string;
  entityId : string;
  au_userId : option string;
  newState : option OrderPayload;
  metadata : list (string * JsVal)
}.

(** [DeadLetterPayload]; [failedAt] is a timestamp and is left out, and the
    original event is the checkout command of the one consumer that
    enables the dead-letter queue. *)
Record DeadLetterPayload : Type := mkDeadLetter {
  originalTopic : string;
  originalEventType : string;
  originalEvent : option CheckoutCommand;
  dl_error : string;
  dl_retryCount : Z
}.

(** The payloads the modelled code publishes. *)
Inductive Payload : Type :=
  | POrder (p : OrderPayload)
  | PEmail (p : EmailNotificationPayload)
  | PStock (p : StockUpdatePayload)
  | PAudit (p : AuditLogPayload)
  | PDeadLetter (p : DeadLetterPayload).

Definition AppEvent : Type := BaseEvent Payload.

(** ** The relational store (lib/schema: Order, OrderItem, Product stock) *)

Record OrderRow : Type := mkOrderRow {
  or_id : string;
  or_userId : string;
  or_customerName : string;
  or_customerEmail : string;
  or_customerAddress : string;
  or_totalAmount : Z;
  or_status : string
}.

Record OrderItemRow : Type := mkOrderItemRow {
  oi_id : string;
  oi_orderId : string;
  oi_productId : string;
  oi_variationId : option string;
  oi_quantity : Z;
  oi_price : Z
}.

Record Db : Type := mkDb {
  orders : list OrderRow;
  orderItems : list OrderItemRow;
  products : gmap string Z;            (* product id -> stock *)
  productVariations : gmap string Z    (* variation id -> stock *)
}.

(** ** Observable effects, in the order they happen *)

Inductive LogLevel : Type := Warn | Error.

Inductive Effect : Type :=
  | TxBegin
  | TxCommit
  | TxRollback
  | VerifyCall (signature : string) (body : string)
  | PublishCall (url : string) (e : AppEvent) (retries : option Z)
  | KafkaSend (topic : string) (key : string) (e : AppEvent)
  | Logged (level : LogLevel) (msg : string)
  | MailSent (rcpt : string) (subj : string).

(** ** The world the handlers run in *)

Record World : Type := mkWorld {
  db : Db;
  redis : gmap string (Z * string);   (* key -> (seconds left, value) *)
  trace : list Effect;
  dbCalls : nat;
  redisCalls : nat;
  publishCalls : nat;
  uuidCalls : nat;
  smtpCalls : nat
}.

(** Configuration and the behaviour of what lies outside the repository.
    The n-th call to a service fails when its fault plan says so. *)
Record Env : Type := mkEnv {
  process_env : gmap string string;
  parseInt : string -> JsVal;
  dbFault : nat -> option Thrown;
  redisFault : nat -> option Thrown;
  publishFault : nat -> option Thrown;
  smtpFault : nat -> option Thrown;
  randomUUID : nat -> string
}.

(** ** State and exception monad *)

Definition M (A : Type) : Type := World -> Result A * World.

Definition ret {A} (a : A) : M A := fun w => (Ok a, w).

Definition throw {A} (e : Thrown) : M A := fun w => (Throw e, w).

Definition bind {A B} (m : M A) (k : A -> M B) : M B :=
  fun w =>
    match m w with
    | (Ok a, w') => k a w'
    | (Throw e, w') => (Throw e, w')
    end.

(** [try { m } catch (error) { h error }] *)
Definition try_catch {A} (m : M A) (h : Thrown -> M A) : M A :=
  fun w =>
    match m w with
    | (Ok a, w') => (Ok a, w')
    | (Throw e, w') => h e w'
    end.

Notation "x <- m ;; k" := (bind m (fun x => k))
  (at level 100, m at next level, right associativity).
Notation "m ;;; k" := (bind m (fun _ => k))
  (at level 100, right associativity).

Definition set_db (d : Db) (w : World) : World :=
  mkWorld d (redis w) (trace w) (dbCalls w) (redisCalls w) (publishCalls w)
          (uuidCalls w) (smtpCalls w).

Definition set_redis (r : gmap string (Z * string)) (w : World) : World :=
  mkWorld (db w) r (trace w) (dbCalls w) (redisCalls w) (publishCalls w)
          (uuidCalls w) (smtpCalls w).

Definition add_effect (e : Effect) (w : World) : World :=
  mkWorld (db w) (redis w) (trace w ++ [e]) (dbCalls w) (redisCalls w)
          (publishCalls w) (uuidCalls w) (smtpCalls w).

Definition tick_db (w : World) : World :=
  mkWorld (db w) (redis w) (trace w) (S (dbCalls w)) (redisCalls w)
          (publishCalls w) (uuidCalls w) (smtpCalls w).

Definition tick_redis (w : World) : World :=
  mkWorld (db w) (redis w) (trace w) (dbCalls w) (S (redisCalls w))
          (publishCalls w) (uuidCalls w) (smtpCalls w).

Definition tick_publish (w : World) : World :=
  mkWorld (db w) (redis w) (trace w) (dbCalls w) (redisCalls w)
          (S (publishCalls w)) (uuidCalls w) (smtpCalls w).

Definition tick_uuid (w : World) : World :=
  mkWorld (db w) (redis w) (trace w) (dbCalls w) (redisCalls w)
          (publishCalls w) (S (uuidCalls w)) (smtpCalls w).

Definition tick_smtp (w : World) : World :=
  mkWorld (db w) (redis w) (trace w) (dbCalls w) (redisCalls w)
          (publishCalls w) (uuidCalls w) (S (smtpCalls w)).

Definition emit (e : Effect) : M unit := fun w => (Ok tt, add_effect e w).

Definition console_warn (msg : string) : M unit := emit (Logged Warn msg).
Definition console_error (msg : string) : M unit := emit (Logged Error msg).

(** [crypto.randomUUID()] *)
Definition fresh_uuid (env : Env) : M string :=
  fun w => (Ok (randomUUID env (uuidCalls w)), tick_uuid w).

(** [seconds] pass between two deliveries: every key loses that much of its
    time to live, and a key whose time is up is gone. *)
Definition elapse (seconds : Z) (w : World) : World :=
  set_redis
    (omap (fun entry : Z * string =>
             if (0 <? fst entry - seconds)%Z
             then Some (fst entry - seconds, snd entry)%Z else None)
       (redis w))
    w.

(** ** lib/deduplication.ts *)

Module Deduplication.
Section WithEnv.
Variable env : Env.

Definition DEDUP_TTL_SECONDS : Z := 3600.
Definition DEDUP_KEY_PREFIX : string := "webhook:dedup:".

(** [redis.exists(key)]: 1 when the key is present, 0 otherwise. *)
Definition redis_exists (key : string) : M Z :=
  fun w =>
    match redisFault env (redisCalls w) with
    | Some e => (Throw e, tick_redis w)
    | None =>
        (Ok (match redis w !! key with Some _ => 1 | None => 0 end),
         tick_redis w)
    end.

(** [redis.setex(key, ttl, value)]: the key lives for [ttl] seconds; Redis
    rejects a time to live that is not positive. *)
Definition redis_setex (key : string) (ttl : Z) (value : string) : M unit :=
  fun w =>
    match redisFault env (redisCalls w) with
    | Some e => (Throw e, tick_redis w)
    | None =>
        if (0 <? ttl)%Z then
          (Ok tt, set_redis (<[key := (ttl, value)]> (redis w)) (tick_redis w))
        else
          (Throw (JsError "ERR invalid expire time in 'setex' command"),
           tick_redis w)
    end.

Definition isEventProcessed (eventId : string) : M bool :=
  let key := DEDUP_KEY_PREFIX +:+ eventId in
  try_catch
    (exists_ <- redis_exists key ;;
     ret (Z.eqb exists_ 1))
    (fun error =>
       console_error "[Deduplication] Redis check failed:" ;;;
       ret false).

Definition markEventProcessed (eventId : string) (ttl : Z) : M unit :=
  let key := DEDUP_KEY_PREFIX +:+ eventId in
  try_catch
    (redis_setex key ttl "1")
    (fun error =>
       console_error "[Deduplication] Failed to mark event as processed:").

(** The result object [{ processed, result? }]. *)
Record Outcome (T : Type) : Type := mkOutcome {
  processed : bool;
  result : option T
}.
Arguments mkOutcome {T}.

Definition processWithDeduplication {T} (eventId : string) (processor : M T)
  : M (Outcome T) :=
  alreadyProcessed <- isEventProcessed eventId ;;
  if alreadyProcessed then
    ret (mkOutcome false None)
  else
    try_catch
      (result <- processor ;;
       markEventProcessed eventId DEDUP_TTL_SECONDS ;;;
       ret (mkOutcome true (Some result)))
      (fun error => throw error).

End WithEnv.
Arguments mkOutcome {T}.
Arguments processed {T}.
Arguments result {T}.
End Deduplication.

(** ** HTTP requests and responses *)

Record Request : Type := mkRequest {
  headers : gmap string string;
  body : string
}.

Inductive ResponseBody : Type :=
  | Success (eventId eventType : option string) (duplicate : option bool)
  | Message (message : string)
  | Failure (error : string) (details : option string).

Record Response : Type := mkResponse {
  status : Z;
  json : ResponseBody
}.

(** The queue redelivers after a 5xx answer; 2xx and 4xx end the delivery. *)
Definition retry_worthy (r : Response) : bool :=
  (500 <=? status r)%Z && (status r <=? 599)%Z.

(** An awaited promise that is already settled. *)
Definition settle {A} (r : Result A) : M A := fun w => (r, w).

(** ** lib/qstash-webhook.ts *)

Module QstashWebhook.
Section WithEnv.
Variable env : Env.
Context {T : Type}.
(** [Receiver.verify] of the queue's package, which resolves to a boolean
    or throws, and [request.json()]. *)
Variable receiver_verify : string -> string -> Result bool.
Variable request_json : string -> Result (Js T).

Definition currentSigningKey : option string :=
  process_env env !! "QSTASH_CURRENT_SIGNING_KEY".
Definition nextSigningKey : option string :=
  process_env env !! "QSTASH_NEXT_SIGNING_KEY".

Definition verifyQStashSignature (request : Request) : M (Js T) :=
  if negb (truthy currentSigningKey) || negb (truthy nextSigningKey) then
    console_warn
      "[QStash] Signing keys not configured - skipping verification (DEV mode)" ;;;
    if bool_decide (process_env env !! "NODE_ENV" = Some "development") then
      settle (request_json (body request))
    else
      throw (JsError "QStash signing keys not configured")
  else
    match headers request !! "upstash-signature" with
    | Some signature =>
        if negb (truthy (Some signature)) then
          throw (JsError "Missing upstash-signature header")
        else
          try_catch
            (emit (VerifyCall signature (body request)) ;;;
             verified <- settle (receiver_verify signature (body request)) ;;
             (* [return verified as T] *)
             ret (JBoolean verified))
            (fun error =>
               console_error "[QStash] Signature verification failed:" ;;;
               throw (JsError "Invalid webhook signature"))
    | None => throw (JsError "Missing upstash-signature header")
    end.

End WithEnv.

Record EventMetadata : Type := mkMetadata {
retryCount : JsVal
}.

(** [getEventMetadata]; only [retryCount] is read by the consumers. *)
Definition getEventMetadata (env : Env) (request : Request) : EventMetadata :=
mkMetadata
  (parseInt env (or_else (headers request !! "upstash-retried") "0")).

End QstashWebhook.

(** ** lib/qstash.ts and lib/qstash-producer.ts *)

Module QstashProducer.
Section WithEnv.
Variable env : Env.

Definition COMMANDS : string := "commands".
Definition ORDERS : string := "orders".
Definition NOTIFICATIONS : string := "notifications".
Definition INVENTORY : string := "inventory".
Definition ANALYTICS : string := "analytics".

Definition getWebhookUrl (topic : string) : string :=
  let baseUrl :=
    or_else (process_env env !! "QSTASH_WEBHOOK_BASE_URL")
      (or_else (process_env env !! "NEXT_PUBLIC_APP_URL")
         "http://localhost:3000") in
  baseUrl +:+ "/api/webhooks/" +:+ topic.

Definition createBaseEvent {P} (eventType : string) (payload : P)
    (source : string) (correlationId : option string) : M (BaseEvent P) :=
  id <- fresh_uuid env ;;
  ret (mkEvent id eventType "1.0" source
         (if truthy correlationId then correlationId else None) payload).

(** [qstash.publishJSON]: the request leaves, then succeeds or fails. *)
Definition publishJSON (url : string) (event : AppEvent) (retries : Z)
  : M unit :=
  fun w =>
    let w' := tick_publish (add_effect (PublishCall url event (Some retries)) w) in
    match publishFault env (publishCalls w) with
    | Some e => (Throw e, w')
    | None => (Ok tt, w')
    end.

Definition publishEvent (topic : string) (event : AppEvent)
    (retries : option Z) : M unit :=
  let webhookUrl := getWebhookUrl topic in
  try_catch
    (publishJSON webhookUrl event (default 3%Z retries))
    (fun error =>
       console_error "[QStash] Failed to publish" ;;;
       throw error).

Definition publishOrderCreated (payload : OrderPayload)
    (correlationId : option string) : M AppEvent :=
  event <- createBaseEvent "order.created" (POrder payload) "orders-service"
             correlationId ;;
  publishEvent ORDERS event None ;;;
  ret event.

Definition publishEmailNotification (payload : EmailNotificationPayload)
    (correlationId : option string) : M AppEvent :=
  event <- createBaseEvent "notification.email" (PEmail payload)
             "orders-service" correlationId ;;
  publishEvent NOTIFICATIONS event None ;;;
  ret event.

Definition publishStockUpdate (payload : StockUpdatePayload)
    (correlationId : option string) : M AppEvent :=
  event <- createBaseEvent "inventory.stock.updated" (PStock payload)
             "orders-service" correlationId ;;
  publishEvent INVENTORY event None ;;;
  ret event.

Definition publishAuditLog (payload : AuditLogPayload)
    (correlationId : option string) : M AppEvent :=
  event <- createBaseEvent "analytics.audit" (PAudit payload) "api"
             correlationId ;;
  publishEvent ANALYTICS event None ;;;
  ret event.

(** [getTopicForEvent] *)
Definition getTopicForEvent {P} (event : BaseEvent P) : string :=
  if String.prefix "command." (eventType event) then COMMANDS
  else if String.prefix "order." (eventType event) then ORDERS
  else if String.prefix "notification." (eventType event) then NOTIFICATIONS
  else if String.prefix "inventory." (eventType event) then INVENTORY
  else ANALYTICS.

End WithEnv.
End QstashProducer.

(** ** The statements issued through drizzle *)

Module Drizzle.
Section WithEnv.
Variable env : Env.

(** One SQL statement: it fails when the fault plan says so, and
    otherwise reads or updates the store.  Why a statement fails is left
    to the plan: a lost connection, a deadlock, a line item that names a
    product without a row (a violated foreign key), a value outside its
    column's range, the query builder refusing an empty list of values. *)
Definition statement {A} (f : Db -> A * Db) : M A :=
  fun w =>
    match dbFault env (dbCalls w) with
    | Some e => (Throw e, tick_db w)
    | None => let '(a, d) := f (db w) in (Ok a, set_db d (tick_db w))
    end.

(** [tx.insert(orders).values(row).returning()] *)
Definition insert_order (row : OrderRow) : M OrderRow :=
  statement (fun d =>
    (row, mkDb (orders d ++ [row]) (orderItems d) (products d)
               (productVariations d))).

(** [tx.insert(orderItems).values(rows)] *)
Definition insert_orderItems (rows : list OrderItemRow) : M unit :=
  statement (fun d =>
    (tt, mkDb (orders d) (orderItems d ++ rows) (products d)
              (productVariations d))).

(** [tx.select().from(products).where(eq(products.id, id))], first row *)
Definition select_product (id : string) : M (option Z) :=
  statement (fun d => (products d !! id, d)).

(** [UPDATE ProductVariation SET stock = stock - qty WHERE id = ...] *)
Definition decrement_variation (id : string) (qty : Z) : M unit :=
  statement (fun d =>
    (tt, mkDb (orders d) (orderItems d) (products d)
              (alter (fun s => s - qty)%Z id (productVariations d)))).

(** [UPDATE Product SET stock = stock - qty WHERE id = ...] *)
Definition decrement_product (id : string) (qty : Z) : M unit :=
  statement (fun d =>
    (tt, mkDb (orders d) (orderItems d)
              (alter (fun s => s - qty)%Z id (products d))
              (productVariations d))).

(** [drizzleDb.transaction(callback)]: the callback's statements are
    committed together, or undone together when the callback (or the
    commit) fails, and the failure is thrown on. *)
Definition transaction {A} (callback : M A) : M A :=
  fun w =>
    let before := db w in
    match callback (add_effect TxBegin w) with
    | (Ok a, w') =>
        match dbFault env (dbCalls w') with
        | None => (Ok a, add_effect TxCommit (tick_db w'))
        | Some e => (Throw e, add_effect TxRollback (set_db before (tick_db w')))
        end
    | (Throw e, w') => (Throw e, add_effect TxRollback (set_db before w'))
    end.

End WithEnv.
End Drizzle.

Fixpoint for_each {A} (f : A -> M unit) (l : list A) : M unit :=
  match l with
  | [] => ret tt
  | x :: rest => f x ;;; for_each f rest
  end.

Fixpoint map_m {A B} (f : A -> M B) (l : list A) : M (list B) :=
  match l with
  | [] => ret []
  | x :: rest => y <- f x ;; ys <- map_m f rest ;; ret (y :: ys)
  end.

(** [promise.catch(err => console.error(msg, err))] on a call whose result
    is not awaited. *)
Definition fire_and_forget {A} (call : M A) (msg : string) : M unit :=
  try_catch (call ;;; ret tt) (fun err => console_error msg).

(** ** The checkout handler

    [handleCheckoutCommand] is written out twice in the sources, in
    app/api/webhooks/commands/route.ts and in
    services/orders-service/app/api/webhook/route.ts; the two copies differ
    in how the four derived events are published and in the text of one
    log line, which are the parameters here. *)

Module Checkout.
Section Handler.
Variable env : Env.
Variable publishStockUpdate : StockUpdatePayload -> string -> M unit.
Variable publishOrderCreated : OrderPayload -> string -> M unit.
Variable publishEmailNotification : EmailNotificationPayload -> string -> M unit.
Variable publishAuditLog : AuditLogPayload -> string -> M unit.
Variable stockLog : string.

(** Body of [for (const item of items)] inside the transaction. *)
Definition decrement_stock (orderId corr : string) (item : OrderItem)
  : M unit :=
  product <- Drizzle.select_product env (productId item) ;;
  let previousStock := default 0%Z product in
  match variationId item with
  | Some v =>
      if truthy (Some v)
      then Drizzle.decrement_variation env v (quantity item)
      else ret tt
  | None => ret tt
  end ;;;
  Drizzle.decrement_product env (productId item) (quantity item) ;;;
  fire_and_forget
    (publishStockUpdate
       (mkStockUpdate (productId item) (variationId item) previousStock
          (previousStock - quantity item)%Z "sale" (Some orderId))
       corr)
    stockLog.

Definition order_item_row (orderId : string) (item : OrderItem)
  : M OrderItemRow :=
  id <- fresh_uuid env ;;
  ret (mkOrderItemRow id orderId (productId item)
         (if truthy (variationId item) then variationId item else None)
         (quantity item) (price item)).

(** The callback given to [drizzleDb.transaction]. *)
Definition order_callback (event : CheckoutCommand) (corr : string)
  : M OrderRow :=
  let p := payload event in
  id <- fresh_uuid env ;;
  newOrder <- Drizzle.insert_order env
                (mkOrderRow id (userId p) (customerName p) (customerEmail p)
                   (customerAddress p) (totalAmount p) "PENDING") ;;
  orderItemValues <- map_m (order_item_row (or_id newOrder)) (items p) ;;
  Drizzle.insert_orderItems env orderItemValues ;;;
  for_each (decrement_stock (or_id newOrder) corr) (items p) ;;;
  ret newOrder.

Definition order_payload (p : CheckoutCommandPayload) (orderId : string)
  : OrderPayload :=
  mkOrderPayload orderId (userId p) (customerName p) (customerEmail p)
    (customerAddress p)
    (map (fun item =>
            mkItem (productId item) (variationId item) (quantity item)
              (price item) None)
         (items p))
    (totalAmount p) "PENDING".

Definition handleCheckoutCommand (event : CheckoutCommand) : M unit :=
  let p := payload event in
  let corr := or_else (correlationId event) (eventId event) in
  result <- Drizzle.transaction env (order_callback event corr) ;;
  let orderPayload := order_payload p (or_id result) in
  publishOrderCreated orderPayload corr ;;;
  let emailPayload :=
    mkEmail (customerEmail p) ("Order Confirmation - " +:+ or_id result)
      "order-confirmation"
      (mkConfirmation (or_id result) (customerName p) (items p)
         (totalAmount p))
      "high" in
  publishEmailNotification emailPayload corr ;;;
  publishAuditLog
    (mkAudit "order.created" "order" (or_id result) (Some (userId p))
       (Some orderPayload)
       [("paymentId", JStr (paymentId p)); ("correlationId", JStr corr)])
    corr.

End Handler.
End Checkout.

(** The catch block shared by the webhooks built on [verifyQStashSignature]. *)
Definition webhook_catch (tag : string) (invalid : option string -> ResponseBody)
    (error : Thrown) : M Response :=
  console_error tag ;;;
  if mentions_signature error then
    ret (mkResponse 401 (invalid (Some (details_of error))))
  else
    ret (mkResponse 500 (Failure "Processing failed" (Some (details_of error)))).

(** What reading [event.payload.name] throws when [event.payload] is
    [undefined]. *)
Definition no_payload (name : string) : Thrown :=
  JsError ("Cannot read properties of undefined (reading '" +:+ name +:+ "')").

(** ** app/api/webhooks/commands/route.ts (Commands topic) *)

Module CommandsWebhook.
Section WithEnv.
Variable env : Env.
Variable receiver_verify : string -> string -> Result bool.
Variable request_json : string -> Result (Js CheckoutCommand).

Definition handleCheckoutCommand : CheckoutCommand -> M unit :=
  Checkout.handleCheckoutCommand env
    (fun p c => QstashProducer.publishStockUpdate env p (Some c) ;;; ret tt)
    (fun p c => QstashProducer.publishOrderCreated env p (Some c) ;;; ret tt)
    (fun p c => QstashProducer.publishEmailNotification env p (Some c) ;;; ret tt)
    (fun p c => QstashProducer.publishAuditLog env p (Some c) ;;; ret tt)
    "[Commands Webhook] Failed to publish stock update:".

(** The [try] block of [POST]. *)
Definition attempt (request : Request) : M Response :=
  event <- QstashWebhook.verifyQStashSignature env receiver_verify
             request_json request ;;
  match event with
  | JObject command =>
      if String.eqb (eventType command) "command.checkout" then
        handleCheckoutCommand command ;;;
        ret (mkResponse 200
               (Success (prop eventId event) (prop eventType event) None))
      else
        console_warn "[Commands Webhook] Unknown event type" ;;;
        ret (mkResponse 400 (Failure "Unknown event type" None))
  | JBoolean _ =>
      (* [event.eventType] is [undefined]: the [default] case *)
      console_warn "[Commands Webhook] Unknown event type" ;;;
      ret (mkResponse 400 (Failure "Unknown event type" None))
  end.

Definition POST (request : Request) : M Response :=
  try_catch
    (attempt request)
    (webhook_catch "[Commands Webhook] Error processing event:"
       (fun details => Failure "Invalid signature" details)).

End WithEnv.
End CommandsWebhook.

(** ** The Orders, Inventory and Analytics webhooks on the shared verifier *)

(** In these three the payload of an event object is optional: [None] is an
    object without a [payload] property. *)

Module OrdersWebhook.
Section WithEnv.
Variable env : Env.
Context {P : Type}.
Variable receiver_verify : string -> string -> Result bool.
Variable request_json : string -> Result (Js (BaseEvent (option P))).

(** The [try] block of [POST].  Its second log line reads
    [event.payload.orderId], which throws when there is no payload. *)
Definition attempt (request : Request) : M Response :=
  event <- QstashWebhook.verifyQStashSignature env receiver_verify
             request_json request ;;
  match prop payload event with
  | Some (Some _) =>
      ret (mkResponse 200
             (Success (prop eventId event) (prop eventType event) None))
  | _ => throw (no_payload "orderId")
  end.

Definition POST (request : Request) : M Response :=
  try_catch
    (attempt request)
    (webhook_catch "[Orders Webhook] Error processing event:"
       (fun _ => Failure "Invalid signature" None)).

End WithEnv.
End OrdersWebhook.

Module InventoryWebhook.
Section WithEnv.
Variable env : Env.
Context {P : Type}.
Variable receiver_verify : string -> string -> Result bool.
Variable request_json : string -> Result (Js (BaseEvent (option P))).

(** The [try] block of [POST]; the payload is not read. *)
Definition attempt (request : Request) : M Response :=
  event <- QstashWebhook.verifyQStashSignature env receiver_verify
             request_json request ;;
  ret (mkResponse 200
         (Success (prop eventId event) (prop eventType event) None)).

Definition POST (request : Request) : M Response :=
  try_catch
    (attempt request)
    (webhook_catch "[Inventory Webhook] Error processing event:"
       (fun _ => Failure "Invalid signature" None)).

End WithEnv.
End InventoryWebhook.

Module AnalyticsWebhook.
Section WithEnv.
Variable env : Env.
Context {P : Type}.
Variable receiver_verify : string -> string -> Result bool.
Variable request_json : string -> Result (Js (BaseEvent (option P))).

(** The [try] block of [POST].  For an analytics.audit event its log line
    reads [event.payload.action], which throws when there is no payload. *)
Definition attempt (request : Request) : M Response :=
  event <- QstashWebhook.verifyQStashSignature env receiver_verify
             request_json request ;;
  (if bool_decide (prop eventType event = Some "analytics.audit") then
     match prop payload event with
     | Some (Some _) => ret tt
     | _ => throw (no_payload "action")
     end
   else ret tt) ;;;
  (if bool_decide (prop eventType event = Some "analytics.dlq")
   then console_error "[Analytics Webhook] DLQ Event:"
   else ret tt) ;;;
  ret (mkResponse 200
         (Success (prop eventId event) (prop eventType event) None)).

Definition POST (request : Request) : M Response :=
  try_catch
    (attempt request)
    (webhook_catch "[Analytics Webhook] Error processing event:"
       (fun _ => Failure "Invalid signature" None)).

End WithEnv.
End AnalyticsWebhook.

(** ** The Notifications webhook (on the shared verifier, with deduplication) *)

Module NotificationsWebhook.
Section WithEnv.
Variable env : Env.
Variable receiver_verify : string -> string -> Result bool.
Variable request_json : string -> Result (Js EmailNotificationEvent).

Definition isSmtpConfigured : bool :=
  truthy (process_env env !! "SMTP_HOST") &&
  truthy (process_env env !! "SMTP_USER") &&
  truthy (process_env env !! "SMTP_PASS").

(** [transport.sendMail] *)
Definition sendMail (rcpt subj : string) : M unit :=
  fun w =>
    match smtpFault env (smtpCalls w) with
    | Some e => (Throw e, tick_smtp w)
    | None => (Ok tt, add_effect (MailSent rcpt subj) (tick_smtp w))
    end.

(** [sendEmail]; the rendered bodies are not modelled. *)
Definition sendEmail (rcpt subj : string) : M bool :=
  if negb isSmtpConfigured then
    ret true
  else
    try_catch
      (sendMail rcpt subj ;;; ret true)
      (fun error =>
         console_error "[Notifications Webhook] Failed to send email:" ;;;
         ret false).

(** The template registry has the single entry 'order-confirmation'. *)
Definition has_template (templateId : string) : bool :=
  String.eqb templateId "order-confirmation".

Definition handleEmailNotification (event : EmailNotificationEvent)
    (retryCount : JsVal) : M unit :=
  let p := payload event in
  if negb (has_template (templateId p)) then
    console_error "[Notifications Webhook] Unknown template" ;;;
    throw (JsError ("Unknown template: " +:+ templateId p))
  else
    success <- sendEmail (to p) (subject p) ;;
    QstashProducer.publishAuditLog env
      (mkAudit (if success then "email.sent" else "email.failed") "email"
         (eventId event) None None
         [("to", JStr (to p)); ("subject", JStr (subject p));
          ("templateId", JStr (templateId p));
          ("priority", JStr (priority p)); ("retryCount", retryCount)])
      (correlationId event) ;;;
    if success then
      ret tt
    else
      console_error "[Notifications Webhook] Failed to send email" ;;;
      throw (JsError ("Failed to send email to " +:+ to p)).

(** The processor handed to [processWithDeduplication]: the [switch] on
    [event.eventType], which is [undefined] for a boolean. *)
Definition dispatch (event : Js EmailNotificationEvent) (retryCount : JsVal)
  : M unit :=
  match event with
  | JObject notification =>
      if String.eqb (eventType notification) "notification.email" then
        handleEmailNotification notification retryCount
      else
        console_warn "[Notifications Webhook] Unknown event type" ;;;
        throw (JsError ("Unknown event type: " +:+
                        js_string (prop eventType event)))
  | JBoolean _ =>
      console_warn "[Notifications Webhook] Unknown event type" ;;;
      throw (JsError ("Unknown event type: " +:+
                      js_string (prop eventType event)))
  end.

(** The [try] block of [POST]. *)
Definition attempt (request : Request) : M Response :=
  event <- QstashWebhook.verifyQStashSignature env receiver_verify
             request_json request ;;
  let metadata := QstashWebhook.getEventMetadata env request in
  outcome <- Deduplication.processWithDeduplication env
               (js_string (prop eventId event))
               (dispatch event (QstashWebhook.retryCount metadata)) ;;
  ret (mkResponse 200
         (Success (prop eventId event) (prop eventType event)
            (Some (negb (Deduplication.processed outcome))))).

Definition POST (request : Request) : M Response :=
  try_catch
    (attempt request)
    (webhook_catch "[Notifications Webhook] Error processing event:"
       (fun _ => Failure "Invalid signature" None)).

End WithEnv.
End NotificationsWebhook.

(** ** services/orders-service/app/api/webhook/route.ts *)

Module OrdersService.
Section WithEnv.
Variable env : Env.
(** [receiver.verify] resolves to a boolean here; [JSON.parse(body)]. *)
Variable receiver_verify : string -> string -> Result bool.
Variable JSON_parse : string -> Result CheckoutCommand.

(** [process.env.X || ''] *)
Definition env_or_empty (name : string) : string :=
  or_else (process_env env !! name) "".

(** The [fetch] call to the queue's publish endpoint. *)
Definition fetch_publish (url : string) (event : AppEvent) : M unit :=
  fun w =>
    let w' := tick_publish (add_effect (PublishCall url event None) w) in
    match publishFault env (publishCalls w) with
    | Some e => (Throw e, w')
    | None => (Ok tt, w')
    end.

Definition publishEvent (url : string) (event : AppEvent) : M unit :=
  if negb (truthy (process_env env !! "QSTASH_TOKEN")) then
    console_warn "[Orders Service] QSTASH_TOKEN not set, skipping publish"
  else
    fetch_publish url event.

(** An event literal [{ eventId: randomUUID(), eventType, ...}] published
    to the URL held by the environment variable [target]. *)
Definition publish_as (eventType target : string) (p : Payload)
    (corr : string) : M unit :=
  id <- fresh_uuid env ;;
  publishEvent (env_or_empty target)
    (mkEvent id eventType "1.0" "orders-service" (Some corr) p).

Definition handleCheckoutCommand : CheckoutCommand -> M unit :=
  Checkout.handleCheckoutCommand env
    (fun p c => publish_as "inventory.stock.updated" "QSTASH_INVENTORY_URL" (PStock p) c)
    (fun p c => publish_as "order.created" "QSTASH_ORDERS_URL" (POrder p) c)
    (fun p c => publish_as "notification.email" "QSTASH_EMAIL_URL" (PEmail p) c)
    (fun p c => publish_as "analytics.audit" "QSTASH_ANALYTICS_URL" (PAudit p) c)
    "[Orders Service] Failed to publish stock update:".

(** The signature gate: [Some response] when the handler returns early. *)
Definition check_signature (request : Request) : M (option Response) :=
  match headers request !! "upstash-signature" with
  | Some signature =>
      if negb (truthy (Some signature)) then
        console_error "[Orders Service] Missing QStash signature" ;;;
        ret (Some (mkResponse 401 (Failure "Missing signature" None)))
      else
        try_catch
          (emit (VerifyCall signature (body request)) ;;;
           isValid <- settle (receiver_verify signature (body request)) ;;
           if negb isValid then
             console_error "[Orders Service] Invalid QStash signature" ;;;
             ret (Some (mkResponse 401 (Failure "Invalid signature" None)))
           else
             ret None)
          (fun error =>
             console_error "[Orders Service] Signature verification failed:" ;;;
             ret (Some (mkResponse 401
                          (Failure "Signature verification failed" None))))
  | None =>
      console_error "[Orders Service] Missing QStash signature" ;;;
      ret (Some (mkResponse 401 (Failure "Missing signature" None)))
  end.

(** The [try] block of [POST]. *)
Definition attempt (request : Request) : M Response :=
  rejected <- check_signature request ;;
  match rejected with
  | Some response => ret response
  | None =>
      event <- settle (JSON_parse (body request)) ;;
      if String.eqb (eventType event) "command.checkout" then
        handleCheckoutCommand event ;;;
        ret (mkResponse 200 (Message "Checkout processed"))
      else if String.prefix "order." (eventType event) then
        ret (mkResponse 200 (Message "Order event processed"))
      else
        ret (mkResponse 200 (Message "Event ignored"))
  end.

Definition POST (request : Request) : M Response :=
  try_catch
    (attempt request)
    (fun error =>
       console_error "[Orders Service] Error processing webhook:" ;;;
       ret (mkResponse 500
              (Failure "Failed to process webhook"
                 (Some (match error with
                        | JsError m => m
                        | JsValue _ => "Unknown error"
                        end))))).

End WithEnv.
End OrdersService.

(** ** The Kafka consumer wrapper and the Kafka orders service

    The earlier transport of the same pipeline (services/shared/consumer.ts,
    services/shared/producer.ts, services/orders-service/index.ts).  Its
    typed consumer is the one place in the repository that re-emits a
    failed event to the analytics topic. *)

Module KafkaService.
Section WithEnv.
Variable env : Env.
(** [JSON.parse(message.value.toString())] *)
Variable JSON_parse : string -> Result CheckoutCommand.

Definition COMMANDS : string := "ecom.commands".
Definition ORDERS : string := "ecom.orders".
Definition NOTIFICATIONS : string := "ecom.notifications".
Definition INVENTORY : string := "ecom.inventory".
Definition ANALYTICS : string := "ecom.analytics".

Record KafkaMessage : Type := mkMessage {
  km_value : option string;
  km_headers : gmap string string
}.

(** [producer.send] of one record with one message. *)
Definition send (topic key : string) (event : AppEvent) : M unit :=
  fun w =>
    let w' := tick_publish (add_effect (KafkaSend topic key event) w) in
    match publishFault env (publishCalls w) with
    | Some e => (Throw e, w')
    | None => (Ok tt, w')
    end.

(** [publishEvent(topic, event, key)]: the key defaults to the event id. *)
Definition publishEvent (topic : string) (event : AppEvent)
    (key : option string) : M unit :=
  send topic (or_else key (eventId event)) event.

Definition publish_keyed (eventType topic source : string) (p : Payload)
    (key : string) (correlationId : option string) : M unit :=
  event <- QstashProducer.createBaseEvent env eventType p source
             correlationId ;;
  publishEvent topic event (Some key).

Definition handleCheckoutCommand : CheckoutCommand -> M unit :=
  Checkout.handleCheckoutCommand env
    (fun p c => publish_keyed "inventory.stock.updated" INVENTORY
                  "orders-service" (PStock p) (su_productId p) (Some c))
    (fun p c => publish_keyed "order.created" ORDERS "orders-service"
                  (POrder p) (op_orderId p) (Some c))
    (fun p c => publish_keyed "notification.email" NOTIFICATIONS
                  "orders-service" (PEmail p) (to p) (Some c))
    (fun p c => publish_keyed "analytics.audit" ANALYTICS "api" (PAudit p)
                  (entityId p) (Some c))
    "[Orders Service] Failed to publish stock update:".

(** [parseEvent]: [null] when there is no value or it does not parse. *)
Definition parseEvent (message : KafkaMessage) : M (option CheckoutCommand) :=
  match km_value message with
  | None => ret None
  | Some value =>
      match JSON_parse value with
      | Ok event => ret (Some event)
      | Throw _ =>
          console_error "[Kafka Consumer] Failed to parse message as JSON" ;;;
          ret None
      end
  end.

Definition sendToDLQ (originalTopic originalEventType : string)
    (originalEvent : option CheckoutCommand) (error : Thrown)
    (retryCount : Z) : M unit :=
  id <- fresh_uuid env ;;
  key <- fresh_uuid env ;;
  publishEvent ANALYTICS
    (mkEvent id "analytics.dlq" "1.0" "consumer-dlq" None
       (PDeadLetter
          (mkDeadLetter originalTopic originalEventType originalEvent
             (details_of error) retryCount)))
    (Some key).

(** [eachMessage] of [createTypedConsumer], for a consumer configured with
    the event types [eventTypes] and [enableDLQ]. *)
Definition eachMessage (eventTypes : list string) (enableDLQ : bool)
    (handler : CheckoutCommand -> M unit) (topic : string)
    (message : KafkaMessage) : M unit :=
  match km_headers message !! "eventType" with
  | Some eventType =>
      if negb (truthy (Some eventType))
         || negb (bool_decide (eventType ∈ eventTypes))
      then ret tt
      else
        parsed <- parseEvent message ;;
        match parsed with
        | None => ret tt
        | Some event =>
            try_catch
              (handler event)
              (fun error =>
                 console_error "[Kafka Consumer] Error processing" ;;;
                 if enableDLQ
                 then sendToDLQ topic eventType (Some event) error 0
                 else ret tt)
        end
  | None => ret tt
  end.

(** The consumer started by services/orders-service/index.ts. *)
Definition orders_consumer : string -> KafkaMessage -> M unit :=
  eachMessage ["command.checkout"] true handleCheckoutCommand.

End WithEnv.
End KafkaService.

(** ** What a trace says about transactions and publishes *)

Inductive Mark : Type :=
  | MBegin
  | MCommit
  | MRollback
  | MPublish (target : string) (eventType : string).

Definition mark_of (e : Effect) : option Mark :=
  match e with
  | TxBegin => Some MBegin
  | TxCommit => Some MCommit
  | TxRollback => Some MRollback
  | PublishCall url ev _ => Some (MPublish url (eventType ev))
  | KafkaSend topic _ ev => Some (MPublish topic (eventType ev))
  | VerifyCall _ _ => None
  | Logged _ _ => None
  | MailSent _ _ => None
  end.

(** The transaction boundaries and publish calls of a trace, in order. *)
Definition marks (l : list Effect) : list Mark := omap mark_of l.

(** [n] copies of the marks [ms], one after the other. *)
Definition times (n : nat) (ms : list Mark) : list Mark :=
  mjoin (replicate n ms).

(** Is the transaction open after the marks [ms], when it was [open] before? *)
Fixpoint tx_open (open : bool) (ms : list Mark) : bool :=
  match ms with
  | [] => open
  | MBegin :: rest => tx_open true rest
  | MCommit :: rest => tx_open false rest
  | MRollback :: rest => tx_open false rest
  | MPublish _ _ :: rest => tx_open open rest
  end.

(** The event types published while a transaction is open. *)
Fixpoint published_in_tx (open : bool) (ms : list Mark) : list string :=
  match ms with
  | [] => []
  | MBegin :: rest => published_in_tx true rest
  | MCommit :: rest => published_in_tx false rest
  | MRollback :: rest => published_in_tx false rest
  | MPublish _ ty :: rest =>
      (if open then [ty] else []) ++ published_in_tx open rest
  end.

(** The event types published while no transaction is open. *)
Fixpoint published_outside_tx (open : bool) (ms : list Mark) : list string :=
  match ms with
  | [] => []
  | MBegin :: rest => published_outside_tx true rest
  | MCommit :: rest => published_outside_tx false rest
  | MRollback :: rest => published_outside_tx false rest
  | MPublish _ ty :: rest =>
      (if open then [] else [ty]) ++ published_outside_tx open rest
  end.

(** The webhook URLs (or Kafka topics) that received a publish call. *)
Definition publish_targets (ms : list Mark) : list string :=
  omap (fun m => match m with MPublish target _ => Some target | _ => None end)
    ms.

(** The marks of a checkout that committed [n] line items: begin, [n]
    stock-update publishes, commit, then the three awaited publishes. *)
Definition committed_marks (n : nat) (inventory ordersUrl email analytics : string)
  : list Mark :=
  MBegin :: times n [MPublish inventory "inventory.stock.updated"] ++
  [MCommit; MPublish ordersUrl "order.created";
   MPublish email "notification.email"; MPublish analytics "analytics.audit"].

(** The marks [ms] of a checkout of [n] line items that published
    around its commit: they are those of [committed_marks], so the
    stock updates were published inside the open transaction and the other
    three events after the commit. *)
Definition published_around_commit (n : nat) (ms : list Mark) : Prop :=
  (exists inventory ordersUrl email analytics,
      ms = committed_marks n inventory ordersUrl email analytics) /\
  published_in_tx false ms = replicate n "inventory.stock.updated" /\
  published_outside_tx false ms =
    ["order.created"; "notification.email"; "analytics.audit"].

(** ** Fault plans of the relational store *)

(** No statement among the [n] issued from call number [base] on fails. *)
Definition no_fault (env : Env) (base n : nat) : Prop :=
  forall j, (j < n)%nat -> dbFault env (base + j) = None.

(** The [k]-th statement from [base] is the first to fail, throwing [e]. *)
Definition first_fault (env : Env) (base k : nat) (e : Thrown) : Prop :=
  dbFault env (base + k) = Some e /\ no_fault env base k.

(** Statements one line item costs inside the transaction. *)
Definition item_statements (item : OrderItem) : nat :=
  if truthy (variationId item) then 3 else 2.

Definition loop_statements (l : list OrderItem) : nat :=
  sum_list (item_statements <$> l).

(** Statements of the whole transaction: two inserts, the loop, the commit. *)
Definition transaction_statements (l : list OrderItem) : nat :=
  2 + loop_statements l + 1.

(** ** Predicates used to state the properties *)

(** From [w] to [w']: [n] statements went through without a fault, Redis
    was left alone, and the trace grew by effects whose marks are [ms]. *)
Definition went_well (env : Env) (w w' : World) (n : nat) (ms : list Mark)
  : Prop :=
  no_fault env (dbCalls w) n /\
  dbCalls w' = (dbCalls w + n)%nat /\
  redis w' = redis w /\ redisCalls w' = redisCalls w /\
  exists delta, trace w' = trace w ++ delta /\ marks delta = ms.

(** From [w] to [w']: one of the first [n] statements failed with [e],
    the earlier ones went through, and the trace grew by [ms]. *)
Definition went_wrong (env : Env) (w w' : World) (n : nat) (e : Thrown)
    (ms : list Mark) : Prop :=
  (exists k, (k < n)%nat /\ first_fault env (dbCalls w) k e) /\
  redis w' = redis w /\ redisCalls w' = redisCalls w /\
  exists delta, trace w' = trace w ++ delta /\ marks delta = ms.

(** A computation that leaves both stores alone and whose trace
    contribution has exactly the marks [ms], whether it returns or throws. *)
Definition publishes {A} (ms : list Mark) (m : M A) : Prop :=
  forall w r w',
    m w = (r, w') ->
    db w' = db w /\ dbCalls w' = dbCalls w /\
    redis w' = redis w /\ redisCalls w' = redisCalls w /\
    exists delta, trace w' = trace w ++ delta /\ marks delta = ms.

(** What selling one line item does to the stock columns. *)
Definition sold (item : OrderItem) (d : Db) : Db :=
  mkDb (orders d) (orderItems d)
    (alter (fun s => s - quantity item)%Z (productId item) (products d))
    (match variationId item with
     | Some v =>
         if truthy (Some v)
         then alter (fun s => s - quantity item)%Z v (productVariations d)
         else productVariations d
     | None => productVariations d
     end).

Definition sold_all (l : list OrderItem) (d : Db) : Db :=
  foldl (fun d item => sold item d) d l.

(** The database a committed checkout leaves: one more order row, the
    line-item rows, and every item's quantity taken off the stock. *)
Definition checked_out (l : list OrderItem) (newOrder : OrderRow)
    (rows : list OrderItemRow) (d : Db) : Db :=
  sold_all l
    (mkDb (orders d ++ [newOrder]) (orderItems d ++ rows) (products d)
       (productVariations d)).

(** A webhook whose [POST] answers an error thrown in its [try] block by
    the error's message: 401 exactly when it is an [Error] whose message
    contains 'signature', 500 exactly when not. *)
Definition answers_by_message (attempt POST : Request -> M Response) : Prop :=
  forall request w e w1,
    attempt request w = (Throw e, w1) ->
    exists response w',
      POST request w = (Ok response, w') /\
      (status response = 401%Z <-> mentions_signature e = true) /\
      (status response = 500%Z <-> mentions_signature e = false).

(** ** Concrete deliveries used as witnesses *)

Module Scenario.

Definition configured : gmap string string :=
  list_to_map
    [("QSTASH_CURRENT_SIGNING_KEY", "sig_current");
     ("QSTASH_NEXT_SIGNING_KEY", "sig_next");
     ("QSTASH_TOKEN", "token");
     ("NODE_ENV", "production")].

Definition no_faults : nat -> option Thrown := fun _ => None.

Definition fault_at (k : nat) (e : Thrown) : nat -> option Thrown :=
  fun n => if Nat.eqb n k then Some e else None.

Definition uuid (n : nat) : string := "uuid-" +:+ pretty n.

(** Keys configured, every service healthy. *)
Definition healthy : Env :=
  mkEnv configured (fun _ => JNum 0) no_faults no_faults no_faults no_faults
    uuid.

(** As [healthy], with the [k]-th store statement failing. *)
Definition db_failing (k : nat) (e : Thrown) : Env :=
  mkEnv configured (fun _ => JNum 0) (fault_at k e) no_faults no_faults
    no_faults uuid.

(** As [healthy], with Redis unreachable. *)
Definition redis_down : Env :=
  mkEnv configured (fun _ => JNum 0) no_faults
    (fun _ => Some (JsError "connect ECONNREFUSED 127.0.0.1:6379"))
    no_faults no_faults uuid.

(** No signing keys; [mode] is the value of NODE_ENV. *)
Definition unconfigured (mode : string) : Env :=
  mkEnv (list_to_map [("NODE_ENV", mode)]) (fun _ => JNum 0) no_faults
    no_faults no_faults no_faults uuid.

(** A development deployment: the queue token and SMTP are configured, the
    signing keys are not, so that the body of a delivery is read as the
    event. *)
Definition development : gmap string string :=
  list_to_map
    [("QSTASH_TOKEN", "token");
     ("NODE_ENV", "development");
     ("SMTP_HOST", "smtp.example.com"); ("SMTP_USER", "mailer");
     ("SMTP_PASS", "secret")].

Definition dev : Env :=
  mkEnv development (fun _ => JNum 0) no_faults no_faults no_faults no_faults
    uuid.

(** As [dev], with the [k]-th store statement failing. *)
Definition dev_db_failing (k : nat) (e : Thrown) : Env :=
  mkEnv development (fun _ => JNum 0) (fault_at k e) no_faults no_faults
    no_faults uuid.

(** As [dev], with the [k]-th publish call failing. *)
Definition dev_queue_failing (k : nat) (e : Thrown) : Env :=
  mkEnv development (fun _ => JNum 0) no_faults no_faults (fault_at k e)
    no_faults uuid.


(** Product A has 10 in stock, product B has 5, product C has 7. *)
Definition start : World :=
  mkWorld
    (mkDb [] [] (list_to_map [("A", 10%Z); ("B", 5%Z); ("C", 7%Z)]) ∅)
    ∅ [] 0 0 0 0 0.

(** Two of A at 10 and one of B at 25, total 45. *)
Definition checkout : CheckoutCommand :=
  mkEvent "evt-1" "command.checkout" "1.0" "checkout-api" (Some "corr-1")
    (mkCheckout "user-1" "Ann" "ann@example.com" "1 Main St"
       [mkItem "A" None 2 10 None; mkItem "B" None 1 25 None] 45 "pay-1").

(** Eleven of A, of which ten are in stock. *)
Definition oversell : CheckoutCommand :=
  mkEvent "evt-3" "command.checkout" "1.0" "checkout-api" (Some "corr-3")
    (mkCheckout "user-1" "Ann" "ann@example.com" "1 Main St"
       [mkItem "A" None 11 10 None] 110 "pay-3").

Definition checkout3 : CheckoutCommand :=
  mkEvent "evt-2" "command.checkout" "1.0" "checkout-api" (Some "corr-2")
    (mkCheckout "user-1" "Ann" "ann@example.com" "1 Main St"
       [mkItem "A" None 2 10 None; mkItem "B" None 1 25 None;
        mkItem "C" None 3 5 None] 60 "pay-2").

Definition sms : EmailNotificationEvent :=
  mkEvent "evt-4" "notification.sms" "1.0" "orders-service" None
    (mkEmail "" "" "" (mkConfirmation "" "" [] 0) "normal").

Definition signed (body : string) : Request :=
  mkRequest (list_to_map [("upstash-signature", "good")]) body.

Definition unsigned (body : string) : Request := mkRequest ∅ body.

(** A receiver that accepts the signature "good". *)
Definition accepts_bool (signature body : string) : Result bool :=
  if String.eqb signature "good" then Ok true
  else Throw (JsError "signature does not match").

(** A body parser that knows the one well-formed body "checkout". *)
Definition parses {T} (e : T) (body : string) : Result T :=
  if String.eqb body "checkout" then Ok e
  else Throw (JsError "Unexpected end of JSON input").

(** [request.json()] for a request whose body is the JSON text of [e];
    the body "true" stands for that of the boolean, and "{" for one that
    does not parse. *)
Definition reads {T} (e : T) (body : string) : Result (Js T) :=
  if String.eqb body "{" then Throw (JsError "Unexpected end of JSON input")
  else if String.eqb body "true" then Ok (JBoolean true)
  else Ok (JObject e).

(** The world [w] once the verifier has warned that it skips
    verification. *)
Definition warned (w : World) : World :=
  add_effect
    (Logged Warn
       "[QStash] Signing keys not configured - skipping verification (DEV mode)")
    w.

End Scenario.

(** ** Event type guards (services/shared/types.ts) *)

Module SharedTypes.

Definition isCommandEvent {P} (event : BaseEvent P) : bool :=
  String.prefix "command." (eventType event).

Definition isOrderEvent {P} (event : BaseEvent P) : bool :=
  String.prefix "order." (eventType event).

Definition isNotificationEvent {P} (event : BaseEvent P) : bool :=
  String.prefix "notification." (eventType event).

Definition isInventoryEvent {P} (event : BaseEvent P) : bool :=
  String.prefix "inventory." (eventType event).

Definition isAnalyticsEvent {P} (event : BaseEvent P) : bool :=
  String.prefix "analytics." (eventType event).

End SharedTypes.

(** ** Automatic routing (lib/qstash-producer.ts) *)

Module AutoRoute.

(** [publishAutoRoute] *)
Definition publishAutoRoute (env : Env) (event : AppEvent) : M unit :=
  let topic := QstashProducer.getTopicForEvent event in
  QstashProducer.publishEvent env topic event None.

End AutoRoute.

(** ** CORS of the services (services/shared/cors.ts) *)

Module Cors.
Section WithEnv.
Variable env : Env.
(** [String.prototype.trim] *)
Variable trim : string -> string.

(** [s.split(',')]: the pieces between commas, at least one. *)
Fixpoint split_comma (s : string) : list string :=
  match s with
  | EmptyString => [EmptyString]
  | String c rest =>
      if Ascii.eqb c ","%char then EmptyString :: split_comma rest
      else
        match split_comma rest with
        | piece :: pieces => String c piece :: pieces
        | [] => [String c EmptyString]
        end
  end.

(** [allowedOrigins] of [getCorsConfig]. *)
Definition allowedOrigins : list string :=
  match process_env env !! "CORS_ALLOWED_ORIGINS" with
  | Some value =>
      if truthy (Some value) then map trim (split_comma value) else ["*"]
  | None => ["*"]
  end.

(** [allowedOrigin] of [applyCorsHeaders]: the value of the
    Access-Control-Allow-Origin header; [None] stands for [undefined]. *)
Definition allowedOrigin (origin : option string) : option string :=
  if bool_decide ("*" ∈ allowedOrigins) then Some "*"
  else
    match List.find (fun o => bool_decide (Some o = origin)) allowedOrigins with
    | Some found =>
        if truthy (Some found) then Some found else head allowedOrigins
    | None => head allowedOrigins
    end.

End WithEnv.
End Cors.

(** ** Further predicates used to state properties *)

(** An effect that is not a call to the queue or to the Kafka producer. *)
Definition quiet (effect : Effect) : bool :=
  match effect with
  | PublishCall _ _ _ | KafkaSend _ _ _ => false
  | _ => true
  end.

(** From [w] to [w']: the trace grew by effects that all satisfy [P], the
    publish counter advanced by one for each publish among them, and the
    mailer was not called. *)
Definition advance (P : Effect -> Prop) (w w' : World) : Prop :=
  exists delta,
    trace w' = trace w ++ delta /\ Forall P delta /\
    publishCalls w' =
      (publishCalls w + length (publish_targets (marks delta)))%nat /\
    smtpCalls w' = smtpCalls w.

(** Whatever the computation does, on return or on throw, is an [advance]. *)
Definition emits (P : Effect -> Prop) {A} (m : M A) : Prop :=
  forall w r w', m w = (r, w') -> advance P w w'.

(** A publish call carries the correlation id [c]; other effects pass. *)
Definition carries (c : option string) (effect : Effect) : Prop :=
  match effect with
  | PublishCall _ event _ => correlationId event = c
  | KafkaSend _ _ event => correlationId event = c
  | _ => True
  end.

(** Total quantity of product [p] among the line items [l]. *)
Definition ordered (p : string) (l : list OrderItem) : Z :=
  foldr (fun item acc =>
           if String.eqb (productId item) p then quantity item + acc else acc)%Z
    0%Z l.

(** Total quantity of the variation [v] among the line items [l]; an
    empty variation id counts as none. *)
Definition ordered_variation (v : string) (l : list OrderItem) : Z :=
  foldr (fun item acc =>
           if bool_decide (variationId item = Some v) && truthy (Some v)
           then quantity item + acc else acc)%Z
    0%Z l.

(** The line-item row written for [item] under the order [orderId]. *)
Definition row_of (orderId : string) (row : OrderItemRow) (item : OrderItem)
  : Prop :=
  oi_orderId row = orderId /\
  oi_productId row = productId item /\
  oi_variationId row =
    (if truthy (variationId item) then variationId item else None) /\
  oi_quantity row = quantity item /\
  oi_price row = price item.

(** The effects among [l] other than log lines (of which the trace keeps
    the fixed part of the text only). *)
Definition acts (l : list Effect) : list Effect :=
  List.filter
    (fun effect => match effect with Logged _ _ => false | _ => true end) l.

(** The calls made to the mailer and to the queue so far. *)
Definition deliveries (w : World) : nat * nat := (smtpCalls w, publishCalls w).

(** A publisher of events of type [ty] from [source].  It creates an event
    with a fresh id, that type, version 1.0, the payload [pl] and the
    correlation id [c], left out when empty; issues one publish call for
    it, with three retries, to the webhook of the topic that the router
    assigns to the event; and resolves to the event, or, when the call
    fails, logs the failure and throws the queue's error. *)
Definition publishes_routed (env : Env) (ty source : string)
    (c : option string) (pl : Payload) (m : M AppEvent) : Prop :=
  forall w,
    let event :=
      mkEvent (randomUUID env (uuidCalls w)) ty "1.0" source
        (if truthy c then c else None) pl in
    let call :=
      PublishCall
        (QstashProducer.getWebhookUrl env
           (QstashProducer.getTopicForEvent event))
        event (Some 3%Z) in
    uuidCalls (snd (m w)) = S (uuidCalls w) /\
    publishCalls (snd (m w)) = S (publishCalls w) /\
    match publishFault env (publishCalls w) with
    | None =>
        fst (m w) = Ok event /\ trace (snd (m w)) = trace w ++ [call]
    | Some e =>
        fst (m w) = Throw e /\
        trace (snd (m w)) =
          trace w ++ [call; Logged Error "[QStash] Failed to publish"]
    end.

(** Names that every JavaScript object answers to through its prototype:
    a lookup [object[name]] finds a value for them in an object literal
    that has no such entry. *)
Definition inherited_property (name : string) : bool :=
  bool_decide
    (name ∈ ["constructor"; "__proto__"; "hasOwnProperty"; "isPrototypeOf";
             "propertyIsEnumerable"; "toLocaleString"; "toString"; "valueOf";
             "__defineGetter__"; "__defineSetter__"; "__lookupGetter__";
             "__lookupSetter__"]).

(** The answer of an acknowledging webhook to an error thrown in its
    [try] block. *)
Definition answer_to (e : Thrown) : Response :=
  if mentions_signature e
  then mkResponse 401 (Failure "Invalid signature" None)
  else mkResponse 500 (Failure "Processing failed" (Some (details_of e))).

(** Its answer to a value it could read to the end: the value's id and
    type, which are [undefined] for a boolean. *)
Definition acknowledged {T} (event : Js (BaseEvent T)) : Response :=
  mkResponse 200 (Success (prop eventId event) (prop eventType event) None).

(** What an acknowledging webhook has done when it answers: nothing to
    either store, the queue or the mailer, and its answer is [expected]. *)
Definition acknowledges (expected : Response) (w : World)
    (run : Result Response * World) : Prop :=
  fst run = Ok expected /\
  db (snd run) = db w /\ dbCalls (snd run) = dbCalls w /\
  redis (snd run) = redis w /\ redisCalls (snd run) = redisCalls w /\
  deliveries (snd run) = deliveries w.

(** The relational store after [w'] is the store of [w] untouched, or
    that store with one whole checkout of the items [l] carried out. *)
Definition untouched_or_checked_out (l : list OrderItem) (w w' : World)
  : Prop :=
  db w' = db w \/
  exists newOrder rows,
    length rows = length l /\ db w' = checked_out l newOrder rows (db w).

(** ** Further concrete deliveries *)

Module Cases.

(** As [Scenario.healthy], without the queue token. *)
Definition tokenless : Env :=
  mkEnv
    (list_to_map
       [("QSTASH_CURRENT_SIGNING_KEY", "sig_current");
        ("QSTASH_NEXT_SIGNING_KEY", "sig_next");
        ("NODE_ENV", "production")])
    (fun _ => JNum 0) Scenario.no_faults Scenario.no_faults Scenario.no_faults
    Scenario.no_faults Scenario.uuid.

(** With a list of allowed origins. *)
Definition cors_listed : Env :=
  mkEnv
    (list_to_map
       [("CORS_ALLOWED_ORIGINS", "https://shop.example.com,https://admin.example.com")])
    (fun _ => JNum 0) Scenario.no_faults Scenario.no_faults Scenario.no_faults
    Scenario.no_faults Scenario.uuid.

(** A request whose signature the receiver [Scenario.accepts_bool]
    rejects. *)
Definition forged (body : string) : Request :=
  mkRequest (list_to_map [("upstash-signature", "forged")]) body.

(** A command of a type the consumers do not handle. *)
Definition refund : CheckoutCommand :=
  mkEvent "evt-12" "command.refund" "1.0" "checkout-api" None
    (mkCheckout "user-1" "Ann" "ann@example.com" "1 Main St" [] 0 "pay-4").

(** An order event, as the orders topic carries it. *)
Definition order_shipped : CheckoutCommand :=
  mkEvent "evt-13" "order.shipped" "1.0" "orders-service" None
    (mkCheckout "user-1" "Ann" "ann@example.com" "1 Main St" [] 0 "pay-4").

(** An order confirmation request. *)
Definition confirmation : EmailNotificationEvent :=
  mkEvent "evt-9" "notification.email" "1.0" "orders-service" (Some "corr-1")
    (mkEmail "ann@example.com" "Order Confirmation - uuid-0"
       "order-confirmation"
       (mkConfirmation "uuid-0" "Ann"
          [mkItem "A" None 2 10 None; mkItem "B" None 1 25 None] 45)
       "high").

(** The same request naming a template that is not registered. *)
Definition unknown_template : EmailNotificationEvent :=
  mkEvent "evt-10" "notification.email" "1.0" "orders-service" (Some "corr-1")
    (mkEmail "ann@example.com" "Welcome" "welcome"
       (mkConfirmation "" "" [] 0) "low").

(** Product A twice, eleven in all of the ten in stock, and product B
    once. *)
Definition repeated : CheckoutCommand :=
  mkEvent "evt-11" "command.checkout" "1.0" "checkout-api" None
    (mkCheckout "user-1" "Ann" "ann@example.com" "1 Main St"
       [mkItem "A" None 2 10 None; mkItem "B" None 1 25 None;
        mkItem "A" None 9 10 None]
       135 "pay-3").

(** A Kafka message carrying the three-item checkout. *)
Definition kafka_checkout : KafkaService.KafkaMessage :=
  KafkaService.mkMessage (Some "checkout")
    (list_to_map [("eventType", "command.checkout")]).

Definition kafka_other : KafkaService.KafkaMessage :=
  KafkaService.mkMessage (Some "checkout")
    (list_to_map [("eventType", "order.created")]).

End Cases.

(** * Properties *)

(** ** Running the monad *)

Lemma bind_ok {A B} (m : M A) (k : A -> M B) w a w1 :
  m w = (Ok a, w1) -> bind m k w = k a w1.
Proof. intros H. unfold bind. now rewrite H. Qed.

Lemma bind_throw {A B} (m : M A) (k : A -> M B) w e w1 :
  m w = (Throw e, w1) -> bind m k w = (Throw e, w1).
Proof. intros H. unfold bind. now rewrite H. Qed.

Lemma bind_inv {A B} (m : M A) (k : A -> M B) w r w' :
  bind m k w = (r, w') ->
  (exists a w1, m w = (Ok a, w1) /\ k a w1 = (r, w')) \/
  (exists e, m w = (Throw e, w') /\ r = Throw e).
Proof.
  unfold bind. destruct (m w) as [[a|e] w1]; intros H.
  - left. eauto.
  - right. inversion H; subst. eauto.
Qed.

Lemma try_catch_ok {A} (m : M A) h w a w1 :
  m w = (Ok a, w1) -> try_catch m h w = (Ok a, w1).
Proof. intros H. unfold try_catch. now rewrite H. Qed.

Lemma try_catch_throw {A} (m : M A) h w e w1 :
  m w = (Throw e, w1) -> try_catch m h w = h e w1.
Proof. intros H. unfold try_catch. now rewrite H. Qed.

(** ** The idempotency store (lib/deduplication.ts) *)

Section DeduplicationFacts.
Variable env : Env.

Lemma isEventProcessed_total eventId w :
  exists b w', Deduplication.isEventProcessed env eventId w = (Ok b, w').
Proof.
  unfold Deduplication.isEventProcessed, try_catch, bind,
    Deduplication.redis_exists.
  destruct (redisFault env (redisCalls w)); simpl; eauto.
Qed.

Lemma markEventProcessed_total eventId ttl w :
  exists w', Deduplication.markEventProcessed env eventId ttl w = (Ok tt, w').
Proof.
  unfold Deduplication.markEventProcessed, try_catch,
    Deduplication.redis_setex.
  destruct (redisFault env (redisCalls w)); simpl; eauto.
  destruct (0 <? ttl)%Z; simpl; eauto.
Qed.

Lemma isEventProcessed_seen eventId w v :
  redisFault env (redisCalls w) = None ->
  redis w !! (Deduplication.DEDUP_KEY_PREFIX +:+ eventId) = Some v ->
  Deduplication.isEventProcessed env eventId w = (Ok true, tick_redis w).
Proof.
  intros Hup Hkey.
  unfold Deduplication.isEventProcessed, try_catch, bind,
    Deduplication.redis_exists.
  now rewrite Hup, Hkey.
Qed.

Lemma isEventProcessed_fresh eventId w :
  redisFault env (redisCalls w) = None ->
  redis w !! (Deduplication.DEDUP_KEY_PREFIX +:+ eventId) = None ->
  Deduplication.isEventProcessed env eventId w = (Ok false, tick_redis w).
Proof.
  intros Hup Hkey.
  unfold Deduplication.isEventProcessed, try_catch, bind,
    Deduplication.redis_exists.
  now rewrite Hup, Hkey.
Qed.

Lemma markEventProcessed_records eventId ttl w :
  (0 < ttl)%Z ->
  redisFault env (redisCalls w) = None ->
  Deduplication.markEventProcessed env eventId ttl w =
    (Ok tt,
     set_redis
       (<[Deduplication.DEDUP_KEY_PREFIX +:+ eventId := (ttl, "1")]> (redis w))
       (tick_redis w)).
Proof.
  intros Httl Hup.
  unfold Deduplication.markEventProcessed, try_catch,
    Deduplication.redis_setex.
  rewrite Hup. apply Z.ltb_lt in Httl. now rewrite Httl.
Qed.

Lemma processWithDeduplication_seen {T} eventId (processor : M T) w w1 :
  Deduplication.isEventProcessed env eventId w = (Ok true, w1) ->
  Deduplication.processWithDeduplication env eventId processor w =
    (Ok (Deduplication.mkOutcome false None), w1).
Proof.
  intros Hseen. unfold Deduplication.processWithDeduplication.
  now rewrite (bind_ok _ _ _ _ _ Hseen).
Qed.

Lemma processWithDeduplication_succeeds {T} eventId (processor : M T)
    w w1 r w2 :
  Deduplication.isEventProcessed env eventId w = (Ok false, w1) ->
  processor w1 = (Ok r, w2) ->
  Deduplication.processWithDeduplication env eventId processor w =
    (Ok (Deduplication.mkOutcome true (Some r)),
     snd (Deduplication.markEventProcessed env eventId
            Deduplication.DEDUP_TTL_SECONDS w2)).
Proof.
  intros Hnew Hrun. unfold Deduplication.processWithDeduplication.
  rewrite (bind_ok _ _ _ _ _ Hnew).
  destruct (markEventProcessed_total eventId
              Deduplication.DEDUP_TTL_SECONDS w2) as [w3 Hmark].
  erewrite try_catch_ok; [reflexivity|].
  rewrite (bind_ok _ _ _ _ _ Hrun).
  rewrite (bind_ok _ _ _ _ _ Hmark).
  now rewrite Hmark.
Qed.

Lemma processWithDeduplication_fails {T} eventId (processor : M T)
    w w1 e w2 :
  Deduplication.isEventProcessed env eventId w = (Ok false, w1) ->
  processor w1 = (Throw e, w2) ->
  Deduplication.processWithDeduplication env eventId processor w =
    (Throw e, w2).
Proof.
  intros Hnew Hrun. unfold Deduplication.processWithDeduplication.
  rewrite (bind_ok _ _ _ _ _ Hnew).
  erewrite try_catch_throw; [reflexivity|].
  now rewrite (bind_throw _ _ _ _ _ Hrun).
Qed.

End DeduplicationFacts.

(** C6.  When the store call throws, [isEventProcessed] answers [false]
    (not seen) and [markEventProcessed] returns normally; each only logs
    the failure, and neither function ever throws, whatever the state of
    the store. *)
Theorem store_failure_fails_open env eventId ttl w e :
  redisFault env (redisCalls w) = Some e ->
  Deduplication.isEventProcessed env eventId w =
    (Ok false,
     add_effect (Logged Error "[Deduplication] Redis check failed:")
       (tick_redis w)) /\
  Deduplication.markEventProcessed env eventId ttl w =
    (Ok tt,
     add_effect
       (Logged Error "[Deduplication] Failed to mark event as processed:")
       (tick_redis w)) /\
  (forall id w0, exists b w1,
      Deduplication.isEventProcessed env id w0 = (Ok b, w1)) /\
  (forall id t w0, exists w1,
      Deduplication.markEventProcessed env id t w0 = (Ok tt, w1)).
Proof.
  intros Hdown. repeat split.
  - unfold Deduplication.isEventProcessed, try_catch, bind,
      Deduplication.redis_exists.
    now rewrite Hdown.
  - unfold Deduplication.markEventProcessed, try_catch,
      Deduplication.redis_setex.
    now rewrite Hdown.
  - intros. apply isEventProcessed_total.
  - intros. apply markEventProcessed_total.
Qed.

Lemma store_failure_fails_open_witness :
  redisFault Scenario.redis_down (redisCalls Scenario.start) =
    Some (JsError "connect ECONNREFUSED 127.0.0.1:6379") /\
  fst (Deduplication.isEventProcessed Scenario.redis_down "evt-1" Scenario.start)
    = Ok false /\
  fst (Deduplication.markEventProcessed Scenario.redis_down "evt-1" 3600
         Scenario.start) = Ok tt.
Proof.
  split; [reflexivity|].
  destruct (store_failure_fails_open Scenario.redis_down "evt-1" 3600
              Scenario.start (JsError "connect ECONNREFUSED 127.0.0.1:6379")
              eq_refl) as (H1 & H2 & _).
  rewrite H1, H2. split; reflexivity.
Defined.

(** C7.  [processWithDeduplication] runs the processor only when the id is
    not reported as seen: on a seen id it returns the duplicate result in
    the world left by the check alone.  Otherwise the processor runs right
    after the check; when it succeeds the record is written afterwards by
    [markEventProcessed], and when it throws the same error is thrown on
    from the world the processor left, with no record written. *)
Theorem processWithDeduplication_contract {T} env eventId (processor : M T) w :
  (forall w1,
      Deduplication.isEventProcessed env eventId w = (Ok true, w1) ->
      Deduplication.processWithDeduplication env eventId processor w =
        (Ok (Deduplication.mkOutcome false None), w1)) /\
  (forall w1 r w2,
      Deduplication.isEventProcessed env eventId w = (Ok false, w1) ->
      processor w1 = (Ok r, w2) ->
      Deduplication.processWithDeduplication env eventId processor w =
        (Ok (Deduplication.mkOutcome true (Some r)),
         snd (Deduplication.markEventProcessed env eventId
                Deduplication.DEDUP_TTL_SECONDS w2)) /\
      (redisFault env (redisCalls w2) = None ->
       redis (snd (Deduplication.processWithDeduplication env eventId
                     processor w))
         !! (Deduplication.DEDUP_KEY_PREFIX +:+ eventId) =
       Some (Deduplication.DEDUP_TTL_SECONDS, "1"))) /\
  (forall w1 e w2,
      Deduplication.isEventProcessed env eventId w = (Ok false, w1) ->
      processor w1 = (Throw e, w2) ->
      Deduplication.processWithDeduplication env eventId processor w =
        (Throw e, w2)).
Proof.
  split; [|split].
  - intros w1 Hseen. now apply processWithDeduplication_seen.
  - intros w1 r w2 Hnew Hrun.
    pose proof (processWithDeduplication_succeeds env eventId processor
                  w w1 r w2 Hnew Hrun) as Heq.
    split; [exact Heq|].
    intros Hup. rewrite Heq. simpl.
    rewrite (markEventProcessed_records env eventId Deduplication.DEDUP_TTL_SECONDS w2 eq_refl Hup). simpl.
    apply lookup_insert_eq.
  - intros w1 e w2 Hnew Hrun.
    exact (processWithDeduplication_fails env eventId processor w w1 e w2
             Hnew Hrun).
Qed.

Lemma processWithDeduplication_contract_witness :
  let first := Deduplication.processWithDeduplication Scenario.healthy "evt-1"
                 (ret 7%Z) Scenario.start in
  fst first = Ok (Deduplication.mkOutcome true (Some 7%Z)) /\
  fst (Deduplication.processWithDeduplication Scenario.healthy "evt-1"
         (ret 8%Z) (snd first)) = Ok (Deduplication.mkOutcome false None) /\
  Deduplication.processWithDeduplication Scenario.healthy "evt-1"
    (throw (JsError "boom") : M Z) Scenario.start =
    (Throw (JsError "boom"), tick_redis Scenario.start).
Proof.
  pose proof (processWithDeduplication_contract Scenario.healthy "evt-1"
                (ret 7%Z) Scenario.start) as (_ & Hrun & _).
  destruct (Hrun (tick_redis Scenario.start) 7%Z (tick_redis Scenario.start)
              eq_refl eq_refl) as [Hfirst _].
  cbv zeta. rewrite Hfirst. split; [reflexivity|]. split.
  - match goal with
    | |- fst (Deduplication.processWithDeduplication _ _ _ ?w) = _ =>
        pose proof (processWithDeduplication_contract Scenario.healthy "evt-1"
                      (ret 8%Z) w) as (Hdup & _ & _)
    end.
    erewrite Hdup; [reflexivity|]. reflexivity.
  - pose proof (processWithDeduplication_contract Scenario.healthy "evt-1"
                  (throw (JsError "boom") : M Z) Scenario.start)
      as (_ & _ & Hfail).
    exact (Hfail (tick_redis Scenario.start) (JsError "boom")
             (tick_redis Scenario.start) eq_refl eq_refl).
Defined.

(** ** The signature verifier (lib/qstash-webhook.ts) *)

(** The guard of the verifier fires as soon as one key is missing. *)
Lemma keys_guard env :
  truthy (QstashWebhook.currentSigningKey env) = false \/
  truthy (QstashWebhook.nextSigningKey env) = false ->
  negb (truthy (QstashWebhook.currentSigningKey env))
  || negb (truthy (QstashWebhook.nextSigningKey env)) = true.
Proof.
  intros [-> | ->]; simpl; [reflexivity | apply orb_true_r].
Qed.

(** Without keys, in development mode: the parsed body, unverified. *)
Lemma verifier_fails_open {T} env
    (receiver_verify : string -> string -> Result bool)
    (request_json : string -> Result (Js T)) request w :
  truthy (QstashWebhook.currentSigningKey env) = false \/
  truthy (QstashWebhook.nextSigningKey env) = false ->
  process_env env !! "NODE_ENV" = Some "development" ->
  QstashWebhook.verifyQStashSignature env receiver_verify request_json
    request w =
    (request_json (body request),
     add_effect
       (Logged Warn
          "[QStash] Signing keys not configured - skipping verification (DEV mode)")
       w).
Proof.
  intros Hkeys Hmode. unfold QstashWebhook.verifyQStashSignature.
  rewrite (keys_guard env Hkeys). unfold bind, console_warn, emit.
  rewrite bool_decide_eq_true_2 by exact Hmode. reflexivity.
Qed.

(** Without keys, in any other mode: the verifier throws. *)
Lemma verifier_fails_closed {T} env
    (receiver_verify : string -> string -> Result bool)
    (request_json : string -> Result (Js T)) request w :
  truthy (QstashWebhook.currentSigningKey env) = false \/
  truthy (QstashWebhook.nextSigningKey env) = false ->
  process_env env !! "NODE_ENV" <> Some "development" ->
  QstashWebhook.verifyQStashSignature env receiver_verify request_json
    request w =
    (Throw (JsError "QStash signing keys not configured"),
     add_effect
       (Logged Warn
          "[QStash] Signing keys not configured - skipping verification (DEV mode)")
       w).
Proof.
  intros Hkeys Hmode. unfold QstashWebhook.verifyQStashSignature.
  rewrite (keys_guard env Hkeys). unfold bind, console_warn, emit.
  rewrite bool_decide_eq_false_2 by exact Hmode. reflexivity.
Qed.

(** C5.  With a signing key missing, [verifyQStashSignature] logs its
    warning and then: in development mode resolves to the parsed body
    without calling the receiver (no verification is recorded in the
    trace); in every other mode, production included, throws. *)
Theorem unconfigured_keys_fail_closed {T} env
    (receiver_verify : string -> string -> Result bool)
    (request_json : string -> Result (Js T)) request w :
  truthy (QstashWebhook.currentSigningKey env) = false \/
  truthy (QstashWebhook.nextSigningKey env) = false ->
  let warned :=
    add_effect
      (Logged Warn
         "[QStash] Signing keys not configured - skipping verification (DEV mode)")
      w in
  (process_env env !! "NODE_ENV" = Some "development" ->
   QstashWebhook.verifyQStashSignature env receiver_verify request_json
     request w = (request_json (body request), warned) /\
   Forall (fun effect => forall signature text,
             effect <> VerifyCall signature text)
     (drop (length (trace w)) (trace warned))) /\
  (process_env env !! "NODE_ENV" <> Some "development" ->
   QstashWebhook.verifyQStashSignature env receiver_verify request_json
     request w = (Throw (JsError "QStash signing keys not configured"), warned)).
Proof.
  intros Hkeys warned. split; intros Hmode.
  - split; [now apply verifier_fails_open|].
    unfold warned. simpl. rewrite drop_app_length.
    constructor; [|constructor]. intros signature text H. discriminate H.
  - now apply verifier_fails_closed.
Qed.

Lemma unconfigured_keys_fail_closed_witness :
  (truthy (QstashWebhook.currentSigningKey (Scenario.unconfigured "development"))
     = false /\
   fst (QstashWebhook.verifyQStashSignature (Scenario.unconfigured "development")
          Scenario.accepts_bool
          (Scenario.reads Scenario.checkout)
          (Scenario.unsigned "checkout") Scenario.start)
     = Ok (JObject Scenario.checkout)) /\
  fst (QstashWebhook.verifyQStashSignature (Scenario.unconfigured "production")
         Scenario.accepts_bool
         (Scenario.reads Scenario.checkout)
         (Scenario.unsigned "checkout") Scenario.start)
    = Throw (JsError "QStash signing keys not configured").
Proof.
  split; [split; [reflexivity|]|].
  - destruct (unconfigured_keys_fail_closed (Scenario.unconfigured "development")
                Scenario.accepts_bool
                (Scenario.reads Scenario.checkout)
                (Scenario.unsigned "checkout") Scenario.start
                (or_introl eq_refl)) as [Hdev _].
    destruct (Hdev eq_refl) as [Hrun _]. rewrite Hrun; reflexivity.
  - destruct (unconfigured_keys_fail_closed (Scenario.unconfigured "production")
                Scenario.accepts_bool
                (Scenario.reads Scenario.checkout)
                (Scenario.unsigned "checkout") Scenario.start
                (or_introl eq_refl)) as [_ Hprod].
    rewrite Hprod; [reflexivity|]. vm_compute. discriminate.
Defined.

(** ** Accounting for store statements and for the trace *)

Section Accounting.
Local Open Scope nat_scope.
Local Open Scope list_scope.
Variable env : Env.

Lemma marks_app a b : marks (a ++ b) = marks a ++ marks b.
Proof. unfold marks. apply omap_app. Qed.

Lemma no_fault_add base n1 n2 :
  no_fault env base n1 -> no_fault env (base + n1) n2 ->
  no_fault env base (n1 + n2).
Proof.
  intros H1 H2 j Hj. destruct (decide (j < n1)) as [Hlt|Hge].
  - now apply H1.
  - replace (base + j) with (base + n1 + (j - n1)) by lia.
    apply H2. lia.
Qed.

Lemma first_fault_shift base n1 k e :
  no_fault env base n1 -> first_fault env (base + n1) k e ->
  first_fault env base (n1 + k) e.
Proof.
  intros H1 [Hk Hbefore]. split.
  - now rewrite Nat.add_assoc.
  - now apply no_fault_add.
Qed.

Lemma first_fault_unique base k1 e1 k2 e2 :
  first_fault env base k1 e1 -> first_fault env base k2 e2 ->
  k1 = k2 /\ e1 = e2.
Proof.
  intros [H1 B1] [H2 B2].
  destruct (lt_eq_lt_dec k1 k2) as [[Hlt|Heq]|Hgt].
  - rewrite (B2 k1 Hlt) in H1. discriminate.
  - subst. rewrite H1 in H2. now inversion H2.
  - rewrite (B1 k2 Hgt) in H2. discriminate.
Qed.

Lemma no_fault_excludes base n k e :
  no_fault env base n -> first_fault env base k e -> k < n -> False.
Proof. intros Hn [Hk _] Hlt. rewrite (Hn k Hlt) in Hk. discriminate. Qed.

Lemma went_well_refl w : went_well env w w 0 [].
Proof.
  repeat split; try lia.
  - intros j Hj. lia.
  - exists []. now rewrite app_nil_r.
Qed.

Lemma went_well_trans w w1 w2 n1 n2 ms1 ms2 :
  went_well env w w1 n1 ms1 -> went_well env w1 w2 n2 ms2 ->
  went_well env w w2 (n1 + n2) (ms1 ++ ms2).
Proof.
  intros (F1 & C1 & R1 & RC1 & d1 & T1 & M1) (F2 & C2 & R2 & RC2 & d2 & T2 & M2).
  repeat split.
  - apply no_fault_add; [exact F1|]. now rewrite <- C1.
  - lia.
  - congruence.
  - congruence.
  - exists (d1 ++ d2). rewrite T2, T1, marks_app, M1, M2.
    now rewrite app_assoc.
Qed.

Lemma went_wrong_after w w1 w2 n1 n2 e ms1 ms2 :
  went_well env w w1 n1 ms1 -> went_wrong env w1 w2 n2 e ms2 ->
  went_wrong env w w2 (n1 + n2) e (ms1 ++ ms2).
Proof.
  intros (F1 & C1 & R1 & RC1 & d1 & T1 & M1)
         ((k & Hk & Hff) & R2 & RC2 & d2 & T2 & M2).
  repeat split.
  - exists (n1 + k). split; [lia|].
    apply first_fault_shift; [exact F1|]. now rewrite <- C1.
  - congruence.
  - congruence.
  - exists (d1 ++ d2). rewrite T2, T1, marks_app, M1, M2.
    now rewrite app_assoc.
Qed.

Lemma went_wrong_weaken w w' n1 n2 e ms :
  went_wrong env w w' n1 e ms -> went_wrong env w w' (n1 + n2) e ms.
Proof.
  intros ((k & Hk & Hff) & R).
  split; [|exact R]. exists k. split; [lia | exact Hff].
Qed.

(** One statement either goes through or is the fault. *)
Lemma statement_run {A} (f : Db -> A * Db) w r w' :
  Drizzle.statement env f w = (r, w') ->
  match r with
  | Ok a => went_well env w w' 1 [] /\ f (db w) = (a, db w')
  | Throw e => went_wrong env w w' 1 e [] /\ db w' = db w
  end.
Proof.
  unfold Drizzle.statement.
  destruct (dbFault env (dbCalls w)) as [e|] eqn:Hf.
  - intros H; inversion H; subst; clear H. split; [|reflexivity].
    repeat split.
    + exists 0. split; [lia|]. split.
      * now rewrite Nat.add_0_r.
      * intros j Hj; lia.
    + exists []. simpl. now rewrite app_nil_r.
  - destruct (f (db w)) as [a d] eqn:Hfd.
    intros H; inversion H; subst; clear H. split; [|reflexivity].
    repeat split.
    + intros j Hj. replace j with 0 by lia. now rewrite Nat.add_0_r.
    + simpl. lia.
    + exists []. simpl. now rewrite app_nil_r.
Qed.

Lemma fresh_uuid_run w :
  exists id w', fresh_uuid env w = (Ok id, w') /\ went_well env w w' 0 [] /\
                db w' = db w.
Proof.
  eexists _, _. split; [reflexivity|]. split; [|reflexivity].
  repeat split; simpl; try lia.
  - intros j Hj; lia.
  - exists []. now rewrite app_nil_r.
Qed.

End Accounting.

Section CheckoutFacts.
Local Open Scope nat_scope.
Local Open Scope list_scope.
Variable env : Env.
Variable publishStockUpdate : StockUpdatePayload -> string -> M unit.
Variable publishOrderCreated : OrderPayload -> string -> M unit.
Variable publishEmailNotification : EmailNotificationPayload -> string -> M unit.
Variable publishAuditLog : AuditLogPayload -> string -> M unit.
Variable stockLog : string.
Variables stockMarks orderMarks emailMarks auditMarks : list Mark.

Hypothesis stock_publishes :
  forall p c, publishes stockMarks (publishStockUpdate p c).
Hypothesis order_publishes :
  forall p c, publishes orderMarks (publishOrderCreated p c).
Hypothesis email_publishes :
  forall p c, publishes emailMarks (publishEmailNotification p c).
Hypothesis audit_publishes :
  forall p c, publishes auditMarks (publishAuditLog p c).

Abbreviation decrement_stock :=
  (Checkout.decrement_stock env publishStockUpdate stockLog).
Abbreviation order_callback :=
  (Checkout.order_callback env publishStockUpdate stockLog).
Abbreviation handleCheckoutCommand :=
  (Checkout.handleCheckoutCommand env publishStockUpdate publishOrderCreated
     publishEmailNotification publishAuditLog stockLog).

Lemma publishes_went_well {A} ms (m : M A) w r w' :
  publishes ms m -> m w = (r, w') ->
  went_well env w w' 0 ms /\ db w' = db w.
Proof.
  intros Hp Hrun. destruct (Hp _ _ _ Hrun) as (D & C & R & RC & T).
  split; [|exact D]. repeat split; try assumption.
  - intros j Hj; lia.
  - lia.
Qed.

Lemma fire_and_forget_run {A} ms (call : M A) msg w :
  publishes ms call ->
  exists w', fire_and_forget call msg w = (Ok tt, w') /\
             went_well env w w' 0 ms /\ db w' = db w.
Proof.
  intros Hp. unfold fire_and_forget, try_catch, bind.
  destruct (call w) as [[a|e] w1] eqn:Hrun;
    destruct (publishes_went_well _ _ _ _ _ Hp Hrun) as [Hw Hd].
  - exists w1. simpl. auto.
  - eexists. split; [reflexivity|]. simpl. split; [|exact Hd].
    destruct Hw as (F & C & R & RC & d & T & Mk).
    repeat split; simpl; try assumption.
    exists (d ++ [Logged Error msg]). rewrite T, app_assoc. split; [reflexivity|].
    rewrite marks_app, Mk. simpl. apply app_nil_r.
Qed.

Lemma decrement_stock_run orderId corr item w r w' :
  decrement_stock orderId corr item w = (r, w') ->
  match r with
  | Ok _ => went_well env w w' (item_statements item) stockMarks /\
            db w' = sold item (db w)
  | Throw e => went_wrong env w w' (item_statements item) e []
  end.
Proof.
  unfold Checkout.decrement_stock. intros Hrun.
  apply bind_inv in Hrun as [(product & w1 & Hsel & Hrun)|(e & Hsel & ->)].
  2:{ apply statement_run in Hsel as [Hbad _].
      unfold item_statements.
      destruct (truthy (variationId item));
        [apply (went_wrong_weaken env _ _ 1 2) | apply (went_wrong_weaken env _ _ 1 1)];
        exact Hbad. }
  apply statement_run in Hsel as [Hsel Hdb1]. inversion Hdb1 as [[Hp Hd1]].
  apply bind_inv in Hrun as [([] & w2 & Hvar & Hrun)|(e & Hvar & ->)].
  2:{ unfold item_statements.
      destruct (variationId item) as [v|]; [|discriminate Hvar].
      destruct (truthy (Some v)); [|discriminate Hvar].
      apply statement_run in Hvar as [Hbad _].
      pose proof (went_wrong_after env _ _ _ _ _ _ _ _ Hsel Hbad) as H.
      apply (went_wrong_weaken env _ _ 2 1). exact H. }
  assert (went_well env w1 w2 (item_statements item - 2) [] /\
          db w2 = mkDb (orders (db w1)) (orderItems (db w1)) (products (db w1))
                    (productVariations (sold item (db w1)))) as [Hv Hd2].
  { unfold item_statements, sold.
    destruct (variationId item) as [v|].
    - destruct (truthy (Some v)); simpl.
      + apply statement_run in Hvar as [Hgood Hf].
        split; [exact Hgood|]. inversion Hf as [Hf']. reflexivity.
      + inversion Hvar; subst. split; [apply went_well_refl|].
        now destruct (db w2).
    - inversion Hvar; subst. split; [apply went_well_refl|].
      now destruct (db w2). }
  pose proof (went_well_trans env _ _ _ _ _ _ _ Hsel Hv) as H12.
  apply bind_inv in Hrun as [([] & w3 & Hprod & Hrun)|(e & Hprod & ->)].
  2:{ apply statement_run in Hprod as [Hbad _].
      pose proof (went_wrong_after env _ _ _ _ _ _ _ _ H12 Hbad) as H.
      replace (1 + (item_statements item - 2) + 1) with (item_statements item)
        in H by (unfold item_statements; destruct (truthy (variationId item)); lia).
      exact H. }
  apply statement_run in Hprod as [Hgood Hf].
  pose proof (went_well_trans env _ _ _ _ _ _ _ H12 Hgood) as H13.
  destruct (fire_and_forget_run stockMarks
              (publishStockUpdate
                 (mkStockUpdate (productId item) (variationId item)
                    (default 0%Z product)
                    (default 0%Z product - quantity item)%Z "sale"
                    (Some orderId)) corr)
              stockLog w3 (stock_publishes _ _)) as (w4 & Hfire & Hpub & Hd4).
  rewrite Hfire in Hrun. inversion Hrun; subst r w'; clear Hrun.
  pose proof (went_well_trans env _ _ _ _ _ _ _ H13 Hpub) as H14.
  replace (1 + (item_statements item - 2) + 1 + 0) with (item_statements item)
    in H14 by (unfold item_statements; destruct (truthy (variationId item)); lia).
  split; [exact H14|].
  rewrite Hd4. injection Hf as Hf'. rewrite <- Hf', Hd2.
  unfold sold. simpl. rewrite <- Hd1. reflexivity.
Qed.

Lemma times_succ n (ms : list Mark) : times (S n) ms = ms ++ times n ms.
Proof. reflexivity. Qed.

Lemma stock_loop_run orderId corr l :
  forall (w : World) (r : Result unit) (w' : World),
  for_each (decrement_stock orderId corr) l w = (r, w') ->
  match r with
  | Ok _ => went_well env w w' (loop_statements l)
              (times (length l) stockMarks) /\
            db w' = sold_all l (db w)
  | Throw e => exists j, j < length l /\
               went_wrong env w w' (loop_statements l) e (times j stockMarks)
  end.
Proof.
  induction l as [|item rest IH]; intros w r w' Hrun.
  - inversion Hrun; subst. split; [apply went_well_refl | reflexivity].
  - simpl in Hrun.
    apply bind_inv in Hrun as [([] & w1 & Hone & Hrun)|(e & Hone & ->)].
    + apply decrement_stock_run in Hone as [Hone Hd1].
      apply IH in Hrun. destruct r as [[]|e].
      * destruct Hrun as [Hrest Hd]. split.
        -- exact (went_well_trans env _ _ _ _ _ _ _ Hone Hrest).
        -- rewrite Hd, Hd1. reflexivity.
      * destruct Hrun as (j & Hj & Hbad). exists (S j). split; [simpl; lia|].
        exact (went_wrong_after env _ _ _ _ _ _ _ _ Hone Hbad).
    + apply decrement_stock_run in Hone. exists 0. split; [simpl; lia|].
      exact (went_wrong_weaken env _ _ _ (loop_statements rest) _ _ Hone).
Qed.

Lemma order_item_rows_run orderId l : forall w,
  exists rows w',
    map_m (Checkout.order_item_row env orderId) l w = (Ok rows, w') /\
    went_well env w w' 0 [] /\ db w' = db w /\ length rows = length l.
Proof.
  induction l as [|item rest IH]; intros w.
  - exists [], w. split; [reflexivity|]. split; [apply went_well_refl|].
    split; reflexivity.
  - simpl. unfold Checkout.order_item_row at 1.
    destruct (fresh_uuid_run env w) as (id & w1 & Hid & Hw1 & Hd1).
    destruct (IH w1) as (rows & w2 & Hrows & Hw2 & Hd2 & Hlen).
    eexists (_ :: rows), w2. split.
    + unfold bind at 1. unfold bind at 1. rewrite Hid. unfold ret at 1.
      unfold bind. rewrite Hrows. reflexivity.
    + split; [exact (went_well_trans env _ _ _ _ _ _ _ Hw1 Hw2)|].
      split; [congruence | simpl; lia].
Qed.

Lemma order_callback_run event corr w r w' :
  order_callback event corr w = (r, w') ->
  let l := items (payload event) in
  match r with
  | Ok newOrder =>
      went_well env w w' (2 + loop_statements l)
        (times (length l) stockMarks) /\
      exists rows, length rows = length l /\
                   db w' = checked_out l newOrder rows (db w)
  | Throw e =>
      exists j, j <= length l /\
        went_wrong env w w' (2 + loop_statements l) e (times j stockMarks)
  end.
Proof.
  intros Hrun l. unfold Checkout.order_callback in Hrun. cbv zeta in Hrun.
  fold l in Hrun.
  destruct (fresh_uuid_run env w) as (id & w1 & Hid & Hw1 & Hd1).
  rewrite (bind_ok _ _ _ _ _ Hid) in Hrun.
  apply bind_inv in Hrun as [(newOrder & w2 & Hins & Hrun)|(e & Hins & ->)].
  2:{ apply statement_run in Hins as [Hbad _]. exists 0. split; [lia|].
      pose proof (went_wrong_after env _ _ _ _ _ _ _ _ Hw1 Hbad) as H.
      exact (went_wrong_weaken env _ _ 1 (1 + loop_statements l) _ _ H). }
  apply statement_run in Hins as [Hw2 Hf2]. injection Hf2 as Hr2 Hf2.
  pose proof (went_well_trans env _ _ _ _ _ _ _ Hw1 Hw2) as H02.
  destruct (order_item_rows_run (or_id newOrder) l w2)
    as (rows & w3 & Hrows & Hw3 & Hd3 & Hlen).
  rewrite (bind_ok _ _ _ _ _ Hrows) in Hrun.
  pose proof (went_well_trans env _ _ _ _ _ _ _ H02 Hw3) as H03.
  apply bind_inv in Hrun as [([] & w4 & Hitems & Hrun)|(e & Hitems & ->)].
  2:{ apply statement_run in Hitems as [Hbad _]. exists 0. split; [lia|].
      pose proof (went_wrong_after env _ _ _ _ _ _ _ _ H03 Hbad) as H.
      replace (2 + loop_statements l) with (0 + 1 + 0 + 1 + loop_statements l)
        by lia.
      exact (went_wrong_weaken env _ _ _ (loop_statements l) _ _ H). }
  apply statement_run in Hitems as [Hw4 Hf4]. injection Hf4 as Hf4.
  pose proof (went_well_trans env _ _ _ _ _ _ _ H03 Hw4) as H04.
  apply bind_inv in Hrun as [([] & w5 & Hloop & Hrun)|(e & Hloop & ->)].
  - inversion Hrun; subst r w'; clear Hrun.
    apply stock_loop_run in Hloop as [Hw5 Hd5].
    pose proof (went_well_trans env _ _ _ _ _ _ _ H04 Hw5) as H05.
    split; [exact H05|].
    exists rows. split; [exact Hlen|].
    rewrite Hd5, <- Hf4, Hd3, <- Hf2, Hd1. unfold checked_out. simpl.
    now rewrite Hr2.
  - apply stock_loop_run in Hloop as (j & Hj & Hbad).
    exists j. split; [lia|].
    exact (went_wrong_after env _ _ _ _ _ _ _ _ H04 Hbad).
Qed.

Lemma add_effect_went_well w e m :
  mark_of e = m ->
  went_well env w (add_effect e w) 0
    (match m with Some x => [x] | None => [] end).
Proof.
  intros Hm. repeat split; simpl; try lia.
  - intros j Hj; lia.
  - exists [e]. split; [reflexivity|]. unfold marks. simpl. now rewrite Hm.
Qed.

Lemma transaction_run event corr w r w' :
  Drizzle.transaction env (order_callback event corr) w = (r, w') ->
  let l := items (payload event) in
  match r with
  | Ok newOrder =>
      went_well env w w' (transaction_statements l)
        (MBegin :: times (length l) stockMarks ++ [MCommit]) /\
      exists rows, length rows = length l /\
                   db w' = checked_out l newOrder rows (db w)
  | Throw e =>
      db w' = db w /\
      exists j, j <= length l /\
        went_wrong env w w' (transaction_statements l) e
          (MBegin :: times j stockMarks ++ [MRollback])
  end.
Proof.
  intros Hrun l. unfold Drizzle.transaction in Hrun.
  pose proof (add_effect_went_well w TxBegin _ eq_refl) as Hbegin.
  destruct (order_callback event corr (add_effect TxBegin w))
    as [[newOrder|e] w1] eqn:Hbody;
    apply order_callback_run in Hbody; fold l in Hbody.
  - destruct Hbody as (Hw1 & rows & Hlen & Hd1).
    pose proof (went_well_trans env _ _ _ _ _ _ _ Hbegin Hw1) as H01.
    destruct (dbFault env (dbCalls w1)) as [e|] eqn:Hcommit;
      inversion Hrun; subst r w'; clear Hrun.
    + split; [reflexivity|]. exists (length l). split; [lia|].
      assert (went_wrong env w1
                (add_effect TxRollback (set_db (db w) (tick_db w1))) 1 e
                [MRollback]) as Hbad.
      { repeat split.
        - exists 0. split; [lia|]. split.
          + now rewrite Nat.add_0_r.
          + intros j Hj; lia.
        - exists [TxRollback]. split; reflexivity. }
      pose proof (went_wrong_after env _ _ _ _ _ _ _ _ H01 Hbad) as H.
      unfold transaction_statements.
      replace (2 + loop_statements l + 1)
        with (0 + (2 + loop_statements l) + 1) by lia.
      exact H.
    + split.
      * assert (went_well env w1 (add_effect TxCommit (tick_db w1)) 1
                  [MCommit]) as Hgood.
        { repeat split; simpl; try lia.
          - intros j Hj. replace j with 0 by lia. now rewrite Nat.add_0_r.
          - exists [TxCommit]. split; reflexivity. }
        pose proof (went_well_trans env _ _ _ _ _ _ _ H01 Hgood) as H.
        unfold transaction_statements.
        replace (2 + loop_statements l + 1)
          with (0 + (2 + loop_statements l) + 1) by lia.
        exact H.
      * exists rows. split; [exact Hlen|]. simpl. exact Hd1.
  - destruct Hbody as (j & Hj & Hbad).
    inversion Hrun; subst r w'; clear Hrun.
    split; [reflexivity|]. exists j. split; [exact Hj|].
    pose proof (went_wrong_after env _ _ _ _ _ _ _ _ Hbegin Hbad) as H1.
    assert (went_wrong env w (add_effect TxRollback (set_db (db w) w1))
              (0 + (2 + loop_statements l)) e
              (([MBegin] ++ times j stockMarks) ++ [MRollback])) as H2.
    { destruct H1 as (Hk & R & RC & d & T & Mk). repeat split; try assumption.
      exists (d ++ [TxRollback]). simpl. rewrite T, app_assoc.
      split; [reflexivity|]. rewrite marks_app, Mk. reflexivity. }
    unfold transaction_statements.
    replace (2 + loop_statements l + 1)
      with (0 + (2 + loop_statements l) + 1) by lia.
    apply went_wrong_weaken. exact H2.
Qed.

(** How [handleCheckoutCommand] can end: the transaction failed and was
    rolled back, or it committed and the three awaited publishes ran
    until one of them threw. *)
Lemma handleCheckoutCommand_run event w r w' :
  handleCheckoutCommand event w = (r, w') ->
  let l := items (payload event) in
  (exists e j,
      r = Throw e /\ db w' = db w /\ j <= length l /\
      went_wrong env w w' (transaction_statements l) e
        (MBegin :: times j stockMarks ++ [MRollback])) \/
  (exists newOrder rows after,
      length rows = length l /\
      db w' = checked_out l newOrder rows (db w) /\
      went_well env w w' (transaction_statements l)
        ((MBegin :: times (length l) stockMarks ++ [MCommit]) ++ after) /\
      match r with
      | Ok _ => after = orderMarks ++ emailMarks ++ auditMarks
      | Throw _ =>
          after = orderMarks \/ after = orderMarks ++ emailMarks \/
          after = orderMarks ++ emailMarks ++ auditMarks
      end).
Proof.
  intros Hrun l. unfold Checkout.handleCheckoutCommand in Hrun.
  cbv zeta in Hrun.
  apply bind_inv in Hrun as [(newOrder & w1 & Htx & Hrun)|(e & Htx & ->)].
  2:{ left. apply transaction_run in Htx as (Hd & j & Hj & Hbad).
      exists e, j. auto. }
  right. apply transaction_run in Htx as (Hw1 & rows & Hlen & Hd1).
  fold l in Hw1, Hlen, Hd1.
  exists newOrder, rows.
  apply bind_inv in Hrun as [([] & w2 & Ho & Hrun)|(e & Ho & ->)];
    destruct (publishes_went_well _ _ _ _ _ (order_publishes _ _) Ho)
      as [Hw2 Hd2];
    pose proof (went_well_trans env _ _ _ _ _ _ _ Hw1 Hw2) as H02;
    rewrite Nat.add_0_r in H02.
  2:{ exists orderMarks. split; [exact Hlen|]. split; [congruence|].
      split; [exact H02 | auto]. }
  apply bind_inv in Hrun as [([] & w3 & He & Hrun)|(e & He & ->)];
    destruct (publishes_went_well _ _ _ _ _ (email_publishes _ _) He)
      as [Hw3 Hd3];
    pose proof (went_well_trans env _ _ _ _ _ _ _ H02 Hw3) as H03;
    rewrite Nat.add_0_r, <- app_assoc in H03.
  2:{ exists (orderMarks ++ emailMarks). split; [exact Hlen|].
      split; [congruence|]. split; [exact H03 | auto]. }
  destruct (publishes_went_well _ _ _ _ _ (audit_publishes _ _) Hrun)
    as [Hw4 Hd4].
  pose proof (went_well_trans env _ _ _ _ _ _ _ H03 Hw4) as H04.
  rewrite Nat.add_0_r, <- app_assoc, <- app_assoc in H04.
  exists (orderMarks ++ emailMarks ++ auditMarks).
  split; [exact Hlen|]. split; [congruence|]. split; [exact H04|].
  destruct r; auto.
Qed.

End CheckoutFacts.

(** ** The publishers of the two copies of the handler *)

Section PublisherFacts.
Local Open Scope list_scope.
Variable env : Env.

Lemma publishes_then_ret {A B} ms (m : M A) (b : B) :
  publishes ms m -> publishes ms (m ;;; ret b).
Proof.
  intros Hp w r w' Hrun.
  apply bind_inv in Hrun as [(a & w1 & Hm & Hret)|(e & Hm & ->)].
  - inversion Hret; subst. exact (Hp _ _ _ Hm).
  - exact (Hp _ _ _ Hm).
Qed.

(** A domain publisher of lib/qstash-producer.ts issues exactly one
    publish call, to the webhook of its topic. *)
Lemma producer_publishes ty (pl : Payload) src corr topic :
  publishes [MPublish (QstashProducer.getWebhookUrl env topic) ty]
    (event <- QstashProducer.createBaseEvent env ty pl src corr ;;
     QstashProducer.publishEvent env topic event None ;;;
     ret event).
Proof.
  intros w r w'.
  unfold QstashProducer.createBaseEvent, QstashProducer.publishEvent,
    QstashProducer.publishJSON, fresh_uuid, bind, try_catch, ret, throw,
    console_error, emit.
  simpl.
  destruct (publishFault env (publishCalls w)); intros H; inversion H;
    subst; simpl; repeat split; eexists;
    (split; [simpl; try rewrite <- app_assoc; reflexivity | reflexivity]).
Qed.

Lemma publish_as_publishes ty target (pl : Payload) corr :
  publishes
    (if truthy (process_env env !! "QSTASH_TOKEN")
     then [MPublish (OrdersService.env_or_empty env target) ty] else [])
    (OrdersService.publish_as env ty target pl corr).
Proof.
  intros w r w'.
  unfold OrdersService.publish_as, OrdersService.publishEvent,
    OrdersService.fetch_publish, fresh_uuid, bind, console_warn, emit.
  destruct (truthy (process_env env !! "QSTASH_TOKEN")); simpl.
  - destruct (publishFault env (publishCalls w)); intros H; inversion H;
      subst; simpl; repeat split; eexists;
      (split; [reflexivity | reflexivity]).
  - intros H; inversion H; subst; simpl; repeat split; eexists;
      (split; [reflexivity | reflexivity]).
Qed.

(** The verifier touches neither store and publishes nothing. *)
Lemma verifier_publishes {T} rv (rj : string -> Result (Js T)) request :
  publishes [] (QstashWebhook.verifyQStashSignature env rv rj request).
Proof.
  intros w r w'. unfold QstashWebhook.verifyQStashSignature.
  destruct (negb (truthy (QstashWebhook.currentSigningKey env))
            || negb (truthy (QstashWebhook.nextSigningKey env))).
  - unfold bind, console_warn, emit, settle, throw.
    destruct (bool_decide _); intros H; inversion H; subst; simpl;
      repeat split; eexists; (split; [reflexivity | reflexivity]).
  - destruct (headers request !! "upstash-signature") as [sig|].
    + destruct (negb (truthy (Some sig))).
      * intros H; inversion H; subst. repeat split. exists [].
        now rewrite app_nil_r.
      * unfold try_catch, bind, emit, settle, console_error, throw, ret.
        destruct (rv sig (body request)); intros H; inversion H; subst;
          simpl; repeat split; eexists;
          (split; [simpl; try rewrite <- app_assoc; reflexivity
                  | reflexivity]).
    + intros H; inversion H; subst. repeat split. exists [].
      now rewrite app_nil_r.
Qed.

(** What the verifier resolves to does not depend on the world. *)
Lemma verifier_value {T} rv (rj : string -> Result (Js T)) request w w0 :
  fst (QstashWebhook.verifyQStashSignature env rv rj request w) =
  fst (QstashWebhook.verifyQStashSignature env rv rj request w0).
Proof.
  unfold QstashWebhook.verifyQStashSignature.
  destruct (negb (truthy (QstashWebhook.currentSigningKey env))
            || negb (truthy (QstashWebhook.nextSigningKey env))).
  - unfold bind, console_warn, emit, settle, throw.
    destruct (bool_decide _); reflexivity.
  - destruct (headers request !! "upstash-signature") as [sig|];
      [|reflexivity].
    destruct (negb (truthy (Some sig))); [reflexivity|].
    unfold try_catch, bind, emit, settle, console_error, throw, ret.
    destruct (rv sig (body request)); reflexivity.
Qed.

End PublisherFacts.

(** ** Publishes and the transaction boundary *)

Section TraceFacts.
Local Open Scope list_scope.

Lemma times_nil n : times n [] = [].
Proof. induction n as [|n IH]; [reflexivity|]. exact IH. Qed.

Lemma published_in_tx_times open n u ty rest :
  published_in_tx open (times n [MPublish u ty] ++ rest) =
  (if open then replicate n ty else []) ++ published_in_tx open rest.
Proof.
  induction n as [|n IH]; [now destruct open|].
  rewrite times_succ. simpl. rewrite IH. now destruct open.
Qed.

Lemma published_outside_tx_times open n u ty rest :
  published_outside_tx open (times n [MPublish u ty] ++ rest) =
  (if open then [] else replicate n ty) ++ published_outside_tx open rest.
Proof.
  induction n as [|n IH]; [now destruct open|].
  rewrite times_succ. simpl. rewrite IH. now destruct open.
Qed.

End TraceFacts.

(** The handler of the Commands webhook, seen through its marks. *)
Lemma commands_handler_run env event w r w' :
  CommandsWebhook.handleCheckoutCommand env event w = (r, w') ->
  let l := items (payload event) in
  let url := QstashProducer.getWebhookUrl env in
  let stock := [MPublish (url QstashProducer.INVENTORY) "inventory.stock.updated"] in
  (exists e j,
      r = Throw e /\ db w' = db w /\ (j <= length l)%nat /\
      went_wrong env w w' (transaction_statements l) e
        (MBegin :: times j stock ++ [MRollback])) \/
  (exists newOrder rows after,
      length rows = length l /\
      db w' = checked_out l newOrder rows (db w) /\
      went_well env w w' (transaction_statements l)
        ((MBegin :: times (length l) stock ++ [MCommit]) ++ after) /\
      match r with
      | Ok _ =>
          after =
          [MPublish (url QstashProducer.ORDERS) "order.created"] ++
          [MPublish (url QstashProducer.NOTIFICATIONS) "notification.email"] ++
          [MPublish (url QstashProducer.ANALYTICS) "analytics.audit"]
      | Throw _ =>
          after = [MPublish (url QstashProducer.ORDERS) "order.created"] \/
          after =
            [MPublish (url QstashProducer.ORDERS) "order.created"] ++
            [MPublish (url QstashProducer.NOTIFICATIONS) "notification.email"] \/
          after =
            [MPublish (url QstashProducer.ORDERS) "order.created"] ++
            [MPublish (url QstashProducer.NOTIFICATIONS) "notification.email"] ++
            [MPublish (url QstashProducer.ANALYTICS) "analytics.audit"]
      end).
Proof.
  intros Hrun.
  refine (handleCheckoutCommand_run env _ _ _ _ _ _ _ _ _ _ _ _ _ _ _ _ _ Hrun);
    intros p c; apply publishes_then_ret; apply producer_publishes.
Qed.

(** The handler of the orders service, seen through its marks, when the
    queue token is configured. *)
Lemma service_handler_run env event w r w' :
  truthy (process_env env !! "QSTASH_TOKEN") = true ->
  OrdersService.handleCheckoutCommand env event w = (r, w') ->
  let l := items (payload event) in
  let url := OrdersService.env_or_empty env in
  let stock := [MPublish (url "QSTASH_INVENTORY_URL") "inventory.stock.updated"] in
  (exists e j,
      r = Throw e /\ db w' = db w /\ (j <= length l)%nat /\
      went_wrong env w w' (transaction_statements l) e
        (MBegin :: times j stock ++ [MRollback])) \/
  (exists newOrder rows after,
      length rows = length l /\
      db w' = checked_out l newOrder rows (db w) /\
      went_well env w w' (transaction_statements l)
        ((MBegin :: times (length l) stock ++ [MCommit]) ++ after) /\
      match r with
      | Ok _ =>
          after =
          [MPublish (url "QSTASH_ORDERS_URL") "order.created"] ++
          [MPublish (url "QSTASH_EMAIL_URL") "notification.email"] ++
          [MPublish (url "QSTASH_ANALYTICS_URL") "analytics.audit"]
      | Throw _ =>
          after = [MPublish (url "QSTASH_ORDERS_URL") "order.created"] \/
          after =
            [MPublish (url "QSTASH_ORDERS_URL") "order.created"] ++
            [MPublish (url "QSTASH_EMAIL_URL") "notification.email"] \/
          after =
            [MPublish (url "QSTASH_ORDERS_URL") "order.created"] ++
            [MPublish (url "QSTASH_EMAIL_URL") "notification.email"] ++
            [MPublish (url "QSTASH_ANALYTICS_URL") "analytics.audit"]
      end).
Proof.
  intros Htoken Hrun.
  refine (handleCheckoutCommand_run env _ _ _ _ _ _ _ _ _ _ _ _ _ _ _ _ _ Hrun);
    intros p c;
    pose proof (publish_as_publishes env) as Hp; rewrite Htoken in Hp;
    apply Hp.
Qed.

Lemma committed_marks_published n inventory ordersUrl email analytics :
  published_in_tx false (committed_marks n inventory ordersUrl email analytics) =
    replicate n "inventory.stock.updated" /\
  published_outside_tx false
    (committed_marks n inventory ordersUrl email analytics) =
    ["order.created"; "notification.email"; "analytics.audit"].
Proof.
  unfold committed_marks. simpl.
  rewrite published_in_tx_times, published_outside_tx_times. simpl.
  now rewrite app_nil_r.
Qed.

(** The handler of the orders service without the queue token: every
    publish is skipped, so a run that succeeds has only begun and committed
    the transaction. *)
Lemma service_handler_run_tokenless env event w w' :
  truthy (process_env env !! "QSTASH_TOKEN") = false ->
  OrdersService.handleCheckoutCommand env event w = (Ok tt, w') ->
  exists delta, trace w' = trace w ++ delta /\ marks delta = [MBegin; MCommit].
Proof.
  intros Htoken Hrun.
  assert (forall ty target pl corr,
             publishes [] (OrdersService.publish_as env ty target pl corr))
    as Hp.
  { intros ty target pl corr.
    pose proof (publish_as_publishes env ty target pl corr) as H.
    now rewrite Htoken in H. }
  assert (let l := items (payload event) in
          (exists e j,
              Ok tt = Throw e /\ db w' = db w /\ (j <= length l)%nat /\
              went_wrong env w w' (transaction_statements l) e
                (MBegin :: times j [] ++ [MRollback])) \/
          (exists newOrder rows after,
              length rows = length l /\
              db w' = checked_out l newOrder rows (db w) /\
              went_well env w w' (transaction_statements l)
                ((MBegin :: times (length l) [] ++ [MCommit]) ++ after) /\
              after = [] ++ [] ++ [])) as Hcases.
  { refine (handleCheckoutCommand_run env _ _ _ _ _ _ _ _ _ _ _ _ _ _ _ _ _
              Hrun); intros p c; apply Hp. }
  cbv zeta in Hcases.
  destruct Hcases as [(e & j & Habs & _) | (o & rows & after & _ & _ & Hw & ->)];
    [discriminate Habs|].
  destruct Hw as (_ & _ & _ & _ & delta & Ht & Hm).
  exists delta. split; [exact Ht|]. rewrite Hm, times_nil. reflexivity.
Qed.

(** C3, as the code has it.  When [handleCheckoutCommand] succeeds, its
    transaction boundaries and publish calls are, in this order: begin,
    one inventory.stock.updated publish per line item, commit, then the
    order.created, notification.email and analytics.audit publishes.  So
    the last three are issued only after the commit, and the stock-update
    publishes are issued inside the open transaction.  This holds for the
    copy in the Commands webhook, and for the copy in the orders service
    when the queue token is set; without the token that copy skips every
    publish, and its marks are the begin and the commit alone. *)
Theorem publishes_around_commit env event w w' :
  let l := items (payload event) in
  (CommandsWebhook.handleCheckoutCommand env event w = (Ok tt, w') ->
   exists delta,
     trace w' = trace w ++ delta /\
     published_around_commit (length l) (marks delta)) /\
  (OrdersService.handleCheckoutCommand env event w = (Ok tt, w') ->
   exists delta,
     trace w' = trace w ++ delta /\
     if truthy (process_env env !! "QSTASH_TOKEN")
     then published_around_commit (length l) (marks delta)
     else marks delta = [MBegin; MCommit]).
Proof.
  intros l. split; intros Hrun.
  - apply commands_handler_run in Hrun
      as [(e & j & Habs & _) | (o & rows & after & _ & _ & Hw & ->)];
      [discriminate Habs|].
    destruct Hw as (_ & _ & _ & _ & delta & Ht & Hm).
    assert (marks delta =
            committed_marks (length l)
              (QstashProducer.getWebhookUrl env QstashProducer.INVENTORY)
              (QstashProducer.getWebhookUrl env QstashProducer.ORDERS)
              (QstashProducer.getWebhookUrl env QstashProducer.NOTIFICATIONS)
              (QstashProducer.getWebhookUrl env QstashProducer.ANALYTICS))
      as Heq.
    { rewrite Hm. unfold committed_marks. simpl. now rewrite <- app_assoc. }
    exists delta. split; [exact Ht|]. split; [eauto|].
    rewrite Heq. apply committed_marks_published.
  - destruct (truthy (process_env env !! "QSTASH_TOKEN")) eqn:Htoken.
    + apply (service_handler_run env event w _ w' Htoken) in Hrun
        as [(e & j & Habs & _) | (o & rows & after & _ & _ & Hw & ->)];
        [discriminate Habs|].
      destruct Hw as (_ & _ & _ & _ & delta & Ht & Hm).
      assert (marks delta =
              committed_marks (length l)
                (OrdersService.env_or_empty env "QSTASH_INVENTORY_URL")
                (OrdersService.env_or_empty env "QSTASH_ORDERS_URL")
                (OrdersService.env_or_empty env "QSTASH_EMAIL_URL")
                (OrdersService.env_or_empty env "QSTASH_ANALYTICS_URL"))
        as Heq.
      { rewrite Hm. unfold committed_marks. simpl. now rewrite <- app_assoc. }
      exists delta. split; [exact Ht|]. split; [eauto|].
      rewrite Heq. apply committed_marks_published.
    + exact (service_handler_run_tokenless env event w w' Htoken Hrun).
Qed.

Lemma publishes_around_commit_witness :
  let run := CommandsWebhook.handleCheckoutCommand Scenario.dev
               Scenario.checkout Scenario.start in
  let url := QstashProducer.getWebhookUrl Scenario.dev in
  fst run = Ok tt /\
  marks (trace (snd run)) =
    [MBegin;
     MPublish (url "inventory") "inventory.stock.updated";
     MPublish (url "inventory") "inventory.stock.updated";
     MCommit;
     MPublish (url "orders") "order.created";
     MPublish (url "notifications") "notification.email";
     MPublish (url "analytics") "analytics.audit"] /\
  exists delta,
    trace (snd run) = trace Scenario.start ++ delta /\
    published_around_commit 2 (marks delta).
Proof.
  cbv zeta. split; [vm_compute; reflexivity|].
  split; [vm_compute; reflexivity|].
  refine (proj1 (publishes_around_commit Scenario.dev Scenario.checkout
                   Scenario.start _) _).
  vm_compute. reflexivity.
Defined.

(** C3 as stated fails: delivering the two-item checkout, the handler
    succeeds and two inventory.stock.updated publish calls are issued
    between the begin and the commit of the transaction. *)
Lemma publish_inside_open_transaction :
  let run := CommandsWebhook.handleCheckoutCommand Scenario.dev
               Scenario.checkout Scenario.start in
  fst run = Ok tt /\
  published_in_tx false (marks (trace (snd run))) =
    ["inventory.stock.updated"; "inventory.stock.updated"] /\
  published_in_tx false (marks (trace (snd run))) <> [].
Proof. vm_compute. repeat split. discriminate. Qed.

(** ** A fault inside the order transaction, seen from the Commands webhook *)

Lemma webhook_catch_run tag invalid e w :
  webhook_catch tag invalid e w =
    (Ok (if mentions_signature e
         then mkResponse 401 (invalid (Some (details_of e)))
         else mkResponse 500 (Failure "Processing failed" (Some (details_of e)))),
     add_effect (Logged Error tag) w).
Proof.
  unfold webhook_catch, bind, console_error, emit.
  now destruct (mentions_signature e).
Qed.

Lemma commands_failed_transaction env rv rj request w event w1 k e :
  QstashWebhook.verifyQStashSignature env rv rj request w =
      (Ok (JObject event), w1) ->
  eventType event = "command.checkout" ->
  (k < transaction_statements (items (payload event)))%nat ->
  first_fault env (dbCalls w) k e ->
  exists w2 j delta,
    CommandsWebhook.handleCheckoutCommand env event w1 = (Throw e, w2) /\
    db w2 = db w /\ redis w2 = redis w /\
    (j <= length (items (payload event)))%nat /\
    trace w2 = trace w ++ delta /\
    marks delta =
      MBegin ::
      times j [MPublish (QstashProducer.getWebhookUrl env QstashProducer.INVENTORY)
                 "inventory.stock.updated"] ++ [MRollback] /\
    CommandsWebhook.POST env rv rj request w =
      webhook_catch "[Commands Webhook] Error processing event:"
        (fun details => Failure "Invalid signature" details) e w2.
Proof.
  intros Hverify Htype Hk Hfault.
  destruct (verifier_publishes env rv rj request _ _ _ Hverify)
    as (Hd1 & Hc1 & Hr1 & _ & d1 & Ht1 & Hm1).
  destruct (CommandsWebhook.handleCheckoutCommand env event w1)
    as [r w2] eqn:Hrun.
  pose proof (commands_handler_run env event w1 r w2 Hrun) as Hcases.
  cbv zeta in Hcases.
  destruct Hcases as [(e' & j & -> & Hd2 & Hj & Hbad)
                     | (o & rows & after & _ & _ & Hgood & _)].
  - destruct Hbad as ((k' & Hk' & Hff) & Hr2 & _ & d2 & Ht2 & Hm2).
    rewrite Hc1 in Hff.
    destruct (first_fault_unique env _ _ _ _ _ Hfault Hff) as [_ <-].
    exists w2, j, (d1 ++ d2). split; [reflexivity|].
    split; [congruence|]. split; [congruence|]. split; [exact Hj|].
    split; [rewrite Ht2, Ht1; now rewrite app_assoc|].
    split; [rewrite marks_app, Hm1, Hm2; reflexivity|].
    unfold CommandsWebhook.POST, CommandsWebhook.attempt.
    erewrite try_catch_throw; [reflexivity|].
    rewrite (bind_ok _ _ _ _ _ Hverify).
    rewrite Htype. simpl. now rewrite (bind_throw _ _ _ _ _ Hrun).
  - destruct Hgood as (Hnone & _). rewrite Hc1 in Hnone.
    destruct (no_fault_excludes env _ _ _ _ Hnone Hfault Hk).
Qed.

(** C2, what the code does.  If a statement of the order transaction
    fails (either insert, any stock statement, or the commit), the
    transaction is rolled back: the store is exactly as it was before the
    delivery, with no order row and no stock change, and the handler throws
    that error.  The Commands webhook answers it with status 500, which
    makes the queue retry, only when the error's message does not contain
    'signature'; when it does, the answer is 401 'Invalid signature' and
    the queue does not retry. *)
Theorem failed_transaction_rolls_back env rv rj request w event w1 k e :
  QstashWebhook.verifyQStashSignature env rv rj request w =
      (Ok (JObject event), w1) ->
  eventType event = "command.checkout" ->
  (k < transaction_statements (items (payload event)))%nat ->
  first_fault env (dbCalls w) k e ->
  exists w2 w',
    CommandsWebhook.handleCheckoutCommand env event w1 = (Throw e, w2) /\
    CommandsWebhook.POST env rv rj request w =
      (Ok (if mentions_signature e
           then mkResponse 401
                  (Failure "Invalid signature" (Some (details_of e)))
           else mkResponse 500
                  (Failure "Processing failed" (Some (details_of e)))),
       w') /\
    db w' = db w /\
    (forall response,
        CommandsWebhook.POST env rv rj request w = (Ok response, w') ->
        status response = (if mentions_signature e then 401 else 500)%Z /\
        retry_worthy response = negb (mentions_signature e)).
Proof.
  intros Hverify Htype Hk Hfault.
  destruct (commands_failed_transaction env rv rj request w event w1 k e
              Hverify Htype Hk Hfault)
    as (w2 & j & delta & Hrun & Hd & _ & _ & _ & _ & Hpost).
  rewrite webhook_catch_run in Hpost.
  eexists w2, _. split; [exact Hrun|]. split; [exact Hpost|].
  split; [exact Hd|].
  intros response Hresponse. rewrite Hpost in Hresponse.
  injection Hresponse as <-.
  destruct (mentions_signature e); split; reflexivity.
Qed.

(** The failing delivery: in a development deployment the three-item
    checkout is delivered and the first statement of the transaction fails
    with the database driver's authentication error, whose message
    contains 'signature'.  Nothing is written, and the answer is 401,
    which does not make the queue retry. *)
Lemma failed_transaction_rolls_back_witness :
  let e :=
    JsError "SASL: SCRAM-SERVER-FINAL-MESSAGE: server signature does not match" in
  let env := Scenario.dev_db_failing 0 e in
  let run := CommandsWebhook.POST env Scenario.accepts_bool
               (Scenario.reads Scenario.checkout3)
               (Scenario.unsigned "checkout") Scenario.start in
  first_fault env (dbCalls Scenario.start) 0 e /\
  db (snd run) = db Scenario.start /\
  fst run =
    Ok (mkResponse 401
          (Failure "Invalid signature"
             (Some "SASL: SCRAM-SERVER-FINAL-MESSAGE: server signature does not match"))) /\
  forall response, fst run = Ok response -> retry_worthy response = false.
Proof.
  cbv zeta.
  set (e := JsError "SASL: SCRAM-SERVER-FINAL-MESSAGE: server signature does not match").
  assert (first_fault (Scenario.dev_db_failing 0 e) (dbCalls Scenario.start) 0 e)
    as Hfault.
  { split; [reflexivity|]. intros j Hj. lia. }
  split; [exact Hfault|].
  destruct (failed_transaction_rolls_back (Scenario.dev_db_failing 0 e)
              Scenario.accepts_bool
              (Scenario.reads Scenario.checkout3)
              (Scenario.unsigned "checkout") Scenario.start Scenario.checkout3
              (Scenario.warned Scenario.start) 0 e
              ltac:(vm_compute; reflexivity) eq_refl ltac:(vm_compute; lia)
              Hfault)
    as (w2 & w' & _ & Hpost & Hd & _).
  rewrite Hpost. simpl. split; [exact Hd|]. split; [reflexivity|].
  intros response Hresponse. injection Hresponse as <-. reflexivity.
Defined.

(** ** No dead-letter publish in the Commands webhook *)

Lemma append_cancel (a b c : string) : a +:+ b = a +:+ c -> b = c.
Proof.
  induction a as [|x a IH]; simpl; intros H; [exact H|].
  injection H as H. now apply IH.
Qed.

Lemma analytics_url_distinct env :
  QstashProducer.getWebhookUrl env QstashProducer.ANALYTICS <>
  QstashProducer.getWebhookUrl env QstashProducer.INVENTORY.
Proof.
  unfold QstashProducer.getWebhookUrl. intros H.
  apply append_cancel in H. discriminate H.
Qed.

Lemma publish_targets_times n u ty rest :
  publish_targets (times n [MPublish u ty] ++ rest) =
  replicate n u ++ publish_targets rest.
Proof.
  induction n as [|n IH]; [reflexivity|].
  rewrite times_succ. simpl. unfold publish_targets in *. simpl.
  now rewrite IH.
Qed.

(** The Commands webhook has no stock check: when no statement of the
    order transaction fails, the transaction commits whatever the stock
    was, and the store holds the order and the decremented stock when the
    webhook answers. *)
Lemma commands_commits_without_stock_check env rv rj request w event w1 :
  QstashWebhook.verifyQStashSignature env rv rj request w =
      (Ok (JObject event), w1) ->
  eventType event = "command.checkout" ->
  no_fault env (dbCalls w) (transaction_statements (items (payload event))) ->
  exists response w' newOrder rows,
    CommandsWebhook.POST env rv rj request w = (Ok response, w') /\
    length rows = length (items (payload event)) /\
    db w' = checked_out (items (payload event)) newOrder rows (db w).
Proof.
  intros Hverify Htype Hnone.
  destruct (verifier_publishes env rv rj request _ _ _ Hverify)
    as (Hd1 & Hc1 & _).
  destruct (CommandsWebhook.handleCheckoutCommand env event w1)
    as [r w2] eqn:Hrun.
  pose proof (commands_handler_run env event w1 r w2 Hrun) as Hcases.
  cbv zeta in Hcases.
  destruct Hcases as [(e' & j & -> & _ & _ & Hbad)
                     | (o & rows & after & Hlen & Hd & _)].
  { destruct Hbad as ((k & Hk & Hff) & _). rewrite Hc1 in Hff.
    destruct (no_fault_excludes env _ _ _ _ Hnone Hff Hk). }
  rewrite Hd1 in Hd.
  unfold CommandsWebhook.POST, CommandsWebhook.attempt.
  destruct r as [[]|e].
  - erewrite try_catch_ok.
    2:{ rewrite (bind_ok _ _ _ _ _ Hverify). rewrite Htype. simpl.
        rewrite (bind_ok _ _ _ _ _ Hrun). reflexivity. }
    eexists _, _, o, rows. split; [reflexivity|]. split; assumption.
  - erewrite try_catch_throw.
    2:{ rewrite (bind_ok _ _ _ _ _ Hverify). rewrite Htype. simpl.
        rewrite (bind_throw _ _ _ _ _ Hrun). reflexivity. }
    rewrite webhook_catch_run.
    eexists _, _, o, rows. split; [reflexivity|]. split; assumption.
Qed.

(** C9, what the code does instead.  The transaction of the Commands
    webhook contains no stock check: when none of its statements fails it
    commits whatever the stock was, and the order and the decremented
    stock are in the store when the webhook answers.  When one of its
    statements does fail, the webhook rolls back and answers 500 (or 401),
    and the only publish calls of the whole delivery are the stock-update
    publishes of the line items handled before the fault, all sent to the
    inventory webhook: nothing is published to the analytics webhook, and
    no failed-event envelope is built. *)
Theorem failed_checkout_is_not_dead_lettered env rv rj request w event w1 :
  QstashWebhook.verifyQStashSignature env rv rj request w =
      (Ok (JObject event), w1) ->
  eventType event = "command.checkout" ->
  let l := items (payload event) in
  (no_fault env (dbCalls w) (transaction_statements l) ->
   exists response w' newOrder rows,
     CommandsWebhook.POST env rv rj request w = (Ok response, w') /\
     length rows = length l /\
     db w' = checked_out l newOrder rows (db w)) /\
  (forall k e,
     (k < transaction_statements l)%nat ->
     first_fault env (dbCalls w) k e ->
     exists response w' delta j,
       CommandsWebhook.POST env rv rj request w = (Ok response, w') /\
       (status response = 500 \/ status response = 401)%Z /\
       db w' = db w /\
       trace w' = trace w ++ delta /\
       (j <= length l)%nat /\
       publish_targets (marks delta) =
         replicate j
           (QstashProducer.getWebhookUrl env QstashProducer.INVENTORY) /\
       published_in_tx false (marks delta) =
         replicate j "inventory.stock.updated" /\
       published_outside_tx false (marks delta) = [] /\
       QstashProducer.getWebhookUrl env QstashProducer.ANALYTICS
         ∉ publish_targets (marks delta)).
Proof.
  intros Hverify Htype l. split.
  { intros Hnone.
    exact (commands_commits_without_stock_check env rv rj request w event w1
             Hverify Htype Hnone). }
  intros k e Hk Hfault.
  destruct (commands_failed_transaction env rv rj request w event w1 k e
              Hverify Htype Hk Hfault)
    as (w2 & j & delta & Hrun & Hd & _ & Hj & Ht & Hm & Hpost).
  rewrite webhook_catch_run in Hpost.
  eexists _, _,
    (delta ++ [Logged Error "[Commands Webhook] Error processing event:"]), j.
  split; [exact Hpost|].
  split; [destruct (mentions_signature e); auto|].
  split; [exact Hd|].
  split; [simpl; rewrite Ht; now rewrite app_assoc|].
  split; [exact Hj|].
  rewrite marks_app, Hm. simpl. rewrite app_nil_r.
  assert (publish_targets
            (MBegin :: times j
               [MPublish (QstashProducer.getWebhookUrl env QstashProducer.INVENTORY)
                  "inventory.stock.updated"] ++ [MRollback]) =
          replicate j (QstashProducer.getWebhookUrl env QstashProducer.INVENTORY))
    as Htargets.
  { change (publish_targets (MBegin :: ?x)) with (publish_targets x).
    rewrite publish_targets_times. apply app_nil_r. }
  split; [exact Htargets|].
  split; [rewrite published_in_tx_times; apply app_nil_r|].
  split; [rewrite published_outside_tx_times; reflexivity|].
  intros Hin.
  change (QstashProducer.getWebhookUrl env QstashProducer.ANALYTICS
            ∈ publish_targets
                (MBegin :: times j
                   [MPublish
                      (QstashProducer.getWebhookUrl env QstashProducer.INVENTORY)
                      "inventory.stock.updated"] ++ [MRollback])) in Hin.
  rewrite Htargets in Hin.
  apply elem_of_replicate in Hin as [Heq _].
  exact (analytics_url_distinct env Heq).
Qed.

(** Two failing deliveries, in a development deployment.  A checkout of
    eleven of product A, of which ten are in stock: no stock check fails,
    the order is committed and A is left at -1, and the delivery is
    answered 200 with nothing sent to a dead-letter path.  And the
    three-item checkout when the stock decrement of its second line item
    is chosen as the victim of a deadlock: the transaction is rolled back
    and the answer is 500, with one publish call, to the inventory
    webhook. *)
Lemma failed_checkout_is_not_dead_lettered_witness :
  let oversold := CommandsWebhook.POST Scenario.dev Scenario.accepts_bool
                    (Scenario.reads Scenario.oversell)
                    (Scenario.unsigned "checkout") Scenario.start in
  let e := JsError "deadlock detected" in
  let env := Scenario.dev_db_failing 5 e in
  let run := CommandsWebhook.POST env Scenario.accepts_bool
               (Scenario.reads Scenario.checkout3)
               (Scenario.unsigned "checkout") Scenario.start in
  (fst oversold =
     Ok (mkResponse 200
           (Success (Some "evt-3") (Some "command.checkout") None)) /\
   length (orders (db (snd oversold))) = 1%nat /\
   products (db (snd oversold)) !! "A" = Some (-1)%Z /\
   "analytics.dlq" ∉
     published_outside_tx false (marks (trace (snd oversold))) ++
     published_in_tx false (marks (trace (snd oversold)))) /\
  first_fault env (dbCalls Scenario.start) 5 e /\
  fst run =
    Ok (mkResponse 500
          (Failure "Processing failed" (Some "deadlock detected"))) /\
  db (snd run) = db Scenario.start /\
  publish_targets (marks (trace (snd run))) =
    [QstashProducer.getWebhookUrl env QstashProducer.INVENTORY] /\
  QstashProducer.getWebhookUrl env QstashProducer.ANALYTICS
    ∉ publish_targets (marks (trace (snd run))).
Proof.
  cbv zeta. split.
  { destruct (failed_checkout_is_not_dead_lettered Scenario.dev
                Scenario.accepts_bool (Scenario.reads Scenario.oversell)
                (Scenario.unsigned "checkout") Scenario.start
                Scenario.oversell (Scenario.warned Scenario.start)
                ltac:(vm_compute; reflexivity) eq_refl) as [Hcommit _].
    destruct (Hcommit ltac:(intros j Hj; reflexivity))
      as (response & w' & newOrder & rows & Hpost & _ & Hd).
    split; [vm_compute; reflexivity|].
    split; [vm_compute; reflexivity|].
    split; [rewrite Hpost; simpl; rewrite Hd; vm_compute; reflexivity|].
    vm_compute. intros Hin. repeat (apply elem_of_cons in Hin as [Hin|Hin];
                        [discriminate Hin|]).
    inversion Hin. }
  set (e := JsError "deadlock detected").
  assert (first_fault (Scenario.dev_db_failing 5 e) (dbCalls Scenario.start) 5 e)
    as Hfault.
  { split; [reflexivity|]. intros j Hj.
    do 5 (destruct j as [|j]; [reflexivity|]). lia. }
  split; [exact Hfault|].
  destruct (failed_checkout_is_not_dead_lettered (Scenario.dev_db_failing 5 e)
              Scenario.accepts_bool
              (Scenario.reads Scenario.checkout3)
              (Scenario.unsigned "checkout") Scenario.start Scenario.checkout3
              (Scenario.warned Scenario.start)
              ltac:(vm_compute; reflexivity) eq_refl) as [_ Hfailed].
  destruct (Hfailed 5%nat e ltac:(vm_compute; lia) Hfault)
    as (response & w' & delta & j & Hpost & Hs & Hd & Ht & _ & _ & _ & _ & Hno).
  split; [vm_compute; reflexivity|].
  split; [rewrite Hpost; exact Hd|].
  split; [vm_compute; reflexivity|].
  rewrite Hpost. simpl. rewrite Ht. exact Hno.
Defined.

(** ** Redelivery to the Commands webhook *)

Lemma sold_all_orders l : forall d,
  orders (sold_all l d) = orders d /\ orderItems (sold_all l d) = orderItems d.
Proof.
  induction l as [|item rest IH]; intros d; [split; reflexivity|].
  unfold sold_all in *. simpl. destruct (IH (sold item d)) as [H1 H2].
  rewrite H1, H2. split; reflexivity.
Qed.

Lemma sold_all_stock l : forall d1 d2,
  products d1 = products d2 ->
  productVariations d1 = productVariations d2 ->
  products (sold_all l d1) = products (sold_all l d2) /\
  productVariations (sold_all l d1) = productVariations (sold_all l d2).
Proof.
  induction l as [|item rest IH]; intros d1 d2 Hp Hv; [split; assumption|].
  unfold sold_all in *. simpl. apply IH; unfold sold; simpl.
  - now rewrite Hp.
  - now rewrite Hv.
Qed.

(** A delivery the Commands webhook answers with 200 has run the handler:
    the store holds one more order and the stock went down, and Redis was
    neither read nor written. *)
Lemma commands_accepted env rv rj request w response w' :
  CommandsWebhook.POST env rv rj request w = (Ok response, w') ->
  status response = 200%Z ->
  exists event w1 newOrder rows,
    QstashWebhook.verifyQStashSignature env rv rj request w =
      (Ok (JObject event), w1) /\
    eventType event = "command.checkout" /\
    length rows = length (items (payload event)) /\
    db w' = checked_out (items (payload event)) newOrder rows (db w) /\
    redis w' = redis w /\ redisCalls w' = redisCalls w /\
    json response =
      Success (Some (eventId event)) (Some (eventType event)) None.
Proof.
  intros Hpost Hstatus. unfold CommandsWebhook.POST, try_catch in Hpost.
  destruct (CommandsWebhook.attempt env rv rj request w) as [[resp|e] w0]
    eqn:Hattempt.
  2:{ rewrite webhook_catch_run in Hpost. inversion Hpost; subst.
      destruct (mentions_signature e); discriminate Hstatus. }
  inversion Hpost; subst resp w0; clear Hpost.
  unfold CommandsWebhook.attempt in Hattempt.
  apply bind_inv in Hattempt
    as [(value & w1 & Hverify & Hrest)|(e & _ & Habs)]; [|discriminate Habs].
  destruct (verifier_publishes env rv rj request _ _ _ Hverify)
    as (Hd1 & Hc1 & Hr1 & Hrc1 & _).
  destruct value as [event|flag].
  2:{ unfold bind, console_warn, emit, ret in Hrest. inversion Hrest; subst.
      discriminate Hstatus. }
  destruct (String.eqb (eventType event) "command.checkout") eqn:Htype.
  2:{ unfold bind, console_warn, emit, ret in Hrest. inversion Hrest; subst.
      discriminate Hstatus. }
  apply String.eqb_eq in Htype.
  apply bind_inv in Hrest as [([] & w2 & Hrun & Hret)|(e & _ & Habs)];
    [|discriminate Habs].
  inversion Hret; subst response w'; clear Hret.
  apply commands_handler_run in Hrun
    as [(e & j & Habs & _) | (o & rows & after & Hlen & Hd & Hw & _)];
    [discriminate Habs|].
  destruct Hw as (_ & _ & Hr2 & Hrc2 & _).
  exists event, w1, o, rows. rewrite <- Hd1.
  repeat split; try assumption; congruence.
Qed.

(** C1, what the code does instead.  When the same request is delivered
    twice to the Commands webhook and both deliveries are answered 200,
    the handler has run twice: the store holds two more order rows, every
    line item's quantity has been taken off the stock twice, the second
    answer carries no duplicate marker, and the idempotency store (Redis)
    has been neither read nor written. *)
Theorem redelivery_runs_checkout_again env rv rj request w r1 w1 r2 w2 :
  CommandsWebhook.POST env rv rj request w = (Ok r1, w1) ->
  status r1 = 200%Z ->
  CommandsWebhook.POST env rv rj request w1 = (Ok r2, w2) ->
  status r2 = 200%Z ->
  exists event,
    let l := items (payload event) in
    length (orders (db w2)) = (length (orders (db w)) + 2)%nat /\
    products (db w2) = products (sold_all l (sold_all l (db w))) /\
    productVariations (db w2) =
      productVariations (sold_all l (sold_all l (db w))) /\
    json r2 = Success (Some (eventId event)) (Some "command.checkout") None /\
    redis w2 = redis w /\ redisCalls w2 = redisCalls w.
Proof.
  intros H1 S1 H2 S2.
  destruct (commands_accepted _ _ _ _ _ _ _ H1 S1)
    as (ev1 & u1 & o1 & rows1 & Hv1 & Ht1 & _ & Hd1 & Hr1 & Hrc1 & _).
  destruct (commands_accepted _ _ _ _ _ _ _ H2 S2)
    as (ev2 & u2 & o2 & rows2 & Hv2 & Ht2 & _ & Hd2 & Hr2 & Hrc2 & Hj2).
  assert (ev2 = ev1) as ->.
  { pose proof (verifier_value env rv rj request w w1) as Hsame.
    rewrite Hv1, Hv2 in Hsame. simpl in Hsame. congruence. }
  exists ev1. cbv zeta. rewrite Ht1 in Hj2.
  set (l := items (payload ev1)) in *.
  split; [|split; [|split; [|split; [exact Hj2|split; congruence]]]].
  - rewrite Hd2, Hd1. unfold checked_out.
    destruct (sold_all_orders l
                (mkDb (orders (sold_all l
                                 (mkDb (orders (db w) ++ [o1])
                                    (orderItems (db w) ++ rows1)
                                    (products (db w))
                                    (productVariations (db w)))) ++ [o2])
                   (orderItems (sold_all l
                                  (mkDb (orders (db w) ++ [o1])
                                     (orderItems (db w) ++ rows1)
                                     (products (db w))
                                     (productVariations (db w)))) ++ rows2)
                   (products (sold_all l
                                (mkDb (orders (db w) ++ [o1])
                                   (orderItems (db w) ++ rows1)
                                   (products (db w))
                                   (productVariations (db w)))))
                   (productVariations (sold_all l
                                (mkDb (orders (db w) ++ [o1])
                                   (orderItems (db w) ++ rows1)
                                   (products (db w))
                                   (productVariations (db w)))))))
      as [-> _].
    simpl.
    destruct (sold_all_orders l
                (mkDb (orders (db w) ++ [o1]) (orderItems (db w) ++ rows1)
                   (products (db w)) (productVariations (db w)))) as [-> _].
    simpl. rewrite !length_app. simpl. lia.
  - rewrite Hd2, Hd1. unfold checked_out.
    apply sold_all_stock; simpl; apply sold_all_stock; reflexivity.
  - rewrite Hd2, Hd1. unfold checked_out.
    apply sold_all_stock; simpl; apply sold_all_stock; reflexivity.
Qed.

(** The failing delivery: in a development deployment, where the body of
    a request is read as the event, the two-item checkout is delivered
    twice. *)
Lemma redelivery_runs_checkout_again_witness :
  let first := CommandsWebhook.POST Scenario.dev
                 Scenario.accepts_bool
                 (Scenario.reads Scenario.checkout)
                 (Scenario.unsigned "checkout") Scenario.start in
  let second := CommandsWebhook.POST Scenario.dev
                  Scenario.accepts_bool
                  (Scenario.reads Scenario.checkout)
                  (Scenario.unsigned "checkout") (snd first) in
  fst first = Ok (mkResponse 200 (Success (Some "evt-1") (Some "command.checkout") None)) /\
  fst second = Ok (mkResponse 200 (Success (Some "evt-1") (Some "command.checkout") None)) /\
  length (orders (db (snd second))) = 2%nat /\
  redisCalls (snd second) = 0%nat /\
  exists event,
    products (db (snd second)) =
    products (sold_all (items (payload event))
                (sold_all (items (payload event)) (db Scenario.start))).
Proof.
  cbv zeta.
  split; [vm_compute; reflexivity|]. split; [vm_compute; reflexivity|].
  destruct (redelivery_runs_checkout_again Scenario.dev
              Scenario.accepts_bool
              (Scenario.reads Scenario.checkout)
              (Scenario.unsigned "checkout") Scenario.start
              (mkResponse 200 (Success (Some "evt-1") (Some "command.checkout") None))
              (snd (CommandsWebhook.POST Scenario.dev
                      Scenario.accepts_bool
                      (Scenario.reads Scenario.checkout)
                      (Scenario.unsigned "checkout") Scenario.start))
              (mkResponse 200 (Success (Some "evt-1") (Some "command.checkout") None))
              (snd (CommandsWebhook.POST Scenario.dev
                      Scenario.accepts_bool
                      (Scenario.reads Scenario.checkout)
                      (Scenario.unsigned "checkout")
                      (snd (CommandsWebhook.POST Scenario.dev
                              Scenario.accepts_bool
                              (Scenario.reads Scenario.checkout)
                              (Scenario.unsigned "checkout") Scenario.start))))
              ltac:(vm_compute; reflexivity) eq_refl
              ltac:(vm_compute; reflexivity) eq_refl)
    as (event & Hlen & Hstock & _ & _ & _ & Hcalls).
  split; [exact Hlen|]. split; [exact Hcalls|].
  exists event. exact Hstock.
Defined.

(** The failing delivery of C1, evaluated: both deliveries are answered
    200 without a duplicate marker, two order rows and four line-item rows
    exist afterwards, product A went from 10 to 6 (two decrements of 2) and
    product B from 5 to 3, and Redis holds nothing.  With the signing keys
    configured no order is written at all: the verifier resolves to the
    boolean of the receiver, and a signed delivery is answered 400. *)
Lemma duplicate_order_on_redelivery :
  let deliver := CommandsWebhook.POST Scenario.dev Scenario.accepts_bool
                   (Scenario.reads Scenario.checkout)
                   (Scenario.unsigned "checkout") in
  let after := snd (deliver (snd (deliver Scenario.start))) in
  let signed := CommandsWebhook.POST Scenario.healthy Scenario.accepts_bool
                  (Scenario.reads Scenario.checkout)
                  (Scenario.signed "checkout") Scenario.start in
  fst (deliver (snd (deliver Scenario.start))) =
    Ok (mkResponse 200
          (Success (Some "evt-1") (Some "command.checkout") None)) /\
  length (orders (db after)) = 2%nat /\
  length (orderItems (db after)) = 4%nat /\
  products (db after) !! "A" = Some 6%Z /\
  products (db after) !! "B" = Some 3%Z /\
  redis after = ∅ /\
  fst signed = Ok (mkResponse 400 (Failure "Unknown event type" None)) /\
  db (snd signed) = db Scenario.start.
Proof. vm_compute. repeat split. Qed.

(** ** Status codes of the consumers *)

(** C4, what the code does instead.  In the orders service a request with
    a valid signature whose body does not parse is answered 500, a
    retry-worthy status, with the store untouched; and in the Commands
    webhook, where the repository parses the body itself only when the
    keys are unconfigured in development mode, a parse error is answered
    500 as well unless its message contains 'signature'. *)
Theorem malformed_body_is_answered_500 env rv jp rv' rj request w signature e :
  jp (body request) = Throw e ->
  rj (body request) = Throw e ->
  (headers request !! "upstash-signature" = Some signature ->
   truthy (Some signature) = true ->
   rv signature (body request) = Ok true ->
   exists response w',
     OrdersService.POST env rv jp request w = (Ok response, w') /\
     status response = 500%Z /\ retry_worthy response = true /\
     db w' = db w) /\
  (truthy (QstashWebhook.currentSigningKey env) = false ->
   process_env env !! "NODE_ENV" = Some "development" ->
   exists response w',
     CommandsWebhook.POST env rv' rj request w = (Ok response, w') /\
     status response = (if mentions_signature e then 401 else 500)%Z /\
     db w' = db w).
Proof.
  intros Hjp Hrj. split.
  - intros Hsig Htruthy Hvalid.
    unfold OrdersService.POST, OrdersService.attempt,
      OrdersService.check_signature, try_catch, bind, emit, settle, ret,
      console_error.
    rewrite Hsig, Htruthy. simpl. rewrite Hvalid. simpl. rewrite Hjp.
    eexists _, _. split; [reflexivity|]. repeat split.
  - intros Hkeys Hdev.
    pose proof (verifier_fails_open env rv' rj request w
                  (or_introl Hkeys) Hdev) as Hopen.
    rewrite Hrj in Hopen.
    unfold CommandsWebhook.POST.
    erewrite try_catch_throw;
      [|unfold CommandsWebhook.attempt; now rewrite (bind_throw _ _ _ _ _ Hopen)].
    rewrite webhook_catch_run. eexists _, _. split; [reflexivity|].
    destruct (mentions_signature e); split; reflexivity.
Qed.

Lemma malformed_body_is_answered_500_witness :
  let e := JsError "Unexpected end of JSON input" in
  (Scenario.parses Scenario.checkout "{" = Throw e /\
   Scenario.accepts_bool "good" "{" = Ok true) /\
  (exists response,
      fst (OrdersService.POST Scenario.healthy Scenario.accepts_bool
             (Scenario.parses Scenario.checkout) (Scenario.signed "{")
             Scenario.start) = Ok response /\
      status response = 500%Z /\ retry_worthy response = true) /\
  (exists response,
      fst (CommandsWebhook.POST (Scenario.unconfigured "development")
             Scenario.accepts_bool
             (Scenario.reads Scenario.checkout) (Scenario.unsigned "{")
             Scenario.start) = Ok response /\
      status response = 500%Z).
Proof.
  cbv zeta. split; [split; reflexivity|]. split.
  - destruct (malformed_body_is_answered_500 Scenario.healthy
                Scenario.accepts_bool (Scenario.parses Scenario.checkout)
                Scenario.accepts_bool
                (Scenario.reads Scenario.checkout) (Scenario.signed "{")
                Scenario.start "good" (JsError "Unexpected end of JSON input")
                eq_refl eq_refl) as [Hservice _].
    destruct (Hservice eq_refl eq_refl eq_refl)
      as (response & w' & Hpost & Hs & Hr & _).
    exists response. rewrite Hpost. auto.
  - destruct (malformed_body_is_answered_500
                (Scenario.unconfigured "development")
                Scenario.accepts_bool (Scenario.parses Scenario.checkout)
                Scenario.accepts_bool
                (Scenario.reads Scenario.checkout) (Scenario.unsigned "{")
                Scenario.start "good" (JsError "Unexpected end of JSON input")
                eq_refl eq_refl) as [_ Hcommands].
    destruct (Hcommands eq_refl eq_refl) as (response & w' & Hpost & Hs & _).
    exists response. rewrite Hpost. auto.
Defined.

(** C8, what the code does instead.  In the Notifications webhook an
    event of a type other than notification.email that the verifier
    resolved to, not yet recorded as processed, makes the processor throw;
    no idempotency record is written and the answer is 500, a retry-worthy
    status (401 when the type name itself contains 'signature'), never a
    200 acknowledgement.  The same holds of whatever else the verifier
    resolved to: the boolean of the receiver has no event type, and is
    answered 500 for 'Unknown event type: undefined'. *)
Theorem unknown_notification_type_is_retried env rv rj request w event w1 w2 :
  QstashWebhook.verifyQStashSignature env rv rj request w = (Ok event, w1) ->
  prop eventType event <> Some "notification.email" ->
  Deduplication.isEventProcessed env (js_string (prop eventId event)) w1 =
    (Ok false, w2) ->
  exists response w',
    NotificationsWebhook.POST env rv rj request w = (Ok response, w') /\
    status response =
      (if includes
            ("Unknown event type: " +:+ js_string (prop eventType event))
            "signature"
       then 401 else 500)%Z /\
    status response <> 200%Z /\
    redis w' = redis w2.
Proof.
  intros Hverify Htype Hnew.
  assert (NotificationsWebhook.dispatch env event
            (QstashWebhook.retryCount (QstashWebhook.getEventMetadata env request))
            w2 =
          (Throw (JsError ("Unknown event type: " +:+
                           js_string (prop eventType event))),
           add_effect (Logged Warn "[Notifications Webhook] Unknown event type") w2))
    as Hdispatch.
  { unfold NotificationsWebhook.dispatch.
    destruct event as [notification|flag]; [|reflexivity].
    destruct (String.eqb (eventType notification) "notification.email") eqn:Heq;
      [apply String.eqb_eq in Heq; simpl in Htype; congruence|].
    reflexivity. }
  pose proof (processWithDeduplication_fails env _ _ _ _ _ _
                Hnew Hdispatch) as Hdedup.
  unfold NotificationsWebhook.POST.
  erewrite try_catch_throw.
  2:{ unfold NotificationsWebhook.attempt.
      rewrite (bind_ok _ _ _ _ _ Hverify). cbv zeta.
      now rewrite (bind_throw _ _ _ _ _ Hdedup). }
  rewrite webhook_catch_run. eexists _, _. split; [reflexivity|].
  simpl. destruct (includes _ "signature"); repeat split; discriminate.
Qed.

(** Two failing deliveries: in a development deployment, a body that is an
    event of type notification.sms; and with the signing keys configured,
    any delivery whose signature the receiver accepts. *)
Lemma unknown_notification_type_is_retried_witness :
  let run := NotificationsWebhook.POST Scenario.dev
               Scenario.accepts_bool (Scenario.reads Scenario.sms)
               (Scenario.unsigned "checkout") Scenario.start in
  let signed := NotificationsWebhook.POST Scenario.healthy
                  Scenario.accepts_bool (Scenario.reads Scenario.sms)
                  (Scenario.signed "sms") Scenario.start in
  eventType Scenario.sms <> "notification.email" /\
  (exists response,
      fst run = Ok response /\ status response = 500%Z /\
      retry_worthy response = true) /\
  (exists response,
      fst signed = Ok response /\ status response = 500%Z /\
      retry_worthy response = true).
Proof.
  cbv zeta. split; [discriminate|]. split.
  - destruct (unknown_notification_type_is_retried Scenario.dev
                Scenario.accepts_bool (Scenario.reads Scenario.sms)
                (Scenario.unsigned "checkout") Scenario.start
                (JObject Scenario.sms)
                (Scenario.warned Scenario.start)
                (tick_redis (Scenario.warned Scenario.start))
                ltac:(vm_compute; reflexivity) ltac:(discriminate) eq_refl)
      as (response & w' & Hpost & Hs & _ & _).
    exists response. rewrite Hpost. split; [reflexivity|].
    split; [exact Hs|]. unfold retry_worthy. rewrite Hs. reflexivity.
  - destruct (unknown_notification_type_is_retried Scenario.healthy
                Scenario.accepts_bool (Scenario.reads Scenario.sms)
                (Scenario.signed "sms") Scenario.start
                (JBoolean true)
                (add_effect (VerifyCall "good" "sms") Scenario.start)
                (tick_redis
                   (add_effect (VerifyCall "good" "sms") Scenario.start))
                eq_refl ltac:(discriminate) eq_refl)
      as (response & w' & Hpost & Hs & _ & _).
    exists response. rewrite Hpost. split; [reflexivity|].
    split; [exact Hs|]. unfold retry_worthy. rewrite Hs. reflexivity.
Defined.

Lemma webhook_catch_answers_by_message attempt tag invalid :
  answers_by_message attempt
    (fun request => try_catch (attempt request) (webhook_catch tag invalid)).
Proof.
  intros request w e w1 Hthrow.
  rewrite (try_catch_throw _ _ _ _ _ Hthrow), webhook_catch_run.
  eexists _, _. split; [reflexivity|].
  destruct (mentions_signature e); simpl; repeat split; intros H;
    try reflexivity; discriminate H.
Qed.

(** C10.  In the webhooks built on [verifyQStashSignature] (commands,
    orders, inventory, analytics, notifications) an error thrown in the
    [try] block of [POST] is answered 401 if and only if it is an [Error]
    whose message contains 'signature', and 500 if and only if not.  So the
    error thrown for unconfigured signing keys outside development mode,
    'QStash signing keys not configured', is answered with a retry-worthy
    500 by the Commands and Notifications webhooks, and a processing error
    whose message contains 'signature' is answered 401. *)
Theorem thrown_error_classification {P Q R} env rvC rjC
    rvO (rjO : string -> Result (Js (BaseEvent (option P))))
    rvI (rjI : string -> Result (Js (BaseEvent (option Q))))
    rvA (rjA : string -> Result (Js (BaseEvent (option R))))
    rvN rjN :
  answers_by_message (CommandsWebhook.attempt env rvC rjC)
    (CommandsWebhook.POST env rvC rjC) /\
  answers_by_message (OrdersWebhook.attempt env rvO rjO)
    (OrdersWebhook.POST env rvO rjO) /\
  answers_by_message (InventoryWebhook.attempt env rvI rjI)
    (InventoryWebhook.POST env rvI rjI) /\
  answers_by_message (AnalyticsWebhook.attempt env rvA rjA)
    (AnalyticsWebhook.POST env rvA rjA) /\
  answers_by_message (NotificationsWebhook.attempt env rvN rjN)
    (NotificationsWebhook.POST env rvN rjN) /\
  (forall request w,
      truthy (QstashWebhook.currentSigningKey env) = false \/
      truthy (QstashWebhook.nextSigningKey env) = false ->
      process_env env !! "NODE_ENV" <> Some "development" ->
      mentions_signature (JsError "QStash signing keys not configured") = false /\
      (exists w',
         CommandsWebhook.POST env rvC rjC request w =
           (Ok (mkResponse 500
                  (Failure "Processing failed"
                     (Some "QStash signing keys not configured"))), w')) /\
      (exists w',
         NotificationsWebhook.POST env rvN rjN request w =
           (Ok (mkResponse 500
                  (Failure "Processing failed"
                     (Some "QStash signing keys not configured"))), w'))).
Proof.
  split; [apply webhook_catch_answers_by_message|].
  split; [apply webhook_catch_answers_by_message|].
  split; [apply webhook_catch_answers_by_message|].
  split; [apply webhook_catch_answers_by_message|].
  split; [apply webhook_catch_answers_by_message|].
  intros request w Hkeys Hmode. split; [reflexivity|]. split.
  - pose proof (verifier_fails_closed env rvC rjC request w Hkeys Hmode)
      as Hclosed.
    unfold CommandsWebhook.POST.
    erewrite try_catch_throw;
      [|unfold CommandsWebhook.attempt;
        now rewrite (bind_throw _ _ _ _ _ Hclosed)].
    rewrite webhook_catch_run. eexists. reflexivity.
  - pose proof (verifier_fails_closed env rvN rjN request w Hkeys Hmode)
      as Hclosed.
    unfold NotificationsWebhook.POST.
    erewrite try_catch_throw;
      [|unfold NotificationsWebhook.attempt;
        now rewrite (bind_throw _ _ _ _ _ Hclosed)].
    rewrite webhook_catch_run. eexists. reflexivity.
Qed.

(** In a development deployment the first statement of a checkout fails
    with an error of the TLS layer whose message contains 'signature': the
    answer is 401.  In production without signing keys a delivery is
    answered 500. *)
Lemma thrown_error_classification_witness :
  let e := JsError "SSL error: certificate signature failure" in
  let env := Scenario.dev_db_failing 0 e in
  (fst (CommandsWebhook.attempt env Scenario.accepts_bool
          (Scenario.reads Scenario.checkout) (Scenario.unsigned "checkout")
          Scenario.start) = Throw e /\
   exists response,
      fst (CommandsWebhook.POST env Scenario.accepts_bool
             (Scenario.reads Scenario.checkout) (Scenario.unsigned "checkout")
             Scenario.start) = Ok response /\
      status response = 401%Z) /\
  (exists response,
      fst (CommandsWebhook.POST (Scenario.unconfigured "production")
             Scenario.accepts_bool
             (Scenario.reads Scenario.checkout) (Scenario.unsigned "checkout")
             Scenario.start) = Ok response /\
      status response = 500%Z).
Proof.
  cbv zeta.
  set (e := JsError "SSL error: certificate signature failure").
  split.
  - split; [vm_compute; reflexivity|].
    destruct (@thrown_error_classification
                CheckoutCommandPayload CheckoutCommandPayload
                CheckoutCommandPayload (Scenario.dev_db_failing 0 e)
                Scenario.accepts_bool (Scenario.reads Scenario.checkout)
                Scenario.accepts_bool (fun _ => Ok (JBoolean true))
                Scenario.accepts_bool (fun _ => Ok (JBoolean true))
                Scenario.accepts_bool (fun _ => Ok (JBoolean true))
                Scenario.accepts_bool (Scenario.reads Scenario.sms))
      as (Hcommands & _).
    destruct (Hcommands (Scenario.unsigned "checkout") Scenario.start e
                (snd (CommandsWebhook.attempt (Scenario.dev_db_failing 0 e)
                        Scenario.accepts_bool
                        (Scenario.reads Scenario.checkout)
                        (Scenario.unsigned "checkout") Scenario.start))
                ltac:(vm_compute; reflexivity))
      as (response & w' & Hpost & H401 & _).
    exists response. rewrite Hpost. split; [reflexivity|].
    apply H401. reflexivity.
  - destruct (@thrown_error_classification
                CheckoutCommandPayload CheckoutCommandPayload
                CheckoutCommandPayload (Scenario.unconfigured "production")
                Scenario.accepts_bool (Scenario.reads Scenario.checkout)
                Scenario.accepts_bool (fun _ => Ok (JBoolean true))
                Scenario.accepts_bool (fun _ => Ok (JBoolean true))
                Scenario.accepts_bool (fun _ => Ok (JBoolean true))
                Scenario.accepts_bool (Scenario.reads Scenario.sms))
      as (_ & _ & _ & _ & _ & Hprod).
    destruct (Hprod (Scenario.unsigned "checkout") Scenario.start
                (or_introl eq_refl) ltac:(vm_compute; discriminate))
      as (_ & (w' & Hpost) & _).
    eexists. rewrite Hpost. split; reflexivity.
Defined.

(** The orders service, which calls the receiver itself, has another
    catch block: an error thrown in its [try] block is answered 500
    whatever its message.  Here its first store statement fails with an
    error whose message contains 'signature'. *)
Lemma service_answers_signature_error_with_500 :
  let e := JsError "SSL error: certificate signature failure" in
  let env := Scenario.db_failing 0 e in
  fst (OrdersService.attempt env Scenario.accepts_bool
         (Scenario.parses Scenario.checkout) (Scenario.signed "checkout")
         Scenario.start) = Throw e /\
  mentions_signature e = true /\
  fst (OrdersService.POST env Scenario.accepts_bool
         (Scenario.parses Scenario.checkout) (Scenario.signed "checkout")
         Scenario.start) =
    Ok (mkResponse 500
          (Failure "Failed to process webhook"
             (Some "SSL error: certificate signature failure"))).
Proof. vm_compute. repeat split. Qed.

(** ** What the sibling consumers do in the same situations *)

(** X25.  The Commands webhook rejects an event of another type that the
    verifier resolved to with 400, a status the queue does not retry on; so
    it does whatever else the verifier resolved to, such as the receiver's
    boolean, which has no event type. *)
Lemma commands_unknown_type_rejected env rv rj request w event w1 :
  QstashWebhook.verifyQStashSignature env rv rj request w = (Ok event, w1) ->
  prop eventType event <> Some "command.checkout" ->
  CommandsWebhook.POST env rv rj request w =
    (Ok (mkResponse 400 (Failure "Unknown event type" None)),
     add_effect (Logged Warn "[Commands Webhook] Unknown event type") w1).
Proof.
  intros Hverify Htype.
  unfold CommandsWebhook.POST, CommandsWebhook.attempt.
  erewrite try_catch_ok; [reflexivity|].
  rewrite (bind_ok _ _ _ _ _ Hverify).
  destruct event as [command|flag]; [|reflexivity].
  destruct (String.eqb (eventType command) "command.checkout") eqn:Heq;
    [apply String.eqb_eq in Heq; simpl in Htype; congruence|].
  reflexivity.
Qed.

(** The orders service acknowledges a verified event of an unknown type
    with 200 and does nothing. *)
Lemma service_unknown_type_ignored env rv jp request w signature event :
  headers request !! "upstash-signature" = Some signature ->
  truthy (Some signature) = true ->
  rv signature (body request) = Ok true ->
  jp (body request) = Ok event ->
  eventType event <> "command.checkout" ->
  String.prefix "order." (eventType event) = false ->
  OrdersService.POST env rv jp request w =
    (Ok (mkResponse 200 (Message "Event ignored")),
     add_effect (VerifyCall signature (body request)) w).
Proof.
  intros Hsig Htruthy Hvalid Hparse Htype Hprefix.
  unfold OrdersService.POST, OrdersService.attempt,
    OrdersService.check_signature, try_catch, bind, emit, settle, ret.
  rewrite Hsig, Htruthy. simpl. rewrite Hvalid. simpl. rewrite Hparse.
  destruct (String.eqb (eventType event) "command.checkout") eqn:Heq;
    [apply String.eqb_eq in Heq; contradiction|].
  now rewrite Hprefix.
Qed.

(** The Notifications webhook short-circuits a delivery whose id is
    recorded: the handler does not run and the answer is marked duplicate. *)
Lemma notifications_duplicate_short_circuited env rv rj request w event w1 w2 :
  QstashWebhook.verifyQStashSignature env rv rj request w =
      (Ok (JObject event), w1) ->
  Deduplication.isEventProcessed env (eventId event) w1 = (Ok true, w2) ->
  NotificationsWebhook.POST env rv rj request w =
    (Ok (mkResponse 200
           (Success (Some (eventId event)) (Some (eventType event))
              (Some true))), w2).
Proof.
  intros Hverify Hseen.
  unfold NotificationsWebhook.POST, NotificationsWebhook.attempt.
  erewrite try_catch_ok; [reflexivity|].
  rewrite (bind_ok _ _ _ _ _ Hverify). cbv zeta.
  now rewrite (bind_ok _ _ _ _ _
                 (processWithDeduplication_seen env (eventId event) _ _ _ Hseen)).
Qed.

Lemma publish_keyed_publishes env ty topic src (pl : Payload) key corr :
  publishes [MPublish topic ty]
    (KafkaService.publish_keyed env ty topic src pl key corr).
Proof.
  intros w r w'.
  unfold KafkaService.publish_keyed, KafkaService.publishEvent,
    KafkaService.send, QstashProducer.createBaseEvent, fresh_uuid, bind, ret.
  simpl.
  destruct (publishFault env (publishCalls w)); intros H; inversion H;
    subst; simpl; repeat split; eexists; (split; reflexivity).
Qed.

(** X19.  The Kafka orders service dead-letters a failed checkout: when a
    statement of the order transaction fails and the producer works, the
    consumer rolls the transaction back and then sends exactly one
    analytics.dlq event to the analytics topic, carrying the original
    event, the error message and retry count 0. *)
Lemma kafka_failed_checkout_is_dead_lettered env jp topic message value
    event w k e :
  KafkaService.km_headers message !! "eventType" = Some "command.checkout" ->
  KafkaService.km_value message = Some value ->
  jp value = Ok event ->
  (k < transaction_statements (items (payload event)))%nat ->
  first_fault env (dbCalls w) k e ->
  (forall n, publishFault env n = None) ->
  exists w' j before id key,
    KafkaService.orders_consumer env jp topic message w = (Ok tt, w') /\
    db w' = db w /\
    trace w' =
      trace w ++ before ++
      [KafkaSend KafkaService.ANALYTICS key
         (mkEvent id "analytics.dlq" "1.0" "consumer-dlq" None
            (PDeadLetter
               (mkDeadLetter topic "command.checkout" (Some event)
                  (details_of e) 0)))] /\
    publish_targets (marks before) = replicate j KafkaService.INVENTORY.
Proof.
  intros Hheader Hvalue Hparse Hk Hfault Hqueue.
  destruct (KafkaService.handleCheckoutCommand env event w) as [r w1] eqn:Hrun.
  assert (Hcases := Hrun).
  unfold KafkaService.handleCheckoutCommand in Hcases.
  apply (handleCheckoutCommand_run env _ _ _ _ _
           [MPublish KafkaService.INVENTORY "inventory.stock.updated"]
           [MPublish KafkaService.ORDERS "order.created"]
           [MPublish KafkaService.NOTIFICATIONS "notification.email"]
           [MPublish KafkaService.ANALYTICS "analytics.audit"]) in Hcases;
    try (intros p c; apply publish_keyed_publishes).
  cbv zeta in Hcases.
  destruct Hcases as [(e' & j & -> & Hd & _ & Hbad)
                     | (o & rows & after & _ & _ & Hgood & _)].
  2:{ destruct Hgood as (Hnone & _).
      destruct (no_fault_excludes env _ _ _ _ Hnone Hfault Hk). }
  destruct Hbad as ((k' & _ & Hff) & _ & _ & d & Ht & Hm).
  destruct (first_fault_unique env _ _ _ _ _ Hfault Hff) as [_ <-].
  unfold KafkaService.orders_consumer, KafkaService.eachMessage.
  rewrite Hheader. simpl.
  unfold bind at 1. unfold KafkaService.parseEvent. rewrite Hvalue, Hparse.
  unfold ret at 1. rewrite (try_catch_throw _ _ _ _ _ Hrun).
  unfold console_error, emit, KafkaService.sendToDLQ, fresh_uuid,
    KafkaService.publishEvent, KafkaService.send, bind.
  simpl. rewrite Hqueue.
  eexists _, j, (d ++ [Logged Error "[Kafka Consumer] Error processing"]), _, _.
  split; [reflexivity|]. simpl. split; [exact Hd|].
  split.
  - rewrite Ht. now rewrite <- !app_assoc.
  - rewrite marks_app, Hm. simpl. rewrite app_nil_r.
    change (publish_targets (MBegin :: ?x)) with (publish_targets x).
    rewrite publish_targets_times. apply app_nil_r.
Qed.

(** On the shared verifier with both keys configured, a failure of the
    receiver (whatever it throws) is rethrown as 'Invalid webhook
    signature' and answered 401 by the Commands webhook. *)
Lemma commands_receiver_failure_rejected env rv rj request w signature e :
  truthy (QstashWebhook.currentSigningKey env) = true ->
  truthy (QstashWebhook.nextSigningKey env) = true ->
  headers request !! "upstash-signature" = Some signature ->
  truthy (Some signature) = true ->
  rv signature (body request) = Throw e ->
  exists w',
    CommandsWebhook.POST env rv rj request w =
      (Ok (mkResponse 401
             (Failure "Invalid signature" (Some "Invalid webhook signature"))),
       w').
Proof.
  intros Hcurrent Hnext Hsig Htruthy Hfail.
  unfold CommandsWebhook.POST, CommandsWebhook.attempt,
    QstashWebhook.verifyQStashSignature.
  rewrite Hcurrent, Hnext, Hsig, Htruthy. simpl.
  unfold try_catch, bind, emit, settle, console_error, throw.
  rewrite Hfail. simpl. rewrite webhook_catch_run. simpl.
  eexists. reflexivity.
Qed.

(** * Further properties of the code *)

(** ** The router and the type guards *)

Lemma prefix_head a p s :
  String.prefix (String a p) s = true -> exists rest, s = String a rest.
Proof.
  destruct s as [|b rest]; simpl; [discriminate|].
  destruct (ascii_dec a b) as [->|]; [eauto | discriminate].
Qed.

Lemma prefix_exclusive a p b q s :
  a <> b ->
  String.prefix (String a p) s = true -> String.prefix (String b q) s = false.
Proof.
  intros Hne Ha. destruct (String.prefix (String b q) s) eqn:Hb; [|reflexivity].
  apply prefix_head in Ha as [r1 ->]. apply prefix_head in Hb as [r2 Heq].
  injection Heq as Heq _. congruence.
Qed.

Ltac other_prefix H :=
  eapply prefix_exclusive; [|exact H]; discriminate.

Ltac topic_cases :=
  repeat split; intros; try reflexivity; try discriminate;
  repeat match goal with H : _ /\ _ |- _ => destruct H end;
  try discriminate; try congruence.

(** X1.  [getTopicForEvent] returns the commands, orders, notifications or
    inventory topic exactly when the event type starts with the matching
    prefix, and the analytics topic exactly when it starts with none of
    the four. *)
Theorem getTopicForEvent_by_prefix {P} (event : BaseEvent P) :
  let ty := eventType event in
  let topic := QstashProducer.getTopicForEvent event in
  (topic = QstashProducer.COMMANDS <-> String.prefix "command." ty = true) /\
  (topic = QstashProducer.ORDERS <-> String.prefix "order." ty = true) /\
  (topic = QstashProducer.NOTIFICATIONS <->
     String.prefix "notification." ty = true) /\
  (topic = QstashProducer.INVENTORY <-> String.prefix "inventory." ty = true) /\
  (topic = QstashProducer.ANALYTICS <->
     String.prefix "command." ty = false /\
     String.prefix "order." ty = false /\
     String.prefix "notification." ty = false /\
     String.prefix "inventory." ty = false).
Proof.
  cbv zeta. unfold QstashProducer.getTopicForEvent.
  destruct (String.prefix "command." (eventType event)) eqn:Hc.
  { assert (String.prefix "order." (eventType event) = false) as Ho
      by other_prefix Hc.
    assert (String.prefix "notification." (eventType event) = false) as Hn
      by other_prefix Hc.
    assert (String.prefix "inventory." (eventType event) = false) as Hi
      by other_prefix Hc.
    rewrite Ho, Hn, Hi.
    topic_cases. }
  destruct (String.prefix "order." (eventType event)) eqn:Ho.
  { assert (String.prefix "notification." (eventType event) = false) as Hn
      by other_prefix Ho.
    assert (String.prefix "inventory." (eventType event) = false) as Hi
      by other_prefix Ho.
    rewrite Hn, Hi.
    topic_cases. }
  destruct (String.prefix "notification." (eventType event)) eqn:Hn.
  { assert (String.prefix "inventory." (eventType event) = false) as Hi
      by other_prefix Hn.
    rewrite Hi.
    topic_cases. }
  destruct (String.prefix "inventory." (eventType event)) eqn:Hi.
  { topic_cases. }
  topic_cases.
Qed.

(** X2.  At most one of the five type guards holds for an event, and the
    guard that holds names the topic the router picks: an event a guard
    accepts is routed to that guard's topic, and an event none of the
    first four guards accepts is routed to analytics, whether or not it
    is an analytics event. *)
Theorem guards_agree_with_router {P} (event : BaseEvent P) :
  let topic := QstashProducer.getTopicForEvent event in
  (SharedTypes.isCommandEvent event = true ->
   topic = QstashProducer.COMMANDS /\
   SharedTypes.isOrderEvent event = false /\
   SharedTypes.isNotificationEvent event = false /\
   SharedTypes.isInventoryEvent event = false /\
   SharedTypes.isAnalyticsEvent event = false) /\
  (SharedTypes.isOrderEvent event = true ->
   topic = QstashProducer.ORDERS /\
   SharedTypes.isNotificationEvent event = false /\
   SharedTypes.isInventoryEvent event = false /\
   SharedTypes.isAnalyticsEvent event = false) /\
  (SharedTypes.isNotificationEvent event = true ->
   topic = QstashProducer.NOTIFICATIONS /\
   SharedTypes.isInventoryEvent event = false /\
   SharedTypes.isAnalyticsEvent event = false) /\
  (SharedTypes.isInventoryEvent event = true ->
   topic = QstashProducer.INVENTORY /\
   SharedTypes.isAnalyticsEvent event = false) /\
  (SharedTypes.isAnalyticsEvent event = true ->
   topic = QstashProducer.ANALYTICS) /\
  (SharedTypes.isCommandEvent event = false ->
   SharedTypes.isOrderEvent event = false ->
   SharedTypes.isNotificationEvent event = false ->
   SharedTypes.isInventoryEvent event = false ->
   topic = QstashProducer.ANALYTICS).
Proof.
  cbv zeta.
  unfold SharedTypes.isCommandEvent, SharedTypes.isOrderEvent,
    SharedTypes.isNotificationEvent, SharedTypes.isInventoryEvent,
    SharedTypes.isAnalyticsEvent, QstashProducer.getTopicForEvent.
  split; [|split; [|split; [|split; [|split]]]].
  - intros H. rewrite H. repeat split; other_prefix H.
  - intros H.
    assert (String.prefix "command." (eventType event) = false) as ->
      by other_prefix H.
    rewrite H. repeat split; other_prefix H.
  - intros H.
    assert (String.prefix "command." (eventType event) = false) as ->
      by other_prefix H.
    assert (String.prefix "order." (eventType event) = false) as ->
      by other_prefix H.
    rewrite H. repeat split; other_prefix H.
  - intros H.
    assert (String.prefix "command." (eventType event) = false) as ->
      by other_prefix H.
    assert (String.prefix "order." (eventType event) = false) as ->
      by other_prefix H.
    assert (String.prefix "notification." (eventType event) = false) as ->
      by other_prefix H.
    rewrite H. repeat split; other_prefix H.
  - intros H.
    assert (String.prefix "command." (eventType event) = false) as ->
      by other_prefix H.
    assert (String.prefix "order." (eventType event) = false) as ->
      by other_prefix H.
    assert (String.prefix "notification." (eventType event) = false) as ->
      by other_prefix H.
    assert (String.prefix "inventory." (eventType event) = false) as ->
      by other_prefix H.
    reflexivity.
  - intros -> -> -> ->. reflexivity.
Qed.

Lemma guards_agree_with_router_witness :
  SharedTypes.isOrderEvent Scenario.checkout = false /\
  SharedTypes.isCommandEvent Scenario.checkout = true /\
  QstashProducer.getTopicForEvent Scenario.checkout = QstashProducer.COMMANDS /\
  QstashProducer.getTopicForEvent Scenario.sms = QstashProducer.NOTIFICATIONS.
Proof.
  destruct (guards_agree_with_router Scenario.checkout)
    as (Hcommand & _).
  destruct (Hcommand eq_refl) as (Htopic & Horder & _).
  destruct (guards_agree_with_router Scenario.sms)
    as (_ & _ & Hnotification & _).
  destruct (Hnotification eq_refl) as (Htopic' & _).
  repeat split; assumption.
Defined.

(** ** The domain publishers *)

Lemma producer_routed env ty (pl : Payload) src corr topic :
  (forall id v s c,
      QstashProducer.getTopicForEvent (mkEvent id ty v s c pl) = topic) ->
  publishes_routed env ty src corr pl
    (event <- QstashProducer.createBaseEvent env ty pl src corr ;;
     QstashProducer.publishEvent env topic event None ;;;
     ret event).
Proof.
  intros Htopic w. cbv zeta.
  rewrite (Htopic _ _ _ _).
  unfold QstashProducer.createBaseEvent, QstashProducer.publishEvent,
    QstashProducer.publishJSON, fresh_uuid, bind, try_catch, ret, throw,
    console_error, emit.
  simpl.
  destruct (publishFault env (publishCalls w)); simpl.
  - split; [reflexivity|]. split; [reflexivity|]. split; [reflexivity|].
    now rewrite <- app_assoc.
  - repeat split.
Qed.

(** X3.  Each domain publisher of lib/qstash-producer.ts creates a fresh
    event of its type and source, carrying the given payload and
    correlation id, issues exactly one publish call for it, with three
    retries, to the webhook of the topic that [getTopicForEvent] assigns
    to that event, and resolves to that event; when the queue call fails
    it logs the failure and throws the queue's error.  [publishAutoRoute]
    does the same with an event it is given, so that applied to such an
    event it reaches the same webhook. *)
Theorem publishers_follow_router env c :
  (forall p, publishes_routed env "order.created" "orders-service" c
               (POrder p) (QstashProducer.publishOrderCreated env p c)) /\
  (forall p, publishes_routed env "notification.email" "orders-service" c
               (PEmail p) (QstashProducer.publishEmailNotification env p c)) /\
  (forall p, publishes_routed env "inventory.stock.updated" "orders-service" c
               (PStock p) (QstashProducer.publishStockUpdate env p c)) /\
  (forall p, publishes_routed env "analytics.audit" "api" c
               (PAudit p) (QstashProducer.publishAuditLog env p c)) /\
  (forall event w,
      let call :=
        PublishCall
          (QstashProducer.getWebhookUrl env
             (QstashProducer.getTopicForEvent event))
          event (Some 3%Z) in
      AutoRoute.publishAutoRoute env event w =
        match publishFault env (publishCalls w) with
        | None => (Ok tt, tick_publish (add_effect call w))
        | Some e =>
            (Throw e,
             add_effect (Logged Error "[QStash] Failed to publish")
               (tick_publish (add_effect call w)))
        end).
Proof.
  split; [|split; [|split; [|split]]];
    try (intros p; apply producer_routed; reflexivity).
  intros event w.
  unfold AutoRoute.publishAutoRoute, QstashProducer.publishEvent,
    QstashProducer.publishJSON, try_catch, bind, console_error, emit, throw.
  simpl. destruct (publishFault env (publishCalls w)); reflexivity.
Qed.

(** X4.  Two topics never share a webhook: whatever base URL is
    configured, [getWebhookUrl] gives distinct topics distinct URLs. *)
Theorem getWebhookUrl_injective env topic1 topic2 :
  QstashProducer.getWebhookUrl env topic1 =
  QstashProducer.getWebhookUrl env topic2 ->
  topic1 = topic2.
Proof.
  unfold QstashProducer.getWebhookUrl. intros H.
  apply append_cancel in H. now apply append_cancel in H.
Qed.

Lemma getWebhookUrl_injective_witness :
  QstashProducer.getWebhookUrl Scenario.healthy "orders" =
    "http://localhost:3000/api/webhooks/orders" /\
  ("orders" : string) = "orders".
Proof.
  split; [reflexivity|].
  apply (getWebhookUrl_injective Scenario.healthy). reflexivity.
Defined.

(** ** Recording and checking deliveries *)

Lemma processWithDeduplication_inv {T} env eventId (processor : M T) w r w' :
  Deduplication.processWithDeduplication env eventId processor w = (r, w') ->
  exists b w1,
    Deduplication.isEventProcessed env eventId w = (Ok b, w1) /\
    ((b = true /\ r = Ok (Deduplication.mkOutcome false None) /\ w' = w1) \/
     (b = false /\
      exists res w2,
        processor w1 = (Ok res, w2) /\
        r = Ok (Deduplication.mkOutcome true (Some res)) /\
        w' = snd (Deduplication.markEventProcessed env eventId
                    Deduplication.DEDUP_TTL_SECONDS w2)) \/
     (b = false /\
      exists e, processor w1 = (Throw e, w') /\ r = Throw e)).
Proof.
  intros Hrun.
  destruct (isEventProcessed_total env eventId w) as (b & w1 & Hcheck).
  exists b, w1. split; [exact Hcheck|].
  destruct b.
  - rewrite (processWithDeduplication_seen env _ _ _ _ Hcheck) in Hrun.
    injection Hrun as <- <-. left. auto.
  - destruct (processor w1) as [[res|e] w2] eqn:Hproc.
    + rewrite (processWithDeduplication_succeeds env _ _ _ _ _ _ Hcheck Hproc)
        in Hrun.
      injection Hrun as <- <-. right. left. eauto 6.
    + rewrite (processWithDeduplication_fails env _ _ _ _ _ _ Hcheck Hproc)
        in Hrun.
      injection Hrun as <- <-. right. right. eauto.
Qed.

Lemma processed_is_recorded {T} env eventId (processor : M T) w o w' :
  (forall n, redisFault env n = None) ->
  Deduplication.processWithDeduplication env eventId processor w = (Ok o, w') ->
  Deduplication.processed o = true ->
  redis w' !! (Deduplication.DEDUP_KEY_PREFIX +:+ eventId) =
    Some (Deduplication.DEDUP_TTL_SECONDS, "1").
Proof.
  intros Hup Hrun Hprocessed.
  apply processWithDeduplication_inv in Hrun
    as (b & w1 & Hcheck & [(_ & Ho & _) | [(_ & res & w2 & _ & _ & ->)
                                         | (_ & e & _ & Ho)]]).
  - injection Ho as ->. discriminate.
  - rewrite (markEventProcessed_records env _
               Deduplication.DEDUP_TTL_SECONDS _ eq_refl (Hup _)). simpl.
    apply lookup_insert_eq.
  - discriminate.
Qed.

(** What is left of a record after [seconds]. *)
Lemma elapse_lookup seconds w key :
  redis (elapse seconds w) !! key =
  match redis w !! key with
  | Some entry =>
      if (0 <? fst entry - seconds)%Z
      then Some (fst entry - seconds, snd entry)%Z else None
  | None => None
  end.
Proof.
  unfold elapse. simpl. rewrite lookup_omap.
  destruct (redis w !! key); reflexivity.
Qed.

(** A record of [ttl] seconds is there for less than [ttl] seconds. *)
Lemma recorded_then_elapsed env eventId seconds ttl v w :
  redisFault env (redisCalls w) = None ->
  redis w !! (Deduplication.DEDUP_KEY_PREFIX +:+ eventId) = Some (ttl, v) ->
  Deduplication.isEventProcessed env eventId (elapse seconds w) =
    (Ok (bool_decide (seconds < ttl)%Z), tick_redis (elapse seconds w)).
Proof.
  intros Hup Hkey.
  pose proof (elapse_lookup seconds w
                (Deduplication.DEDUP_KEY_PREFIX +:+ eventId)) as Hleft.
  rewrite Hkey in Hleft. simpl in Hleft.
  destruct (decide (seconds < ttl)%Z) as [Hlt|Hge].
  - rewrite bool_decide_eq_true_2 by exact Hlt.
    assert ((0 <? ttl - seconds)%Z = true) as Hpos by (apply Z.ltb_lt; lia).
    rewrite Hpos in Hleft.
    eapply isEventProcessed_seen; [exact Hup | exact Hleft].
  - rewrite bool_decide_eq_false_2 by exact Hge.
    assert ((0 <? ttl - seconds)%Z = false) as Hneg by (apply Z.ltb_ge; lia).
    rewrite Hneg in Hleft.
    eapply isEventProcessed_fresh; [exact Hup | exact Hleft].
Qed.

(** X5.  Round trip through the store.  With Redis answering, an id that
    [markEventProcessed] has recorded with a positive time to live is
    reported as seen by an [isEventProcessed] that follows less than that
    many seconds later, and as not seen from then on; the answer for any
    other id is what it would have been without the record. *)
Theorem marked_event_is_seen env eventId ttl seconds w :
  (0 < ttl)%Z ->
  redisFault env (redisCalls w) = None ->
  redisFault env (S (redisCalls w)) = None ->
  let w1 :=
    elapse seconds (snd (Deduplication.markEventProcessed env eventId ttl w)) in
  fst (Deduplication.isEventProcessed env eventId w1) =
    Ok (bool_decide (seconds < ttl)%Z) /\
  forall other,
    other <> eventId ->
    fst (Deduplication.isEventProcessed env other w1) =
    Ok (bool_decide
          (is_Some (redis (elapse seconds w)
                      !! (Deduplication.DEDUP_KEY_PREFIX +:+ other)))).
Proof.
  intros Httl Hmark Hcheck w1. subst w1.
  rewrite (markEventProcessed_records env _ _ _ Httl Hmark). simpl.
  split.
  - erewrite recorded_then_elapsed;
      [reflexivity | exact Hcheck | simpl; apply lookup_insert_eq].
  - intros other Hother.
    assert (Hkey : Deduplication.DEDUP_KEY_PREFIX +:+ eventId <>
                   Deduplication.DEDUP_KEY_PREFIX +:+ other).
    { intros Heq. apply append_cancel in Heq. congruence. }
    set (w0 := set_redis _ (tick_redis w)).
    assert (redis (elapse seconds w0)
              !! (Deduplication.DEDUP_KEY_PREFIX +:+ other) =
            redis (elapse seconds w)
              !! (Deduplication.DEDUP_KEY_PREFIX +:+ other)) as Hsame.
    { rewrite !elapse_lookup. unfold w0. simpl.
      rewrite lookup_insert_ne by assumption. reflexivity. }
    destruct (redis (elapse seconds w)
                !! (Deduplication.DEDUP_KEY_PREFIX +:+ other))
      as [v|] eqn:Hold.
    + erewrite isEventProcessed_seen with (v := v);
        [ rewrite bool_decide_eq_true_2; [reflexivity|eauto]
        | exact Hcheck
        | exact Hsame ].
    + erewrite isEventProcessed_fresh;
        [ rewrite bool_decide_eq_false_2; [reflexivity|]
        | exact Hcheck
        | exact Hsame ].
      intros [v Hv]. unfold elapse in Hold. simpl in Hold. congruence.
Qed.

Lemma marked_event_is_seen_witness :
  let recorded :=
    snd (Deduplication.markEventProcessed Scenario.healthy "evt-1" 60
           Scenario.start) in
  fst (Deduplication.isEventProcessed Scenario.healthy "evt-1"
         (elapse 59 recorded)) = Ok true /\
  fst (Deduplication.isEventProcessed Scenario.healthy "evt-1"
         (elapse 60 recorded)) = Ok false /\
  fst (Deduplication.isEventProcessed Scenario.healthy "evt-2"
         (elapse 59 recorded)) = Ok false.
Proof.
  cbv zeta.
  destruct (marked_event_is_seen Scenario.healthy "evt-1" 60 59 Scenario.start
              eq_refl eq_refl eq_refl) as (Hsame & Hother).
  destruct (marked_event_is_seen Scenario.healthy "evt-1" 60 60 Scenario.start
              eq_refl eq_refl eq_refl) as (Hgone & _).
  split; [exact Hsame|]. split; [exact Hgone|].
  rewrite (Hother "evt-2"); [reflexivity|discriminate].
Defined.

(** X6.  With Redis answering, a delivery that [processWithDeduplication]
    has processed is not processed again while its record lasts, which is
    [DEDUP_TTL_SECONDS]: a call for the same id less than that many
    seconds later returns the duplicate result without running its
    processor, whichever processor it is given, and changes nothing but
    the count of store calls; a later call finds no record and runs its
    processor again. *)
Theorem processed_event_is_skipped {T U} env eventId (processor : M T)
    (again : M U) seconds w o w1 :
  (forall n, redisFault env n = None) ->
  Deduplication.processWithDeduplication env eventId processor w = (Ok o, w1) ->
  Deduplication.processed o = true ->
  let later := elapse seconds w1 in
  Deduplication.processWithDeduplication env eventId again later =
    if bool_decide (seconds < Deduplication.DEDUP_TTL_SECONDS)%Z then
      (Ok (Deduplication.mkOutcome false None), tick_redis later)
    else
      match again (tick_redis later) with
      | (Ok r, w2) =>
          (Ok (Deduplication.mkOutcome true (Some r)),
           snd (Deduplication.markEventProcessed env eventId
                  Deduplication.DEDUP_TTL_SECONDS w2))
      | (Throw e, w2) => (Throw e, w2)
      end.
Proof.
  intros Hup Hrun Hprocessed later.
  pose proof (processed_is_recorded env eventId processor w o w1 Hup Hrun
                Hprocessed) as Hrecord.
  pose proof (recorded_then_elapsed env eventId seconds _ _ w1 (Hup _) Hrecord)
    as Hcheck.
  fold later in Hcheck.
  destruct (bool_decide (seconds < Deduplication.DEDUP_TTL_SECONDS)%Z).
  - now apply processWithDeduplication_seen.
  - destruct (again (tick_redis later)) as [[r|e] w2] eqn:Hagain.
    + exact (processWithDeduplication_succeeds env _ _ _ _ _ _ Hcheck Hagain).
    + exact (processWithDeduplication_fails env _ _ _ _ _ _ Hcheck Hagain).
Qed.

Lemma processed_event_is_skipped_witness :
  exists w1,
    Deduplication.processWithDeduplication Scenario.healthy "evt-1"
      (emit (MailSent "ann@example.com" "Welcome")) Scenario.start =
      (Ok (Deduplication.mkOutcome true (Some tt)), w1) /\
    trace w1 = [MailSent "ann@example.com" "Welcome"] /\
    Deduplication.processWithDeduplication Scenario.healthy "evt-1"
      (emit (MailSent "ann@example.com" "Welcome")) (elapse 3599 w1) =
      (Ok (Deduplication.mkOutcome false None), tick_redis (elapse 3599 w1)) /\
    fst (Deduplication.processWithDeduplication Scenario.healthy "evt-1"
           (emit (MailSent "ann@example.com" "Welcome")) (elapse 3600 w1)) =
      Ok (Deduplication.mkOutcome true (Some tt)) /\
    trace (snd (Deduplication.processWithDeduplication Scenario.healthy "evt-1"
                  (emit (MailSent "ann@example.com" "Welcome"))
                  (elapse 3600 w1))) =
      [MailSent "ann@example.com" "Welcome";
       MailSent "ann@example.com" "Welcome"].
Proof.
  eexists. split; [reflexivity|]. split; [reflexivity|]. split.
  - apply (processed_event_is_skipped Scenario.healthy "evt-1"
             (emit (MailSent "ann@example.com" "Welcome"))
             (emit (MailSent "ann@example.com" "Welcome")) 3599 Scenario.start
             (Deduplication.mkOutcome true (Some tt)));
      reflexivity.
  - rewrite (processed_event_is_skipped Scenario.healthy "evt-1"
               (emit (MailSent "ann@example.com" "Welcome"))
               (emit (MailSent "ann@example.com" "Welcome")) 3600 Scenario.start
               (Deduplication.mkOutcome true (Some tt)) _
               ltac:(reflexivity) ltac:(reflexivity) ltac:(reflexivity)).
    split; reflexivity.
Defined.

(** X7.  While every store call fails, [processWithDeduplication] gives no
    protection: the processor runs on every call, also for an id that is
    recorded, its result is reported as processed, and nothing is
    recorded; a throwing processor still throws the same error. *)
Theorem outage_disables_deduplication {T} env eventId (processor : M T) w :
  (forall n, redisFault env n <> None) ->
  let w0 :=
    add_effect (Logged Error "[Deduplication] Redis check failed:")
      (tick_redis w) in
  Deduplication.processWithDeduplication env eventId processor w =
    match processor w0 with
    | (Ok r, w1) =>
        (Ok (Deduplication.mkOutcome true (Some r)),
         add_effect
           (Logged Error "[Deduplication] Failed to mark event as processed:")
           (tick_redis w1))
    | (Throw e, w1) => (Throw e, w1)
    end.
Proof.
  intros Hdown w0.
  assert (Hcheck : Deduplication.isEventProcessed env eventId w = (Ok false, w0)).
  { unfold Deduplication.isEventProcessed, try_catch, bind,
      Deduplication.redis_exists.
    destruct (redisFault env (redisCalls w)) eqn:Hfault; [reflexivity|].
    now apply Hdown in Hfault. }
  destruct (processor w0) as [[r|e] w1] eqn:Hproc.
  - rewrite (processWithDeduplication_succeeds env _ _ _ _ _ _ Hcheck Hproc).
    unfold Deduplication.markEventProcessed, try_catch,
      Deduplication.redis_setex.
    destruct (redisFault env (redisCalls w1)) eqn:Hfault; [reflexivity|].
    now apply Hdown in Hfault.
  - apply (processWithDeduplication_fails env _ _ _ _ _ _ Hcheck Hproc).
Qed.

Lemma outage_disables_deduplication_witness :
  let seen :=
    set_redis (<["webhook:dedup:evt-1" := (3600, "1")]> ∅) Scenario.start in
  fst (Deduplication.processWithDeduplication Scenario.redis_down "evt-1"
         (emit (MailSent "ann@example.com" "Welcome")) seen) =
    Ok (Deduplication.mkOutcome true (Some tt)) /\
  redis (snd (Deduplication.processWithDeduplication Scenario.redis_down
                "evt-1" (emit (MailSent "ann@example.com" "Welcome")) seen)) =
    redis seen.
Proof.
  intros seen.
  rewrite (outage_disables_deduplication Scenario.redis_down "evt-1"
             (emit (MailSent "ann@example.com" "Welcome")) seen);
    [split; reflexivity|].
  intros n. discriminate.
Defined.

(** ** The Notifications webhook *)

(** The verifier makes no call to the mailer, the queue or either store. *)
Lemma verifier_counters {T} env rv (rj : string -> Result (Js T))
    request w r w' :
  QstashWebhook.verifyQStashSignature env rv rj request w = (r, w') ->
  deliveries w' = deliveries w /\ uuidCalls w' = uuidCalls w /\
  db w' = db w /\ dbCalls w' = dbCalls w /\
  redis w' = redis w /\ redisCalls w' = redisCalls w.
Proof.
  unfold QstashWebhook.verifyQStashSignature.
  destruct (negb (truthy (QstashWebhook.currentSigningKey env))
            || negb (truthy (QstashWebhook.nextSigningKey env))).
  - unfold bind, console_warn, emit, settle, throw.
    destruct (bool_decide _); intros H; inversion H; subst; simpl;
      repeat split.
  - destruct (headers request !! "upstash-signature") as [sig|].
    + destruct (negb (truthy (Some sig))).
      * intros H; inversion H; subst. repeat split.
      * unfold try_catch, bind, emit, settle, console_error, throw, ret.
        destruct (rv sig (body request)); intros H; inversion H; subst;
          simpl; repeat split.
    + intros H; inversion H; subst. repeat split.
Qed.

(** How [POST] ends once the verifier has resolved to an event. *)
Lemma notifications_post_run env rv rj request w event w1 :
  QstashWebhook.verifyQStashSignature env rv rj request w =
      (Ok (JObject event), w1) ->
  NotificationsWebhook.POST env rv rj request w =
    match
      Deduplication.processWithDeduplication env (eventId event)
        (NotificationsWebhook.dispatch env (JObject event)
           (QstashWebhook.retryCount
              (QstashWebhook.getEventMetadata env request))) w1
    with
    | (Ok outcome, w2) =>
        (Ok (mkResponse 200
               (Success (Some (eventId event)) (Some (eventType event))
                  (Some (negb (Deduplication.processed outcome))))), w2)
    | (Throw e, w2) =>
        webhook_catch "[Notifications Webhook] Error processing event:"
          (fun _ => Failure "Invalid signature" None) e w2
    end.
Proof.
  intros Hverify.
  unfold NotificationsWebhook.POST, NotificationsWebhook.attempt.
  unfold try_catch at 1. rewrite (bind_ok _ _ _ _ _ Hverify). cbv zeta.
  unfold bind at 1.
  destruct (Deduplication.processWithDeduplication _ _ _ _) as [[o|e] w2];
    reflexivity.
Qed.

Lemma dispatch_email env event rc :
  eventType event = "notification.email" ->
  NotificationsWebhook.dispatch env (JObject event) rc =
  NotificationsWebhook.handleEmailNotification env event rc.
Proof.
  intros Htype. unfold NotificationsWebhook.dispatch.
  now rewrite Htype.
Qed.




(** X9.  With Redis answering, a notification that the webhook has
    answered 200 without the duplicate mark is answered as a duplicate
    when the same request is delivered again while the record lasts, that
    is less than [DEDUP_TTL_SECONDS] later: 200 with the duplicate mark,
    and no further call to the mailer or to the queue.  From then on the
    record is gone. *)
Theorem notification_redelivery_is_duplicate env rv rj request w id ty w1
    seconds :
  (forall n, redisFault env n = None) ->
  NotificationsWebhook.POST env rv rj request w =
    (Ok (mkResponse 200 (Success id ty (Some false))), w1) ->
  let later := elapse seconds w1 in
  ((seconds < Deduplication.DEDUP_TTL_SECONDS)%Z ->
   exists w2,
     NotificationsWebhook.POST env rv rj request later =
       (Ok (mkResponse 200 (Success id ty (Some true))), w2) /\
     deliveries w2 = deliveries w1 /\
     redis w2 = redis later /\ db w2 = db w1) /\
  ((Deduplication.DEDUP_TTL_SECONDS <= seconds)%Z ->
   redis later !! (Deduplication.DEDUP_KEY_PREFIX +:+ js_string id) = None).
Proof.
  intros Hup Hfirst later.
  destruct (QstashWebhook.verifyQStashSignature env rv rj request w)
    as [[value|e] wv] eqn:Hverify.
  2:{ unfold NotificationsWebhook.POST, NotificationsWebhook.attempt in Hfirst.
      erewrite try_catch_throw in Hfirst
        by (rewrite (bind_throw _ _ _ _ _ Hverify); reflexivity).
      rewrite webhook_catch_run in Hfirst.
      destruct (mentions_signature e); discriminate. }
  destruct value as [event|flag].
  2:{ unfold NotificationsWebhook.POST, NotificationsWebhook.attempt in Hfirst.
      destruct (isEventProcessed_total env (js_string None) wv)
        as (seen & wc & Hcheck).
      destruct seen.
      - erewrite try_catch_ok in Hfirst.
        2:{ rewrite (bind_ok _ _ _ _ _ Hverify). cbv zeta.
            rewrite (bind_ok _ _ _ _ _
                       (processWithDeduplication_seen env _ _ _ _ Hcheck)).
            reflexivity. }
        discriminate.
      - erewrite try_catch_throw in Hfirst.
        2:{ rewrite (bind_ok _ _ _ _ _ Hverify). cbv zeta.
            erewrite bind_throw; [reflexivity|].
            eapply processWithDeduplication_fails; [exact Hcheck|].
            reflexivity. }
        rewrite webhook_catch_run in Hfirst.
        destruct (mentions_signature _); discriminate. }
  rewrite (notifications_post_run _ _ _ _ _ _ _ Hverify) in Hfirst.
  destruct (Deduplication.processWithDeduplication _ _ _ _)
    as [[o|e] wp] eqn:Hrun.
  2:{ rewrite webhook_catch_run in Hfirst.
      destruct (mentions_signature e); discriminate. }
  injection Hfirst as <- <- Hprocessed <-.
  apply negb_false_iff in Hprocessed.
  pose proof (processed_is_recorded env _ _ _ _ _ Hup Hrun Hprocessed)
    as Hrecord.
  split.
  - intros Hsoon.
    destruct (QstashWebhook.verifyQStashSignature env rv rj request later)
      as [r' wv'] eqn:Hverify'.
    assert (r' = Ok (JObject event)) as ->.
    { pose proof (verifier_value env rv rj request later w) as Hsame.
      rewrite Hverify, Hverify' in Hsame. exact Hsame. }
    apply verifier_counters in Hverify' as Hframe.
    destruct Hframe as (Hcalls & _ & Hdb & _ & Hredis & Hrcalls).
    exists (tick_redis wv').
    split; [|split; [exact Hcalls|split; assumption]].
    rewrite (notifications_post_run _ _ _ _ _ _ _ Hverify').
    erewrite processWithDeduplication_seen; [reflexivity|].
    pose proof (recorded_then_elapsed env (eventId event) seconds _ _ wp
                  (Hup _) Hrecord) as Hcheck.
    rewrite bool_decide_eq_true_2 in Hcheck by exact Hsoon.
    fold later in Hcheck.
    pose proof (elapse_lookup seconds wp
                  (Deduplication.DEDUP_KEY_PREFIX +:+ eventId event)) as Hleft.
    rewrite Hrecord in Hleft. simpl in Hleft.
    assert ((0 <? Deduplication.DEDUP_TTL_SECONDS - seconds)%Z = true) as Hpos
      by (apply Z.ltb_lt; lia).
    rewrite Hpos in Hleft. fold later in Hleft.
    eapply isEventProcessed_seen; [apply Hup|].
    rewrite Hredis. exact Hleft.
  - intros Hlate. subst later. cbn [js_string].
    rewrite elapse_lookup, Hrecord. simpl.
    assert ((0 <? Deduplication.DEDUP_TTL_SECONDS - seconds)%Z = false) as Hneg
      by (apply Z.ltb_ge; lia).
    now rewrite Hneg.
Qed.

Lemma notification_redelivery_is_duplicate_witness :
  let deliver :=
    NotificationsWebhook.POST Scenario.dev Scenario.accepts_bool
      (Scenario.reads Cases.confirmation) (Scenario.unsigned "mail") in
  exists w1 w2,
    deliver Scenario.start =
      (Ok (mkResponse 200
             (Success (Some "evt-9") (Some "notification.email") (Some false))),
       w1) /\
    deliver (elapse 3599 w1) =
      (Ok (mkResponse 200
             (Success (Some "evt-9") (Some "notification.email") (Some true))),
       w2) /\
    deliveries w1 = (1, 1)%nat /\ deliveries w2 = (1, 1)%nat /\
    redis (elapse 3600 w1) !! "webhook:dedup:evt-9" = None /\
    deliveries (snd (deliver (elapse 3600 w1))) = (2, 2)%nat.
Proof.
  cbv zeta. eexists.
  destruct (notification_redelivery_is_duplicate Scenario.dev
              Scenario.accepts_bool
              (Scenario.reads Cases.confirmation) (Scenario.unsigned "mail")
              Scenario.start (Some "evt-9") (Some "notification.email") _ 3599
              (fun _ => eq_refl) eq_refl)
    as [Hsoon _].
  destruct (Hsoon eq_refl) as (w2 & Hsecond & Hcalls & _).
  destruct (notification_redelivery_is_duplicate Scenario.dev
              Scenario.accepts_bool
              (Scenario.reads Cases.confirmation) (Scenario.unsigned "mail")
              Scenario.start (Some "evt-9") (Some "notification.email") _ 3600
              (fun _ => eq_refl) eq_refl)
    as [_ Hlate].
  exists w2. split; [reflexivity|]. split; [exact Hsecond|].
  split; [reflexivity|]. split; [rewrite Hcalls; reflexivity|].
  split; [apply Hlate; discriminate|].
  vm_compute. reflexivity.
Defined.





(** X12.  A notification.email event naming a template that is not in the
    registry (and is not a name that the registry object inherits) is not
    sent: the handler throws before calling the mailer or the queue, no
    idempotency record is written, and the answer is 500 with the
    template's name in the details (401 when that name contains
    'signature'). *)
Theorem unknown_template_is_not_sent env rv rj request w event w1 w2 :
  QstashWebhook.verifyQStashSignature env rv rj request w =
      (Ok (JObject event), w1) ->
  Deduplication.isEventProcessed env (eventId event) w1 = (Ok false, w2) ->
  eventType event = "notification.email" ->
  templateId (payload event) <> "order-confirmation" ->
  inherited_property (templateId (payload event)) = false ->
  let message := "Unknown template: " +:+ templateId (payload event) in
  exists w',
    NotificationsWebhook.POST env rv rj request w =
      (Ok (if includes message "signature"
           then mkResponse 401 (Failure "Invalid signature" None)
           else mkResponse 500 (Failure "Processing failed" (Some message))),
       w') /\
    acts (drop (length (trace w2)) (trace w')) = [] /\
    deliveries w' = deliveries w2 /\
    redis w' = redis w2.
Proof.
  intros Hverify Hnew Htype Htemplate _ message.
  rewrite (notifications_post_run _ _ _ _ _ _ _ Hverify).
  rewrite (dispatch_email _ _ _ Htype).
  set (rc := QstashWebhook.retryCount _).
  assert (Hrun :
    NotificationsWebhook.handleEmailNotification env event rc w2 =
      (Throw (JsError message),
       add_effect (Logged Error "[Notifications Webhook] Unknown template")
         w2)).
  { unfold NotificationsWebhook.handleEmailNotification,
      NotificationsWebhook.has_template. cbv zeta.
    destruct (String.eqb (templateId (payload event)) "order-confirmation")
      eqn:Heq; [apply String.eqb_eq in Heq; contradiction|].
    reflexivity. }
  rewrite (processWithDeduplication_fails env _ _ _ _ _ _ Hnew Hrun).
  rewrite webhook_catch_run.
  eexists. split; [reflexivity|].
  split; [|split; reflexivity].
  simpl. rewrite <- app_assoc, drop_app_length. reflexivity.
Qed.

Lemma unknown_template_is_not_sent_witness :
  exists w',
    NotificationsWebhook.POST Scenario.dev
      Scenario.accepts_bool
      (Scenario.reads Cases.unknown_template) (Scenario.unsigned "mail")
      Scenario.start =
      (Ok (mkResponse 500
             (Failure "Processing failed" (Some "Unknown template: welcome"))),
       w') /\
    deliveries w' = (0, 0)%nat /\ redis w' = ∅.
Proof.
  destruct (unknown_template_is_not_sent Scenario.dev
              Scenario.accepts_bool
              (Scenario.reads Cases.unknown_template) (Scenario.unsigned "mail")
              Scenario.start Cases.unknown_template
              (Scenario.warned Scenario.start)
              (tick_redis (Scenario.warned Scenario.start))
              eq_refl eq_refl eq_refl ltac:(discriminate) eq_refl)
    as (w' & Hpost & _ & Hcalls & Hredis).
  exists w'. split; [exact Hpost|]. split; [exact Hcalls | exact Hredis].
Defined.

(** ** What a checkout does to the stock *)

Lemma sold_all_products l p : forall d,
  products (sold_all l d) !! p =
  (fun s => s - ordered p l)%Z <$> products d !! p.
Proof.
  induction l as [|item rest IH]; intros d.
  - simpl. destruct (products d !! p); simpl; [f_equal; lia | reflexivity].
  - change (sold_all (item :: rest) d) with (sold_all rest (sold item d)).
    rewrite IH. simpl.
    destruct (String.eqb_spec (productId item) p) as [->|Hne].
    + rewrite lookup_alter_eq.
      destruct (products d !! p); simpl; [f_equal; lia | reflexivity].
    + rewrite lookup_alter_ne by exact Hne. reflexivity.
Qed.

Lemma ordered_variation_cons v item rest :
  ordered_variation v (item :: rest) =
  (if bool_decide (variationId item = Some v) && truthy (Some v)
   then quantity item + ordered_variation v rest
   else ordered_variation v rest)%Z.
Proof. reflexivity. Qed.

Lemma sold_all_variations l v : forall d,
  productVariations (sold_all l d) !! v =
  (fun s => s - ordered_variation v l)%Z <$> productVariations d !! v.
Proof.
  induction l as [|item rest IH]; intros d.
  - simpl. destruct (productVariations d !! v); simpl;
      [f_equal; lia | reflexivity].
  - change (sold_all (item :: rest) d) with (sold_all rest (sold item d)).
    rewrite IH, ordered_variation_cons. unfold sold. cbn [productVariations].
    destruct (variationId item) as [v'|] eqn:Hv.
    + destruct (decide (v' = v)) as [->|Hne].
      * rewrite bool_decide_eq_true_2 by reflexivity. cbn [andb].
        destruct (truthy (Some v)); [|reflexivity].
        rewrite lookup_alter_eq.
        destruct (productVariations d !! v); simpl;
          [f_equal; lia | reflexivity].
      * rewrite bool_decide_eq_false_2 by congruence. cbn [andb].
        destruct (truthy (Some v')); [|reflexivity].
        rewrite lookup_alter_ne by exact Hne. reflexivity.
    + rewrite bool_decide_eq_false_2 by discriminate. reflexivity.
Qed.

(** X13.  A checkout that the Commands webhook answers with 200 has taken
    from every product's stock the total quantity ordered of it, and from
    every variation's stock the total ordered of that variation, whatever
    the stock was: there is no check against the available stock, so the
    result may be negative. *)
Theorem accepted_checkout_takes_ordered_stock env rv rj request w
    response w' :
  CommandsWebhook.POST env rv rj request w = (Ok response, w') ->
  status response = 200%Z ->
  exists event w1,
    QstashWebhook.verifyQStashSignature env rv rj request w =
      (Ok (JObject event), w1) /\
    (forall p,
        products (db w') !! p =
        (fun s => s - ordered p (items (payload event)))%Z
          <$> products (db w) !! p) /\
    (forall v,
        productVariations (db w') !! v =
        (fun s => s - ordered_variation v (items (payload event)))%Z
          <$> productVariations (db w) !! v).
Proof.
  intros Hpost Hstatus.
  destruct (commands_accepted _ _ _ _ _ _ _ Hpost Hstatus)
    as (event & w1 & newOrder & rows & Hverify & _ & _ & Hdb & _).
  exists event, w1. split; [exact Hverify|].
  rewrite Hdb. unfold checked_out.
  split; intros k; [rewrite sold_all_products | rewrite sold_all_variations];
    reflexivity.
Qed.

Lemma accepted_checkout_takes_ordered_stock_witness :
  let w' :=
    snd (CommandsWebhook.POST Scenario.dev
           Scenario.accepts_bool (Scenario.reads Cases.repeated)
           (Scenario.unsigned "checkout") Scenario.start) in
  products (db w') !! "A" = Some (-1)%Z /\
  products (db w') !! "B" = Some 4%Z /\
  products (db w') !! "C" = Some 7%Z.
Proof.
  cbv zeta.
  destruct (accepted_checkout_takes_ordered_stock Scenario.dev
              Scenario.accepts_bool
              (Scenario.reads Cases.repeated)
              (Scenario.unsigned "checkout") Scenario.start
              (mkResponse 200
                 (Success (Some "evt-11") (Some "command.checkout") None))
              (snd (CommandsWebhook.POST Scenario.dev
                      Scenario.accepts_bool
                      (Scenario.reads Cases.repeated)
                      (Scenario.unsigned "checkout") Scenario.start))
              ltac:(vm_compute; reflexivity) eq_refl)
    as (event & w1 & Hverify & Hproducts & _).
  injection Hverify as <- _.
  rewrite !Hproducts. repeat split.
Defined.

(** ** What the handlers emit *)

Section EmitFacts.
Local Open Scope nat_scope.
Variable env : Env.
Variable P : Effect -> Prop.
Hypothesis P_quiet : forall effect, quiet effect = true -> P effect.

Lemma advance_refl w : advance P w w.
Proof.
  exists []. rewrite app_nil_r. simpl. repeat split; [constructor | lia].
Qed.

Lemma advance_trans w1 w2 w3 :
  advance P w1 w2 -> advance P w2 w3 -> advance P w1 w3.
Proof.
  intros (d1 & T1 & F1 & C1 & S1) (d2 & T2 & F2 & C2 & S2).
  exists (d1 ++ d2). rewrite T2, T1, app_assoc. split; [reflexivity|].
  split; [now apply Forall_app|]. split; [|congruence].
  rewrite marks_app. unfold publish_targets. rewrite omap_app, length_app.
  unfold publish_targets in C1, C2. lia.
Qed.

Lemma advance_quiet w effect :
  quiet effect = true -> advance P w (add_effect effect w).
Proof.
  intros Hq. exists [effect]. split; [reflexivity|].
  split; [repeat constructor; now apply P_quiet|].
  split; [|reflexivity]. destruct effect; try discriminate; simpl; lia.
Qed.

Lemma advance_publish w effect :
  quiet effect = false -> P effect ->
  advance P w (tick_publish (add_effect effect w)).
Proof.
  intros Hq HP. exists [effect]. split; [reflexivity|].
  split; [repeat constructor; exact HP|].
  split; [|reflexivity]. destruct effect; try discriminate; simpl; lia.
Qed.

Lemma advance_frame w w' :
  trace w' = trace w -> publishCalls w' = publishCalls w ->
  smtpCalls w' = smtpCalls w -> advance P w w'.
Proof.
  intros T C S. exists []. rewrite app_nil_r. simpl.
  repeat split; [assumption | constructor | lia | assumption].
Qed.

Lemma emits_ret {A} (a : A) : emits P (ret a).
Proof. intros w r w' H. inversion H; subst. apply advance_refl. Qed.

Lemma emits_throw {A} e : emits P (@throw A e).
Proof. intros w r w' H. inversion H; subst. apply advance_refl. Qed.

Lemma emits_settle {A} (r : Result A) : emits P (settle r).
Proof. intros w r' w' H. inversion H; subst. apply advance_refl. Qed.

Lemma emits_bind {A B} (m : M A) (k : A -> M B) :
  emits P m -> (forall a, emits P (k a)) -> emits P (bind m k).
Proof.
  intros Hm Hk w r w' Hrun.
  apply bind_inv in Hrun as [(a & w1 & H1 & H2)|(e & H1 & _)].
  - eapply advance_trans; [exact (Hm _ _ _ H1) | exact (Hk _ _ _ _ H2)].
  - exact (Hm _ _ _ H1).
Qed.

Lemma emits_try_catch {A} (m : M A) h :
  emits P m -> (forall e, emits P (h e)) -> emits P (try_catch m h).
Proof.
  intros Hm Hh w r w'. unfold try_catch.
  destruct (m w) as [[a|e] w1] eqn:H1; intros Hrun.
  - inversion Hrun; subst. exact (Hm _ _ _ H1).
  - eapply advance_trans; [exact (Hm _ _ _ H1) | exact (Hh _ _ _ _ Hrun)].
Qed.

Lemma emits_emit effect : quiet effect = true -> emits P (emit effect).
Proof.
  intros Hq w r w' H. inversion H; subst. now apply advance_quiet.
Qed.

Lemma emits_console_error msg : emits P (console_error msg).
Proof. now apply emits_emit. Qed.

Lemma emits_console_warn msg : emits P (console_warn msg).
Proof. now apply emits_emit. Qed.

Lemma emits_for_each {A} (f : A -> M unit) l :
  (forall a, emits P (f a)) -> emits P (for_each f l).
Proof.
  intros Hf. induction l as [|a rest IH]; simpl.
  - apply emits_ret.
  - apply emits_bind; [apply Hf | intros _; exact IH].
Qed.

Lemma emits_map_m {A B} (f : A -> M B) l :
  (forall a, emits P (f a)) -> emits P (map_m f l).
Proof.
  intros Hf. induction l as [|a rest IH]; simpl.
  - apply emits_ret.
  - apply emits_bind; [apply Hf|]. intros b.
    apply emits_bind; [exact IH|]. intros bs. apply emits_ret.
Qed.

Lemma emits_fresh_uuid : emits P (fresh_uuid env).
Proof.
  intros w r w' H. inversion H; subst. now apply advance_frame.
Qed.

Lemma emits_statement {A} (f : Db -> A * Db) :
  emits P (Drizzle.statement env f).
Proof.
  intros w r w'. unfold Drizzle.statement.
  destruct (dbFault env (dbCalls w)).
  - intros H; inversion H; subst. now apply advance_frame.
  - destruct (f (db w)) as [a d]. intros H; inversion H; subst.
    now apply advance_frame.
Qed.

Lemma emits_transaction {A} (callback : M A) :
  emits P callback -> emits P (Drizzle.transaction env callback).
Proof.
  intros Hc w r w'. unfold Drizzle.transaction.
  pose proof (advance_quiet w TxBegin eq_refl) as Hbegin.
  destruct (callback (add_effect TxBegin w)) as [[a|e] w1] eqn:Hbody;
    pose proof (advance_trans _ _ _ Hbegin (Hc _ _ _ Hbody)) as H01.
  - destruct (dbFault env (dbCalls w1)); intros H; inversion H; subst;
      (eapply advance_trans; [exact H01|]);
      (eapply advance_trans; [|apply advance_quiet; reflexivity]);
      now apply advance_frame.
  - intros H; inversion H; subst.
    eapply advance_trans; [exact H01|].
    eapply advance_trans; [|apply advance_quiet; reflexivity].
    now apply advance_frame.
Qed.

Lemma emits_fire_and_forget {A} (call : M A) msg :
  emits P call -> emits P (fire_and_forget call msg).
Proof.
  intros Hc. unfold fire_and_forget.
  apply emits_try_catch.
  - apply emits_bind; [exact Hc | intros _; apply emits_ret].
  - intros e. apply emits_console_error.
Qed.

Lemma emits_verifier {T} rv (rj : string -> Result (Js T)) request :
  emits P (QstashWebhook.verifyQStashSignature env rv rj request).
Proof.
  unfold QstashWebhook.verifyQStashSignature.
  destruct (negb (truthy (QstashWebhook.currentSigningKey env))
            || negb (truthy (QstashWebhook.nextSigningKey env))).
  - apply emits_bind; [apply emits_console_warn|]. intros _.
    destruct (bool_decide _); [apply emits_settle | apply emits_throw].
  - destruct (headers request !! "upstash-signature") as [sig|];
      [|apply emits_throw].
    destruct (negb (truthy (Some sig))); [apply emits_throw|].
    apply emits_try_catch.
    + apply emits_bind; [now apply emits_emit|]. intros _.
      apply emits_bind; [apply emits_settle|]. intros verified.
      apply emits_ret.
    + intros e. apply emits_bind; [apply emits_console_error|].
      intros _. apply emits_throw.
Qed.

Lemma emits_webhook_catch tag invalid e :
  emits P (webhook_catch tag invalid e).
Proof.
  unfold webhook_catch. apply emits_bind; [apply emits_console_error|].
  intros _. destruct (mentions_signature e); apply emits_ret.
Qed.

(** The checkout handler emits what its publishers emit. *)
Section Handler.
Variable publishStockUpdate : StockUpdatePayload -> string -> M unit.
Variable publishOrderCreated : OrderPayload -> string -> M unit.
Variable publishEmailNotification : EmailNotificationPayload -> string -> M unit.
Variable publishAuditLog : AuditLogPayload -> string -> M unit.
Variable stockLog : string.
Variable corr : string.

Hypothesis stock_emits : forall p, emits P (publishStockUpdate p corr).
Hypothesis order_emits : forall p, emits P (publishOrderCreated p corr).
Hypothesis email_emits : forall p, emits P (publishEmailNotification p corr).
Hypothesis audit_emits : forall p, emits P (publishAuditLog p corr).

Lemma emits_decrement_stock orderId item :
  emits P
    (Checkout.decrement_stock env publishStockUpdate stockLog orderId corr item).
Proof.
  unfold Checkout.decrement_stock.
  apply emits_bind; [apply emits_statement|]. intros product. cbv zeta.
  apply emits_bind.
  { destruct (variationId item) as [v|]; [|apply emits_ret].
    destruct (truthy (Some v)); [apply emits_statement | apply emits_ret]. }
  intros _. apply emits_bind; [apply emits_statement|]. intros _.
  apply emits_fire_and_forget. apply stock_emits.
Qed.

Lemma emits_order_callback event :
  emits P
    (Checkout.order_callback env publishStockUpdate stockLog event corr).
Proof.
  unfold Checkout.order_callback. cbv zeta.
  apply emits_bind; [apply emits_fresh_uuid|]. intros id.
  apply emits_bind; [apply emits_statement|]. intros newOrder.
  apply emits_bind.
  { apply emits_map_m. intros item. unfold Checkout.order_item_row.
    apply emits_bind; [apply emits_fresh_uuid|]. intros rowId.
    apply emits_ret. }
  intros rows. apply emits_bind; [apply emits_statement|]. intros _.
  apply emits_bind.
  { apply emits_for_each. intros item. apply emits_decrement_stock. }
  intros _. apply emits_ret.
Qed.

Lemma emits_handleCheckoutCommand event :
  corr = or_else (correlationId event) (eventId event) ->
  emits P
    (Checkout.handleCheckoutCommand env publishStockUpdate publishOrderCreated
       publishEmailNotification publishAuditLog stockLog event).
Proof.
  intros Hcorr. unfold Checkout.handleCheckoutCommand. cbv zeta.
  rewrite <- Hcorr.
  apply emits_bind.
  { apply emits_transaction. apply emits_order_callback. }
  intros result. apply emits_bind; [apply order_emits|]. intros _.
  apply emits_bind; [apply email_emits|]. intros _.
  apply audit_emits.
Qed.

End Handler.
End EmitFacts.

Lemma carries_quiet c effect : quiet effect = true -> carries c effect.
Proof. destruct effect; simpl; intros H; try discriminate; exact I. Qed.

Lemma quiet_publishes_nothing delta :
  Forall (fun effect => quiet effect = true) delta ->
  publish_targets (marks delta) = [].
Proof.
  induction 1 as [|effect rest Hq _ IH]; [reflexivity|].
  destruct effect; try discriminate; exact IH.
Qed.

(** A domain publisher of lib/qstash-producer.ts emits one publish call
    for the event it creates, and log lines. *)
Lemma emits_producer (P : Effect -> Prop) env ty (pl : Payload) src corr topic :
  (forall effect, quiet effect = true -> P effect) ->
  (forall id,
      P (PublishCall (QstashProducer.getWebhookUrl env topic)
           (mkEvent id ty "1.0" src (if truthy corr then corr else None) pl)
           (Some 3%Z))) ->
  emits P
    (event <- QstashProducer.createBaseEvent env ty pl src corr ;;
     QstashProducer.publishEvent env topic event None ;;;
     ret event).
Proof.
  intros Hquiet Hcall w r w'.
  unfold QstashProducer.createBaseEvent, QstashProducer.publishEvent,
    QstashProducer.publishJSON, fresh_uuid, bind, try_catch, ret, throw,
    console_error, emit.
  simpl.
  assert (advance P w
            (tick_publish
               (add_effect
                  (PublishCall (QstashProducer.getWebhookUrl env topic)
                     (mkEvent (randomUUID env (uuidCalls w)) ty "1.0" src
                        (if truthy corr then corr else None) pl)
                     (Some 3%Z))
                  (tick_uuid w)))) as Hsent.
  { eapply advance_trans.
    - apply (advance_frame P w (tick_uuid w)); reflexivity.
    - apply advance_publish; [reflexivity | apply Hcall]. }
  destruct (publishFault env (publishCalls w)); intros H; inversion H;
    subst r w'.
  - eapply advance_trans; [exact Hsent|].
    now apply advance_quiet.
  - exact Hsent.
Qed.

(** The orders service's publisher emits at most one publish call, for an
    event that carries the correlation id it was given. *)
Lemma emits_publish_as (P : Effect -> Prop) env ty target (pl : Payload) corr :
  (forall effect, quiet effect = true -> P effect) ->
  (truthy (process_env env !! "QSTASH_TOKEN") = true ->
   forall id,
     P (PublishCall (OrdersService.env_or_empty env target)
          (mkEvent id ty "1.0" "orders-service" (Some corr) pl) None)) ->
  emits P (OrdersService.publish_as env ty target pl corr).
Proof.
  intros Hquiet Hcall w r w'.
  unfold OrdersService.publish_as, OrdersService.publishEvent,
    OrdersService.fetch_publish, fresh_uuid, bind, console_warn, emit.
  simpl.
  assert (advance P w (tick_uuid w)) as Hid
    by (apply (advance_frame P w (tick_uuid w)); reflexivity).
  destruct (truthy (process_env env !! "QSTASH_TOKEN")) eqn:Htoken; simpl.
  - assert (advance P w
              (tick_publish
                 (add_effect
                    (PublishCall (OrdersService.env_or_empty env target)
                       (mkEvent (randomUUID env (uuidCalls w)) ty "1.0"
                          "orders-service" (Some corr) pl) None)
                    (tick_uuid w)))) as Hsent.
    { eapply advance_trans; [exact Hid|].
      apply advance_publish; [reflexivity | now apply Hcall]. }
    destruct (publishFault env (publishCalls w)); intros H; inversion H;
      subst r w'; exact Hsent.
  - intros H; inversion H; subst r w'.
    eapply advance_trans; [exact Hid|].
    now apply advance_quiet.
Qed.

(** The Kafka service's publisher emits one send, for the event it
    creates. *)
Lemma emits_publish_keyed (P : Effect -> Prop) env ty topic src (pl : Payload)
    key corr :
  (forall effect, quiet effect = true -> P effect) ->
  (forall id sentKey,
      P (KafkaSend topic sentKey
           (mkEvent id ty "1.0" src (if truthy corr then corr else None) pl))) ->
  emits P (KafkaService.publish_keyed env ty topic src pl key corr).
Proof.
  intros Hquiet Hcall w r w'.
  unfold KafkaService.publish_keyed, KafkaService.publishEvent,
    KafkaService.send, QstashProducer.createBaseEvent, fresh_uuid, bind, ret.
  simpl.
  assert (advance P w
            (tick_publish
               (add_effect
                  (KafkaSend topic
                     (or_else (Some key) (randomUUID env (uuidCalls w)))
                     (mkEvent (randomUUID env (uuidCalls w)) ty "1.0" src
                        (if truthy corr then corr else None) pl))
                  (tick_uuid w)))) as Hsent.
  { eapply advance_trans.
    - apply (advance_frame P w (tick_uuid w)); reflexivity.
    - apply advance_publish; [reflexivity | apply Hcall]. }
  destruct (publishFault env (publishCalls w)); intros H; inversion H;
    subst r w'; exact Hsent.
Qed.

(** X14.  Every event that a checkout handler publishes, in the
    transaction or after it, on success or on the way to a failure,
    carries one correlation id: the command's own, or the command's event
    id when it has none.  (The producers of lib/qstash-producer.ts and of
    the Kafka service leave the field out when that id is the empty
    string; the orders service passes it on as it is.) *)
Theorem checkout_propagates_correlation_id env (event : CheckoutCommand) :
  let corr := or_else (correlationId event) (eventId event) in
  emits (carries (if truthy (Some corr) then Some corr else None))
    (CommandsWebhook.handleCheckoutCommand env event) /\
  emits (carries (Some corr))
    (OrdersService.handleCheckoutCommand env event) /\
  emits (carries (if truthy (Some corr) then Some corr else None))
    (KafkaService.handleCheckoutCommand env event).
Proof.
  intros corr. split; [|split].
  - unfold CommandsWebhook.handleCheckoutCommand.
    apply emits_handleCheckoutCommand with (corr := corr);
      try reflexivity; try apply carries_quiet; intros p;
      (apply emits_bind; [|intros _; apply emits_ret]);
      (apply emits_producer; [apply carries_quiet | reflexivity]).
  - unfold OrdersService.handleCheckoutCommand.
    apply emits_handleCheckoutCommand with (corr := corr);
      try reflexivity; try apply carries_quiet; intros p;
      (apply emits_publish_as; [apply carries_quiet | reflexivity]).
  - unfold KafkaService.handleCheckoutCommand.
    apply emits_handleCheckoutCommand with (corr := corr);
      try reflexivity; try apply carries_quiet; intros p;
      (apply emits_publish_keyed; [apply carries_quiet | reflexivity]).
Qed.

(** ** A publish that fails after the commit *)

(** One awaited publish of the Commands webhook: it takes one call to the
    queue and leaves the store alone. *)
Lemma awaited_publish_run env ty (pl : Payload) src corr topic w :
  exists w',
    ((event <- QstashProducer.createBaseEvent env ty pl src corr ;;
      QstashProducer.publishEvent env topic event None ;;;
      ret event) ;;;
     ret tt) w =
      (match publishFault env (publishCalls w) with
       | Some e => Throw e
       | None => Ok tt
       end, w') /\
    db w' = db w /\ publishCalls w' = S (publishCalls w).
Proof.
  unfold QstashProducer.createBaseEvent, QstashProducer.publishEvent,
    QstashProducer.publishJSON, fresh_uuid, bind, try_catch, ret, throw,
    console_error, emit.
  simpl. destruct (publishFault env (publishCalls w)); eexists;
    (split; [reflexivity|]); split; reflexivity.
Qed.

(** X15.  When every statement of the order transaction goes through and
    one of the three publishes awaited after the commit fails, the order
    stays committed: the store holds the new order, its line items and the
    reduced stock, the handler throws the queue's error, and the Commands
    webhook answers it like any other failure (500, or 401 when the
    message contains 'signature'), never 200. *)
Theorem committed_order_survives_failed_publish env rv rj request w event w1
    k e :
  QstashWebhook.verifyQStashSignature env rv rj request w =
      (Ok (JObject event), w1) ->
  eventType event = "command.checkout" ->
  no_fault env (dbCalls w) (transaction_statements (items (payload event))) ->
  (k < 3)%nat ->
  publishFault env (publishCalls w + length (items (payload event)) + k) =
    Some e ->
  (forall j, (j < k)%nat ->
     publishFault env (publishCalls w + length (items (payload event)) + j) =
       None) ->
  exists w' newOrder rows,
    CommandsWebhook.POST env rv rj request w =
      (Ok (if mentions_signature e
           then mkResponse 401
                  (Failure "Invalid signature" (Some (details_of e)))
           else mkResponse 500
                  (Failure "Processing failed" (Some (details_of e)))),
       w') /\
    length rows = length (items (payload event)) /\
    db w' = checked_out (items (payload event)) newOrder rows (db w).
Proof.
  intros Hverify Htype Hstore Hk Hfault Hbefore.
  set (l := items (payload event)) in *.
  destruct (verifier_counters env rv rj request _ _ _ Hverify)
    as (Hcalls & _ & Hdb & Hdbcalls & _).
  injection Hcalls as _ Hpub.
  set (corr := or_else (correlationId event) (eventId event)).
  set (stock := fun p c =>
         QstashProducer.publishStockUpdate env p (Some c) ;;; ret tt).
  destruct (Drizzle.transaction env
              (Checkout.order_callback env stock
                 "[Commands Webhook] Failed to publish stock update:"
                 event corr) w1) as [r w2] eqn:Htx.
  assert (Hemit := Htx).
  apply (emits_transaction env (fun _ => True)) in Hemit;
    [|auto|apply emits_order_callback; auto; intros p; subst stock;
       (apply emits_bind; [|intros _; apply emits_ret]);
       apply emits_producer; auto].
  destruct Hemit as (delta & Htrace & _ & Hcount & _).
  apply (transaction_run env stock
           "[Commands Webhook] Failed to publish stock update:"
           [MPublish (QstashProducer.getWebhookUrl env QstashProducer.INVENTORY)
              "inventory.stock.updated"]) in Htx as Hcases;
    [|intros p c; apply publishes_then_ret; apply producer_publishes].
  cbv zeta in Hcases. fold l in Hcases.
  destruct r as [newOrder|e0].
  2:{ destruct Hcases as (_ & j & _ & (k0 & Hk0 & Hff) & _).
      rewrite Hdbcalls in Hff.
      destruct (no_fault_excludes env _ _ _ _ Hstore Hff Hk0). }
  destruct Hcases as ((_ & _ & _ & _ & delta' & Htrace' & Hmarks) & rows &
                      Hlen & Hdb2).
  assert (delta = delta') as -> by
    (rewrite Htrace' in Htrace; now apply app_inv_head in Htrace).
  rewrite Hmarks in Hcount.
  change (publish_targets (MBegin :: ?x)) with (publish_targets x) in Hcount.
  rewrite publish_targets_times in Hcount. simpl in Hcount.
  rewrite length_app, length_replicate, Hpub in Hcount. simpl in Hcount.
  rewrite Nat.add_0_r in Hcount.
  assert (Hhandler :
    exists w3,
      CommandsWebhook.handleCheckoutCommand env event w1 = (Throw e, w3) /\
      db w3 = db w2).
  { unfold CommandsWebhook.handleCheckoutCommand,
      Checkout.handleCheckoutCommand.
    cbv zeta. fold corr. fold stock. fold l.
    rewrite (bind_ok _ _ _ _ _ Htx).
    destruct (awaited_publish_run env "order.created"
                (POrder (Checkout.order_payload (payload event)
                           (or_id newOrder)))
                "orders-service" (Some corr) QstashProducer.ORDERS w2)
      as (w3 & Hrun3 & Hdb3 & Hpub3).
    rewrite Hcount in Hrun3.
    destruct k as [|k].
    { rewrite Nat.add_0_r in Hfault. rewrite Hfault in Hrun3.
      exists w3. split; [|exact Hdb3].
      exact (bind_throw _ _ _ _ _ Hrun3). }
    rewrite <- (Nat.add_0_r (publishCalls w + length l)) in Hrun3.
    rewrite (Hbefore 0%nat ltac:(lia)) in Hrun3.
    unfold QstashProducer.publishOrderCreated.
    rewrite (bind_ok _ _ _ _ _ Hrun3).
    destruct (awaited_publish_run env "notification.email"
                (PEmail
                   (mkEmail (customerEmail (payload event))
                      ("Order Confirmation - " +:+ or_id newOrder)
                      "order-confirmation"
                      (mkConfirmation (or_id newOrder)
                         (customerName (payload event)) l
                         (totalAmount (payload event)))
                      "high"))
                "orders-service" (Some corr) QstashProducer.NOTIFICATIONS w3)
      as (w4 & Hrun4 & Hdb4 & Hpub4).
    rewrite Hpub3, Hcount in Hrun4.
    replace (S (publishCalls w + length l))
      with (publishCalls w + length l + 1)%nat in Hrun4 by lia.
    destruct k as [|k].
    { rewrite Hfault in Hrun4.
      exists w4. split; [|congruence].
      exact (bind_throw _ _ _ _ _ Hrun4). }
    rewrite (Hbefore 1%nat ltac:(lia)) in Hrun4.
    unfold QstashProducer.publishEmailNotification.
    rewrite (bind_ok _ _ _ _ _ Hrun4).
    destruct (awaited_publish_run env "analytics.audit"
                (PAudit
                   (mkAudit "order.created" "order" (or_id newOrder)
                      (Some (userId (payload event)))
                      (Some (Checkout.order_payload (payload event)
                               (or_id newOrder)))
                      [("paymentId", JStr (paymentId (payload event)));
                       ("correlationId", JStr corr)]))
                "api" (Some corr) QstashProducer.ANALYTICS w4)
      as (w5 & Hrun5 & Hdb5 & Hpub5).
    rewrite Hpub4, Hpub3, Hcount in Hrun5.
    replace (S (S (publishCalls w + length l)))
      with (publishCalls w + length l + 2)%nat in Hrun5 by lia.
    destruct k as [|k]; [|lia].
    rewrite Hfault in Hrun5.
    exists w5. split; [|congruence].
    exact Hrun5. }
  destruct Hhandler as (w3 & Hrun & Hdb3).
  exists (add_effect (Logged Error "[Commands Webhook] Error processing event:")
            w3), newOrder, rows.
  split; [|split; [exact Hlen|simpl; congruence]].
  unfold CommandsWebhook.POST, CommandsWebhook.attempt.
  erewrite try_catch_throw.
  2:{ rewrite (bind_ok _ _ _ _ _ Hverify). rewrite Htype. simpl.
      now rewrite (bind_throw _ _ _ _ _ Hrun). }
  apply webhook_catch_run.
Qed.

Lemma committed_order_survives_failed_publish_witness :
  exists w' newOrder,
    CommandsWebhook.POST
      (Scenario.dev_queue_failing 2 (JsError "QStash quota exceeded"))
      Scenario.accepts_bool (Scenario.reads Scenario.checkout)
      (Scenario.unsigned "checkout") Scenario.start =
      (Ok (mkResponse 500
             (Failure "Processing failed" (Some "QStash quota exceeded"))),
       w') /\
    orders (db w') = [newOrder].
Proof.
  destruct (committed_order_survives_failed_publish
              (Scenario.dev_queue_failing 2 (JsError "QStash quota exceeded"))
              Scenario.accepts_bool
              (Scenario.reads Scenario.checkout)
              (Scenario.unsigned "checkout") Scenario.start Scenario.checkout
              (Scenario.warned Scenario.start)
              0%nat (JsError "QStash quota exceeded")
              eq_refl eq_refl (fun j _ => eq_refl) ltac:(lia) eq_refl
              ltac:(intros j Hj; lia))
    as (w' & newOrder & rows & Hpost & _ & Hdb).
  exists w', newOrder. split; [exact Hpost|].
  rewrite Hdb. unfold checked_out.
  rewrite (proj1 (sold_all_orders _ _)). reflexivity.
Defined.

(** ** The orders service without a queue token *)

Lemma emits_check_signature (P : Effect -> Prop) rv request :
  (forall effect, quiet effect = true -> P effect) ->
  emits P (OrdersService.check_signature rv request).
Proof.
  intros Hquiet. unfold OrdersService.check_signature.
  destruct (headers request !! "upstash-signature") as [sig|].
  - destruct (negb (truthy (Some sig))).
    + apply emits_bind; [now apply emits_console_error|].
      intros _. apply emits_ret.
    + apply emits_try_catch.
      * apply emits_bind; [now apply emits_emit|]. intros _.
        apply emits_bind; [apply emits_settle|]. intros isValid.
        destruct (negb isValid); [|apply emits_ret].
        apply emits_bind; [now apply emits_console_error|].
        intros _. apply emits_ret.
      * intros e. apply emits_bind; [now apply emits_console_error|].
        intros _. apply emits_ret.
  - apply emits_bind; [now apply emits_console_error|].
    intros _. apply emits_ret.
Qed.

Lemma emits_service_post (P : Effect -> Prop) env rv jp request :
  (forall effect, quiet effect = true -> P effect) ->
  (forall event, emits P (OrdersService.handleCheckoutCommand env event)) ->
  emits P (OrdersService.POST env rv jp request).
Proof.
  intros Hquiet Hhandler. unfold OrdersService.POST.
  apply emits_try_catch.
  - unfold OrdersService.attempt.
    apply emits_bind; [now apply emits_check_signature|].
    intros [response|]; [apply emits_ret|].
    apply emits_bind; [apply emits_settle|]. intros event.
    destruct (String.eqb (eventType event) "command.checkout").
    + apply emits_bind; [apply Hhandler|]. intros _. apply emits_ret.
    + destruct (String.prefix "order." (eventType event)); apply emits_ret.
  - intros e. apply emits_bind; [now apply emits_console_error|].
    intros _. apply emits_ret.
Qed.

Lemma service_post_answers env rv jp request w :
  exists response w',
    OrdersService.POST env rv jp request w = (Ok response, w').
Proof.
  unfold OrdersService.POST, try_catch.
  destruct (OrdersService.attempt env rv jp request w) as [[response|e] w1];
    [eauto|].
  unfold bind, console_error, emit, ret. simpl. eauto.
Qed.

(** X16.  Without QSTASH_TOKEN the orders service makes no call to the
    queue at all: whatever the request, its webhook answers, and what it
    adds to the trace contains no publish call.  (A checkout is still
    carried out, as the example after the theorem shows; its events are
    dropped.) *)
Theorem service_without_token_publishes_nothing env rv jp request w :
  truthy (process_env env !! "QSTASH_TOKEN") = false ->
  exists response w' delta,
    OrdersService.POST env rv jp request w = (Ok response, w') /\
    trace w' = trace w ++ delta /\
    Forall (fun effect => quiet effect = true) delta /\
    publishCalls w' = publishCalls w.
Proof.
  intros Htoken.
  destruct (service_post_answers env rv jp request w)
    as (response & w' & Hpost).
  assert (Hemit := Hpost).
  apply (emits_service_post (fun effect => quiet effect = true)) in Hemit;
    [|auto|].
  2:{ intros event. unfold OrdersService.handleCheckoutCommand.
      apply emits_handleCheckoutCommand
        with (corr := or_else (correlationId event) (eventId event));
        auto; intros p; (apply emits_publish_as; [auto|]);
        rewrite Htoken; discriminate. }
  destruct Hemit as (delta & Htrace & Hquiet & Hcount & _).
  exists response, w', delta. split; [exact Hpost|].
  split; [exact Htrace|]. split; [exact Hquiet|].
  rewrite Hcount, (quiet_publishes_nothing _ Hquiet). simpl. lia.
Qed.

Lemma service_without_token_publishes_nothing_witness :
  let run :=
    OrdersService.POST Cases.tokenless Scenario.accepts_bool
      (Scenario.parses Scenario.checkout) (Scenario.signed "checkout")
      Scenario.start in
  fst run = Ok (mkResponse 200 (Message "Checkout processed")) /\
  length (orders (db (snd run))) = 1%nat /\
  publishCalls (snd run) = 0%nat.
Proof.
  cbv zeta. split; [vm_compute; reflexivity|].
  split; [vm_compute; reflexivity|].
  destruct (service_without_token_publishes_nothing Cases.tokenless
              Scenario.accepts_bool (Scenario.parses Scenario.checkout)
              (Scenario.signed "checkout") Scenario.start eq_refl)
    as (response & w' & delta & Hpost & _ & _ & Hcount).
  rewrite Hpost. exact Hcount.
Defined.

(** ** Requests that are not authenticated *)

(** X17.  With both signing keys configured, the Commands webhook acts
    only on a request whose signature the receiver has accepted: any other
    request (no signature header, an empty one, or one the receiver
    rejects or fails on) is answered 401 and touches neither store, the
    queue nor the mailer.  Nor does it act on an accepted request: what it
    takes for the event is the boolean the receiver resolved to, which has
    no event type, so that the answer is 400 and nothing is touched
    either. *)
Theorem commands_requires_accepted_signature env rv rj request w response w' :
  truthy (QstashWebhook.currentSigningKey env) = true ->
  truthy (QstashWebhook.nextSigningKey env) = true ->
  CommandsWebhook.POST env rv rj request w = (Ok response, w') ->
  ((exists signature verified,
       headers request !! "upstash-signature" = Some signature /\
       signature <> "" /\
       rv signature (body request) = Ok verified /\
       response = mkResponse 400 (Failure "Unknown event type" None)) \/
   status response = 401%Z) /\
  db w' = db w /\ dbCalls w' = dbCalls w /\
  redis w' = redis w /\ redisCalls w' = redisCalls w /\
  deliveries w' = deliveries w.
Proof.
  intros Hcurrent Hnext Hpost.
  destruct (headers request !! "upstash-signature") as [sig|] eqn:Hsig.
  - destruct (truthy (Some sig)) eqn:Htruthy.
    + destruct (rv sig (body request)) as [verified|e] eqn:Hrv.
      * revert Hpost.
        unfold CommandsWebhook.POST, CommandsWebhook.attempt,
          QstashWebhook.verifyQStashSignature.
        rewrite Hcurrent, Hnext, Hsig, Htruthy. simpl.
        unfold try_catch, bind, emit, settle, console_error, console_warn,
          throw, ret.
        rewrite Hrv. simpl.
        intros H. injection H as <- <-. split; [|repeat split].
        left. exists sig, verified. split; [reflexivity|].
        split; [intros ->; discriminate|]. split; [exact Hrv | reflexivity].
      * revert Hpost.
        unfold CommandsWebhook.POST, CommandsWebhook.attempt,
          QstashWebhook.verifyQStashSignature.
        rewrite Hcurrent, Hnext, Hsig, Htruthy. simpl.
        unfold try_catch, bind, emit, settle, console_error, throw.
        rewrite Hrv. simpl. rewrite webhook_catch_run. simpl.
        intros H. injection H as <- <-. split; [right|]; repeat split.
    + revert Hpost.
      unfold CommandsWebhook.POST, CommandsWebhook.attempt,
        QstashWebhook.verifyQStashSignature.
      rewrite Hcurrent, Hnext, Hsig, Htruthy. simpl.
      unfold try_catch, bind, throw. rewrite webhook_catch_run. simpl.
      intros H. injection H as <- <-. split; [right|]; repeat split.
  - revert Hpost.
    unfold CommandsWebhook.POST, CommandsWebhook.attempt,
      QstashWebhook.verifyQStashSignature.
    rewrite Hcurrent, Hnext, Hsig. simpl.
    unfold try_catch, bind, throw. rewrite webhook_catch_run. simpl.
    intros H. injection H as <- <-. split; [right|]; repeat split.
Qed.

Lemma commands_requires_accepted_signature_witness :
  let run :=
    CommandsWebhook.POST Scenario.healthy Scenario.accepts_bool
      (Scenario.reads Scenario.checkout)
      (Cases.forged "checkout") Scenario.start in
  let signed :=
    CommandsWebhook.POST Scenario.healthy Scenario.accepts_bool
      (Scenario.reads Scenario.checkout)
      (Scenario.signed "checkout") Scenario.start in
  (exists response,
      fst run = Ok response /\ status response = 401%Z /\
      db (snd run) = db Scenario.start) /\
  fst signed = Ok (mkResponse 400 (Failure "Unknown event type" None)) /\
  db (snd signed) = db Scenario.start.
Proof.
  cbv zeta. split.
  - destruct (commands_requires_accepted_signature Scenario.healthy
                Scenario.accepts_bool
                (Scenario.reads Scenario.checkout)
                (Cases.forged "checkout") Scenario.start
                (mkResponse 401
                   (Failure "Invalid signature"
                      (Some "Invalid webhook signature")))
                (snd (CommandsWebhook.POST Scenario.healthy
                        Scenario.accepts_bool
                        (Scenario.reads Scenario.checkout)
                        (Cases.forged "checkout") Scenario.start))
                eq_refl eq_refl ltac:(vm_compute; reflexivity))
      as (_ & Hdb & _).
    eexists. split; [vm_compute; reflexivity|]. split; [reflexivity|].
    exact Hdb.
  - destruct (commands_requires_accepted_signature Scenario.healthy
                Scenario.accepts_bool
                (Scenario.reads Scenario.checkout)
                (Scenario.signed "checkout") Scenario.start
                (mkResponse 400 (Failure "Unknown event type" None))
                (snd (CommandsWebhook.POST Scenario.healthy
                        Scenario.accepts_bool
                        (Scenario.reads Scenario.checkout)
                        (Scenario.signed "checkout") Scenario.start))
                eq_refl eq_refl ltac:(vm_compute; reflexivity))
      as (_ & Hdb & _).
    split; [vm_compute; reflexivity | exact Hdb].
Defined.

(** X18.  The orders service acts only on a request whose signature the
    receiver has found valid: a request with no signature header, an
    empty one, one the receiver reports as invalid or fails on, is
    answered 401 before its body is parsed, and touches neither the store
    nor the queue.  There is no development bypass in this service. *)
Theorem service_requires_valid_signature env rv jp request w response w' :
  OrdersService.POST env rv jp request w = (Ok response, w') ->
  (exists signature,
      headers request !! "upstash-signature" = Some signature /\
      signature <> "" /\
      rv signature (body request) = Ok true) \/
  (status response = 401%Z /\
   db w' = db w /\ dbCalls w' = dbCalls w /\
   deliveries w' = deliveries w).
Proof.
  intros Hpost.
  destruct (headers request !! "upstash-signature") as [sig|] eqn:Hsig.
  - destruct (truthy (Some sig)) eqn:Htruthy.
    + destruct (rv sig (body request)) as [[|]|e] eqn:Hrv.
      * left. exists sig. split; [reflexivity|].
        split; [intros ->; discriminate | exact Hrv].
      * right. revert Hpost.
        unfold OrdersService.POST, OrdersService.attempt,
          OrdersService.check_signature, try_catch, bind, emit, settle,
          console_error, ret.
        rewrite Hsig, Htruthy. simpl. rewrite Hrv. simpl.
        intros H. injection H as <- <-. repeat split.
      * right. revert Hpost.
        unfold OrdersService.POST, OrdersService.attempt,
          OrdersService.check_signature, try_catch, bind, emit, settle,
          console_error, ret.
        rewrite Hsig, Htruthy. simpl. rewrite Hrv. simpl.
        intros H. injection H as <- <-. repeat split.
    + right. revert Hpost.
      unfold OrdersService.POST, OrdersService.attempt,
        OrdersService.check_signature, try_catch, bind, emit, settle,
        console_error, ret.
      rewrite Hsig, Htruthy. simpl.
      intros H. injection H as <- <-. repeat split.
  - right. revert Hpost.
    unfold OrdersService.POST, OrdersService.attempt,
      OrdersService.check_signature, try_catch, bind, emit, settle,
      console_error, ret.
    rewrite Hsig. simpl.
    intros H. injection H as <- <-. repeat split.
Qed.

Lemma service_requires_valid_signature_witness :
  let run :=
    OrdersService.POST Scenario.healthy (fun _ _ => Ok false)
      (Scenario.parses Scenario.checkout) (Scenario.signed "checkout")
      Scenario.start in
  exists response,
    fst run = Ok response /\ status response = 401%Z /\
    db (snd run) = db Scenario.start.
Proof.
  cbv zeta.
  destruct (service_requires_valid_signature Scenario.healthy
              (fun _ _ => Ok false) (Scenario.parses Scenario.checkout)
              (Scenario.signed "checkout") Scenario.start
              (mkResponse 401 (Failure "Invalid signature" None))
              (snd (OrdersService.POST Scenario.healthy (fun _ _ => Ok false)
                      (Scenario.parses Scenario.checkout)
                      (Scenario.signed "checkout") Scenario.start))
              ltac:(vm_compute; reflexivity))
    as [(signature & _ & _ & Hrv) | (Hstatus & Hdb & _)].
  - discriminate Hrv.
  - eexists. split; [vm_compute; reflexivity|]. split; [reflexivity|].
    exact Hdb.
Defined.

(** ** The typed Kafka consumer *)

Lemma kafka_failed_checkout_is_dead_lettered_witness :
  exists w' before id key,
    KafkaService.orders_consumer
      (Scenario.db_failing 3 (JsError "deadlock detected"))
      (Scenario.parses Scenario.checkout3) KafkaService.COMMANDS
      Cases.kafka_checkout Scenario.start = (Ok tt, w') /\
    db w' = db Scenario.start /\
    trace w' =
      before ++
      [KafkaSend KafkaService.ANALYTICS key
         (mkEvent id "analytics.dlq" "1.0" "consumer-dlq" None
            (PDeadLetter
               (mkDeadLetter KafkaService.COMMANDS "command.checkout"
                  (Some Scenario.checkout3) "deadlock detected" 0)))].
Proof.
  destruct (kafka_failed_checkout_is_dead_lettered
              (Scenario.db_failing 3 (JsError "deadlock detected"))
              (Scenario.parses Scenario.checkout3) KafkaService.COMMANDS
              Cases.kafka_checkout "checkout" Scenario.checkout3
              Scenario.start 3%nat (JsError "deadlock detected")
              eq_refl eq_refl eq_refl ltac:(vm_compute; lia)
              ltac:(split;
                    [reflexivity
                    |intros j Hj; do 3 (destruct j as [|j]; [reflexivity|]);
                     lia])
              (fun _ => eq_refl))
    as (w' & j & before & id & key & Hrun & Hdb & Htrace & _).
  exists w', before, id, key. split; [exact Hrun|]. split; [exact Hdb|].
  exact Htrace.
Defined.

(** X20.  The typed consumer hands a message to its handler only when the
    message's eventType header is one of the configured types and its
    value parses.  Any other message is skipped: the consumer returns
    normally, and nothing has happened except the log line for a value
    that does not parse. *)
Theorem typed_consumer_skips_other_messages env jp eventTypes enableDLQ
    handler topic message w :
  ~ (exists eventType value event,
        KafkaService.km_headers message !! "eventType" = Some eventType /\
        eventType <> "" /\ eventType ∈ eventTypes /\
        KafkaService.km_value message = Some value /\
        jp value = Ok event) ->
  exists w',
    KafkaService.eachMessage env jp eventTypes enableDLQ handler topic
      message w = (Ok tt, w') /\
    (w' = w \/
     w' =
       add_effect
         (Logged Error "[Kafka Consumer] Failed to parse message as JSON") w).
Proof.
  intros Hskip. unfold KafkaService.eachMessage.
  destruct (KafkaService.km_headers message !! "eventType") as [ty|] eqn:Hty;
    [|eauto].
  destruct (truthy (Some ty)) eqn:Htruthy; [|simpl; eauto].
  destruct (bool_decide (ty ∈ eventTypes)) eqn:Hin; [|simpl; eauto].
  apply bool_decide_eq_true_1 in Hin. simpl.
  unfold KafkaService.parseEvent.
  destruct (KafkaService.km_value message) as [value|] eqn:Hvalue;
    [|exists w; split; [reflexivity | now left]].
  destruct (jp value) as [event|e] eqn:Hparse.
  - exfalso. apply Hskip. exists ty, value, event.
    split; [reflexivity|]. split; [intros ->; discriminate|]. auto.
  - eexists. split; [reflexivity|]. now right.
Qed.

Lemma typed_consumer_skips_other_messages_witness :
  KafkaService.orders_consumer Scenario.healthy
    (Scenario.parses Scenario.checkout) KafkaService.COMMANDS
    Cases.kafka_other Scenario.start = (Ok tt, Scenario.start).
Proof.
  destruct (typed_consumer_skips_other_messages Scenario.healthy
              (Scenario.parses Scenario.checkout) ["command.checkout"] true
              (KafkaService.handleCheckoutCommand Scenario.healthy)
              KafkaService.COMMANDS Cases.kafka_other Scenario.start)
    as (w' & Hrun & _).
  - intros (ty & value & event & Hty & _ & Hin & _).
    vm_compute in Hty. injection Hty as <-.
    apply list_elem_of_singleton in Hin. discriminate.
  - unfold KafkaService.orders_consumer. rewrite Hrun.
    f_equal. apply (f_equal snd) in Hrun. symmetry. exact Hrun.
Defined.

(** X21.  The typed consumer never lets a handler's error escape: it logs
    it and, when the dead letter queue is enabled, sends the dead letter.
    The only error the consumer itself can end with is the producer's,
    from a dead letter that could not be sent. *)
Theorem typed_consumer_contains_handler_errors env jp eventTypes enableDLQ
    handler topic message w e w' :
  KafkaService.eachMessage env jp eventTypes enableDLQ handler topic
    message w = (Throw e, w') ->
  enableDLQ = true /\ exists n, publishFault env n = Some e.
Proof.
  unfold KafkaService.eachMessage.
  destruct (KafkaService.km_headers message !! "eventType") as [ty|];
    [|discriminate].
  destruct (negb (truthy (Some ty)) || negb (bool_decide (ty ∈ eventTypes)));
    [discriminate|].
  unfold KafkaService.parseEvent.
  destruct (KafkaService.km_value message) as [value|]; [|discriminate].
  destruct (jp value) as [event|e0]; [|discriminate].
  unfold bind at 1. unfold ret at 1. unfold try_catch.
  destruct (handler event w) as [[[]|e1] w1]; [discriminate|].
  unfold bind at 1. unfold console_error, emit.
  destruct enableDLQ; [|discriminate].
  unfold KafkaService.sendToDLQ, KafkaService.publishEvent,
    KafkaService.send, fresh_uuid, bind. simpl.
  destruct (publishFault env (publishCalls w1)) as [e2|] eqn:Hfault;
    [|discriminate].
  intros H. injection H as <- _. split; [reflexivity|]. eauto.
Qed.

Lemma typed_consumer_contains_handler_errors_witness :
  fst (KafkaService.eachMessage
         (Scenario.dev_queue_failing 0 (JsError "broker unavailable"))
         (Scenario.parses Scenario.checkout) ["command.checkout"] true
         (fun _ => throw (JsError "handler failed")) KafkaService.COMMANDS
         Cases.kafka_checkout Scenario.start) =
    Throw (JsError "broker unavailable") /\
  publishFault (Scenario.dev_queue_failing 0 (JsError "broker unavailable")) 0 =
    Some (JsError "broker unavailable").
Proof.
  split; [vm_compute; reflexivity|].
  destruct (typed_consumer_contains_handler_errors
              (Scenario.dev_queue_failing 0 (JsError "broker unavailable"))
              (Scenario.parses Scenario.checkout) ["command.checkout"] true
              (fun _ => throw (JsError "handler failed")) KafkaService.COMMANDS
              Cases.kafka_checkout Scenario.start
              (JsError "broker unavailable")
              (snd (KafkaService.eachMessage
                      (Scenario.dev_queue_failing 0 (JsError "broker unavailable"))
                      (Scenario.parses Scenario.checkout)
                      ["command.checkout"] true
                      (fun _ => throw (JsError "handler failed"))
                      KafkaService.COMMANDS Cases.kafka_checkout
                      Scenario.start))
              ltac:(vm_compute; reflexivity))
    as (_ & n & Hn).
  reflexivity.
Defined.

(** ** The Access-Control-Allow-Origin header *)

Lemma split_comma_nonempty s : Cors.split_comma s <> [].
Proof.
  destruct s as [|c rest]; simpl; [discriminate|].
  destruct (Ascii.eqb c ","); [discriminate|].
  destruct (Cors.split_comma rest); discriminate.
Qed.

Lemma allowedOrigins_nonempty env trim :
  exists first rest, Cors.allowedOrigins env trim = first :: rest.
Proof.
  unfold Cors.allowedOrigins.
  destruct (process_env env !! "CORS_ALLOWED_ORIGINS") as [value|]; [|eauto].
  destruct (truthy (Some value)); [|eauto].
  pose proof (split_comma_nonempty value) as Hne.
  destruct (Cors.split_comma value) as [|piece pieces]; [contradiction|].
  simpl. eauto.
Qed.

(** X22.  The Access-Control-Allow-Origin value that [applyCorsHeaders]
    sets is always one of the configured origins, never undefined and
    never an origin outside the list: '*' when the list contains it (as it
    does when CORS_ALLOWED_ORIGINS is unset or empty), the request's
    origin when the list contains that, and the first configured origin
    for every other request, with or without an Origin header. *)
Theorem allowedOrigin_is_configured env trim origin :
  let configured := Cors.allowedOrigins env trim in
  (exists o, Cors.allowedOrigin env trim origin = Some o /\ o ∈ configured) /\
  ("*" ∈ configured -> Cors.allowedOrigin env trim origin = Some "*") /\
  (truthy (process_env env !! "CORS_ALLOWED_ORIGINS") = false ->
   Cors.allowedOrigin env trim origin = Some "*") /\
  ("*" ∉ configured ->
   forall r, origin = Some r -> r ∈ configured -> r <> "" ->
   Cors.allowedOrigin env trim origin = Some r) /\
  ("*" ∉ configured ->
   (forall r, origin = Some r -> r ∉ configured) ->
   Cors.allowedOrigin env trim origin = head configured).
Proof.
  intros configured.
  destruct (allowedOrigins_nonempty env trim) as (first & rest & Hlist).
  assert (Hfind : forall found,
             List.find (fun o => bool_decide (Some o = origin)) configured =
               Some found ->
             found ∈ configured /\ origin = Some found).
  { intros found Hfound. apply List.find_some in Hfound as [Hin Heq].
    apply bool_decide_eq_true_1 in Heq.
    split; [now apply list_elem_of_In | congruence]. }
  split; [|split; [|split; [|split]]].
  - unfold Cors.allowedOrigin. fold configured.
    destruct (bool_decide ("*" ∈ configured)) eqn:Hstar.
    + apply bool_decide_eq_true_1 in Hstar. eauto.
    + destruct (List.find _ configured) as [found|] eqn:Hfound.
      * destruct (truthy (Some found)).
        -- exists found. split; [reflexivity|]. now apply Hfind.
        -- subst configured. rewrite Hlist. exists first.
           split; [reflexivity | apply list_elem_of_here].
      * subst configured. rewrite Hlist. exists first.
        split; [reflexivity | apply list_elem_of_here].
  - intros Hstar. unfold Cors.allowedOrigin. fold configured.
    now rewrite bool_decide_eq_true_2.
  - intros Hunset. unfold Cors.allowedOrigin, Cors.allowedOrigins.
    destruct (process_env env !! "CORS_ALLOWED_ORIGINS") as [value|];
      [rewrite Hunset|]; reflexivity.
  - intros Hstar r -> Hin Hr. unfold Cors.allowedOrigin. fold configured.
    rewrite bool_decide_eq_false_2 by exact Hstar.
    destruct (List.find _ configured) as [found|] eqn:Hfound.
    + destruct (Hfind found eq_refl) as [_ Heq]. injection Heq as <-.
      destruct r; [contradiction | reflexivity].
    + exfalso. apply list_elem_of_In in Hin.
      pose proof (List.find_none _ _ Hfound r Hin) as Hno.
      simpl in Hno. now rewrite bool_decide_eq_true_2 in Hno.
  - intros Hstar Hout. unfold Cors.allowedOrigin. fold configured.
    rewrite bool_decide_eq_false_2 by exact Hstar.
    destruct (List.find _ configured) as [found|] eqn:Hfound; [|reflexivity].
    destruct (Hfind found eq_refl) as [Hin Heq].
    destruct (Hout found Heq Hin).
Qed.

Lemma allowedOrigin_is_configured_witness :
  Cors.allowedOrigin Cases.cors_listed id (Some "https://evil.example") =
    Some "https://shop.example.com" /\
  Cors.allowedOrigin Cases.cors_listed id (Some "https://admin.example.com") =
    Some "https://admin.example.com" /\
  Cors.allowedOrigin Scenario.healthy id (Some "https://evil.example") =
    Some "*".
Proof.
  destruct (allowedOrigin_is_configured Cases.cors_listed id
              (Some "https://evil.example"))
    as (_ & _ & _ & _ & Hother).
  destruct (allowedOrigin_is_configured Cases.cors_listed id
              (Some "https://admin.example.com"))
    as (_ & _ & _ & Hlisted & _).
  destruct (allowedOrigin_is_configured Scenario.healthy id
              (Some "https://evil.example"))
    as (_ & _ & Hunset & _).
  assert (Hlist : Cors.allowedOrigins Cases.cors_listed id =
                  ["https://shop.example.com"; "https://admin.example.com"])
    by reflexivity.
  cbv zeta in Hother, Hlisted. rewrite Hlist in Hother, Hlisted.
  assert (Hstar : "*" ∉ ["https://shop.example.com";
                         "https://admin.example.com"]).
  { intros Hin. apply elem_of_cons in Hin as [Heq|Hin];
      [discriminate|].
    apply list_elem_of_singleton in Hin. discriminate. }
  split; [|split].
  - rewrite Hother; [reflexivity | exact Hstar |].
    intros r Hr Hin. injection Hr as <-.
    apply elem_of_cons in Hin as [Heq|Hin]; [discriminate|].
    apply list_elem_of_singleton in Hin. discriminate.
  - apply Hlisted; [exact Hstar | reflexivity | | discriminate].
    apply list_elem_of_further, list_elem_of_here.
  - apply Hunset. reflexivity.
Defined.

(** ** The webhooks that only acknowledge *)

(** X23.  The Orders, Inventory and Analytics webhooks of the application
    only acknowledge: none of them touches the relational store, the
    idempotency store, the queue or the mailer, whatever the request.
    Each answers what the verifier threw with 401 or 500.  The Inventory
    webhook answers whatever the verifier resolved to with 200 and that
    value's id and type; so does the Analytics webhook, except for an
    analytics.audit event without a payload, and the Orders webhook, except
    for any value without a payload: reading the payload for the log line
    throws, and the answer is 500.  With both signing keys configured the
    verifier resolves to the receiver's boolean, so that an accepted
    delivery is answered 500 by the Orders webhook and 200, with neither id
    nor type, by the other two. *)
Theorem lib_webhooks_only_acknowledge {P} env rv
    (rj : string -> Result (Js (BaseEvent (option P)))) request w :
  let verified :=
    fst (QstashWebhook.verifyQStashSignature env rv rj request w) in
  acknowledges
    (match verified with
     | Ok event =>
         match prop payload event with
         | Some (Some _) => acknowledged event
         | _ => answer_to (no_payload "orderId")
         end
     | Throw e => answer_to e
     end)
    w (OrdersWebhook.POST env rv rj request w) /\
  acknowledges
    (match verified with
     | Ok event => acknowledged event
     | Throw e => answer_to e
     end)
    w (InventoryWebhook.POST env rv rj request w) /\
  acknowledges
    (match verified with
     | Ok event =>
         if bool_decide (prop eventType event = Some "analytics.audit") then
           match prop payload event with
           | Some (Some _) => acknowledged event
           | _ => answer_to (no_payload "action")
           end
         else acknowledged event
     | Throw e => answer_to e
     end)
    w (AnalyticsWebhook.POST env rv rj request w) /\
  (truthy (QstashWebhook.currentSigningKey env) = true ->
   truthy (QstashWebhook.nextSigningKey env) = true ->
   forall signature accepted,
     headers request !! "upstash-signature" = Some signature ->
     truthy (Some signature) = true ->
     rv signature (body request) = Ok accepted ->
     fst (OrdersWebhook.POST env rv rj request w) =
       Ok (mkResponse 500
             (Failure "Processing failed"
                (Some "Cannot read properties of undefined (reading 'orderId')"))) /\
     fst (InventoryWebhook.POST env rv rj request w) =
       Ok (mkResponse 200 (Success None None None)) /\
     fst (AnalyticsWebhook.POST env rv rj request w) =
       Ok (mkResponse 200 (Success None None None))).
Proof.
  cbv zeta.
  assert (forall r w1,
             QstashWebhook.verifyQStashSignature env rv rj request w = (r, w1) ->
             db w1 = db w /\ dbCalls w1 = dbCalls w /\
             redis w1 = redis w /\ redisCalls w1 = redisCalls w /\
             deliveries w1 = deliveries w) as Hframe.
  { intros r w1 Hverify.
    destruct (verifier_counters env rv rj request _ _ _ Hverify)
      as (Hcalls & _ & Hdb & Hdbcalls & Hredis & Hrediscalls).
    auto. }
  split; [|split; [|split]].
  - unfold OrdersWebhook.POST, OrdersWebhook.attempt.
    destruct (QstashWebhook.verifyQStashSignature env rv rj request w)
      as [[[event|flag]|e] w1] eqn:Hverify;
      destruct (Hframe _ _ eq_refl) as (Hdb & Hdbcalls & Hredis & Hrcalls & Hcalls);
      [destruct (payload event) as [pl|] eqn:Hpayload| |];
      unfold acknowledges, try_catch, bind, ret, throw; rewrite Hverify;
      simpl; try rewrite Hpayload; try rewrite webhook_catch_run; simpl;
      repeat split; assumption.
  - unfold InventoryWebhook.POST, InventoryWebhook.attempt.
    destruct (QstashWebhook.verifyQStashSignature env rv rj request w)
      as [[event|e] w1] eqn:Hverify;
      destruct (Hframe _ _ eq_refl) as (Hdb & Hdbcalls & Hredis & Hrcalls & Hcalls);
      unfold acknowledges, try_catch, bind, ret, throw; rewrite Hverify;
      simpl; try rewrite webhook_catch_run; simpl;
      repeat split; assumption.
  - unfold AnalyticsWebhook.POST, AnalyticsWebhook.attempt.
    destruct (QstashWebhook.verifyQStashSignature env rv rj request w)
      as [[[event|flag]|e] w1] eqn:Hverify;
      destruct (Hframe _ _ eq_refl) as (Hdb & Hdbcalls & Hredis & Hrcalls & Hcalls);
      [destruct (payload event) as [pl|] eqn:Hpayload;
       destruct (bool_decide (prop eventType (JObject event) =
                              Some "analytics.audit")) eqn:Haudit;
       destruct (bool_decide (prop eventType (JObject event) =
                              Some "analytics.dlq")) eqn:Hdlq
      | | ];
      unfold acknowledges, try_catch, bind, ret, throw, console_error, emit;
      rewrite Hverify; simpl; try (simpl in Haudit); try (simpl in Hdlq);
      try rewrite Hpayload; try rewrite Haudit; try rewrite Hdlq;
      try rewrite webhook_catch_run; simpl;
      repeat split; assumption.
  - intros Hcurrent Hnext signature accepted Hsig Htruthy Hrv.
    assert (QstashWebhook.verifyQStashSignature env rv rj request w =
            (Ok (JBoolean accepted),
             add_effect (VerifyCall signature (body request)) w)) as Hverify.
    { unfold QstashWebhook.verifyQStashSignature.
      rewrite Hcurrent, Hnext, Hsig, Htruthy. simpl.
      unfold try_catch, bind, emit, settle, ret. now rewrite Hrv. }
    unfold OrdersWebhook.POST, OrdersWebhook.attempt, InventoryWebhook.POST,
      InventoryWebhook.attempt, AnalyticsWebhook.POST, AnalyticsWebhook.attempt,
      try_catch, bind, ret, throw.
    rewrite Hverify. simpl. try rewrite webhook_catch_run. repeat split.
Qed.

(** An accepted delivery with the signing keys configured, and the body
    of an order event read in a development deployment. *)
Lemma lib_webhooks_only_acknowledge_witness :
  let shipped : BaseEvent (option OrderPayload) :=
    mkEvent "evt-13" "order.shipped" "1.0" "orders-service" None None in
  fst (OrdersWebhook.POST Scenario.healthy Scenario.accepts_bool
         (Scenario.reads shipped) (Scenario.signed "order") Scenario.start) =
    Ok (mkResponse 500
          (Failure "Processing failed"
             (Some "Cannot read properties of undefined (reading 'orderId')"))) /\
  fst (InventoryWebhook.POST Scenario.healthy Scenario.accepts_bool
         (Scenario.reads shipped) (Scenario.signed "order") Scenario.start) =
    Ok (mkResponse 200 (Success None None None)) /\
  fst (InventoryWebhook.POST Scenario.dev Scenario.accepts_bool
         (Scenario.reads shipped) (Scenario.unsigned "order") Scenario.start) =
    Ok (mkResponse 200 (Success (Some "evt-13") (Some "order.shipped") None)).
Proof.
  cbv zeta.
  set (shipped :=
         mkEvent "evt-13" "order.shipped" "1.0" "orders-service" None None
         : BaseEvent (option OrderPayload)).
  destruct (lib_webhooks_only_acknowledge Scenario.healthy
              Scenario.accepts_bool (Scenario.reads shipped)
              (Scenario.signed "order") Scenario.start) as (_ & _ & _ & Hsigned).
  destruct (Hsigned eq_refl eq_refl "good" true eq_refl eq_refl eq_refl)
    as (Horders & Hinventory & _).
  split; [exact Horders|]. split; [exact Hinventory|].
  vm_compute. reflexivity.
Defined.

(** ** The rows a checkout writes *)

Section CheckoutRows.
Variable env : Env.
Variable publishStockUpdate : StockUpdatePayload -> string -> M unit.
Variable publishOrderCreated : OrderPayload -> string -> M unit.
Variable publishEmailNotification : EmailNotificationPayload -> string -> M unit.
Variable publishAuditLog : AuditLogPayload -> string -> M unit.
Variable stockLog : string.
Variables stockMarks orderMarks emailMarks auditMarks : list Mark.

Hypothesis stock_publishes :
  forall p c, publishes stockMarks (publishStockUpdate p c).
Hypothesis order_publishes :
  forall p c, publishes orderMarks (publishOrderCreated p c).
Hypothesis email_publishes :
  forall p c, publishes emailMarks (publishEmailNotification p c).
Hypothesis audit_publishes :
  forall p c, publishes auditMarks (publishAuditLog p c).

Lemma order_item_rows_detail orderId l : forall w,
  exists rows w',
    map_m (Checkout.order_item_row env orderId) l w = (Ok rows, w') /\
    db w' = db w /\ Forall2 (row_of orderId) rows l.
Proof.
  induction l as [|item rest IH]; intros w.
  - exists [], w. split; [reflexivity|]. split; [reflexivity|constructor].
  - destruct (IH (tick_uuid w)) as (rows & w2 & Hrows & Hdb & Hall).
    eexists (_ :: rows), w2. split.
    + simpl. unfold Checkout.order_item_row at 1.
      unfold bind at 1. unfold bind at 1. unfold fresh_uuid at 1.
      unfold ret at 1. unfold bind. rewrite Hrows. reflexivity.
    + split; [exact Hdb|]. constructor; [|exact Hall].
      repeat split.
Qed.

Lemma order_callback_detail event corr w newOrder w' :
  Checkout.order_callback env publishStockUpdate stockLog event corr w =
    (Ok newOrder, w') ->
  let p := payload event in
  newOrder =
    mkOrderRow (randomUUID env (uuidCalls w)) (userId p) (customerName p)
      (customerEmail p) (customerAddress p) (totalAmount p) "PENDING" /\
  exists rows,
    Forall2 (row_of (or_id newOrder)) rows (items p) /\
    db w' = checked_out (items p) newOrder rows (db w).
Proof.
  intros Hrun p. unfold Checkout.order_callback in Hrun. cbv zeta in Hrun.
  fold p in Hrun.
  unfold bind at 1 in Hrun. unfold fresh_uuid at 1 in Hrun.
  apply bind_inv in Hrun as [(row & w2 & Hins & Hrun)|(e & _ & Habs)];
    [|discriminate Habs].
  apply statement_run in Hins as [_ Hf2]. injection Hf2 as Hrow Hd2.
  simpl in Hd2.
  destruct (order_item_rows_detail (or_id row) (items p) w2)
    as (rows & w3 & Hrows & Hd3 & Hall).
  rewrite (bind_ok _ _ _ _ _ Hrows) in Hrun.
  apply bind_inv in Hrun as [([] & w4 & Hitems & Hrun)|(e & _ & Habs)];
    [|discriminate Habs].
  apply statement_run in Hitems as [_ Hf4]. injection Hf4 as Hd4.
  apply bind_inv in Hrun as [([] & w5 & Hloop & Hrun)|(e & _ & Habs)];
    [|discriminate Habs].
  injection Hrun as <- <-.
  apply (stock_loop_run env publishStockUpdate stockLog stockMarks
           stock_publishes) in Hloop as [_ Hd5].
  split; [symmetry; exact Hrow|].
  exists rows. split; [exact Hall|].
  rewrite Hd5, <- Hd4, Hd3, <- Hd2. unfold checked_out. simpl.
  now rewrite Hrow.
Qed.

Lemma handler_rows event w w' :
  Checkout.handleCheckoutCommand env publishStockUpdate publishOrderCreated
    publishEmailNotification publishAuditLog stockLog event w = (Ok tt, w') ->
  let p := payload event in
  exists newOrder rows,
    newOrder =
      mkOrderRow (randomUUID env (uuidCalls w)) (userId p) (customerName p)
        (customerEmail p) (customerAddress p) (totalAmount p) "PENDING" /\
    Forall2 (row_of (or_id newOrder)) rows (items p) /\
    db w' = checked_out (items p) newOrder rows (db w).
Proof.
  intros Hrun p. unfold Checkout.handleCheckoutCommand in Hrun.
  cbv zeta in Hrun. fold p in Hrun.
  apply bind_inv in Hrun as [(newOrder & w1 & Htx & Hrun)|(e & _ & Habs)];
    [|discriminate Habs].
  unfold Drizzle.transaction in Htx.
  destruct (Checkout.order_callback env publishStockUpdate stockLog event _
              (add_effect TxBegin w)) as [[o|e] w0] eqn:Hbody;
    [|discriminate Htx].
  destruct (dbFault env (dbCalls w0)); [discriminate Htx|].
  injection Htx as -> <-.
  apply order_callback_detail in Hbody as (Horder & rows & Hall & Hdb).
  apply bind_inv in Hrun as [([] & w2 & Ho & Hrun)|(e & _ & Habs)];
    [|discriminate Habs].
  apply bind_inv in Hrun as [([] & w3 & He & Hrun)|(e & _ & Habs)];
    [|discriminate Habs].
  destruct (order_publishes _ _ _ _ _ Ho) as (Hd2 & _).
  destruct (email_publishes _ _ _ _ _ He) as (Hd3 & _).
  destruct (audit_publishes _ _ _ _ _ Hrun) as (Hd4 & _).
  exists newOrder, rows. split; [exact Horder|]. split; [exact Hall|].
  rewrite Hd4, Hd3, Hd2. simpl. exact Hdb.
Qed.

End CheckoutRows.

(** X24.  A checkout that the Commands webhook answers with 200 has added
    exactly one order row and one line-item row per item of the command.
    The order row has a fresh id, status PENDING, and the customer and the
    total amount as the command states them (the total is not recomputed
    from the items); each line-item row belongs to that order and copies
    its item's product, variation (none for an empty id), quantity and
    price. *)
Theorem accepted_checkout_records_order env rv rj request w response w' :
  CommandsWebhook.POST env rv rj request w = (Ok response, w') ->
  status response = 200%Z ->
  exists event w1 newOrder rows,
    QstashWebhook.verifyQStashSignature env rv rj request w =
      (Ok (JObject event), w1) /\
    let p := payload event in
    newOrder =
      mkOrderRow (randomUUID env (uuidCalls w)) (userId p) (customerName p)
        (customerEmail p) (customerAddress p) (totalAmount p) "PENDING" /\
    Forall2 (row_of (or_id newOrder)) rows (items p) /\
    orders (db w') = orders (db w) ++ [newOrder] /\
    orderItems (db w') = orderItems (db w) ++ rows.
Proof.
  intros Hpost Hstatus. unfold CommandsWebhook.POST, try_catch in Hpost.
  destruct (CommandsWebhook.attempt env rv rj request w) as [[resp|e] w0]
    eqn:Hattempt.
  2:{ rewrite webhook_catch_run in Hpost. inversion Hpost; subst.
      destruct (mentions_signature e); discriminate Hstatus. }
  inversion Hpost; subst resp w0; clear Hpost.
  unfold CommandsWebhook.attempt in Hattempt.
  apply bind_inv in Hattempt
    as [(value & w1 & Hverify & Hrest)|(e & _ & Habs)]; [|discriminate Habs].
  destruct (verifier_counters env rv rj request _ _ _ Hverify)
    as (_ & Huuid & Hdb1 & _).
  destruct value as [event|flag].
  2:{ unfold bind, console_warn, emit, ret in Hrest. inversion Hrest; subst.
      discriminate Hstatus. }
  destruct (String.eqb (eventType event) "command.checkout") eqn:Htype.
  2:{ unfold bind, console_warn, emit, ret in Hrest. inversion Hrest; subst.
      discriminate Hstatus. }
  apply bind_inv in Hrest as [([] & w2 & Hrun & Hret)|(e & _ & Habs)];
    [|discriminate Habs].
  inversion Hret; subst response w'; clear Hret.
  unfold CommandsWebhook.handleCheckoutCommand in Hrun.
  eapply handler_rows in Hrun;
    try (intros p c; apply publishes_then_ret; apply producer_publishes).
  cbv zeta in Hrun.
  destruct Hrun as (newOrder & rows & Horder & Hall & Hdb).
  exists event, w1, newOrder, rows. split; [exact Hverify|]. cbv zeta.
  rewrite <- Huuid. split; [exact Horder|]. split; [exact Hall|].
  rewrite Hdb, Hdb1. unfold checked_out.
  destruct (sold_all_orders (items (payload event))
              (mkDb (orders (db w) ++ [newOrder]) (orderItems (db w) ++ rows)
                 (products (db w)) (productVariations (db w))))
    as [Horders Hitems].
  rewrite Horders, Hitems. split; reflexivity.
Qed.

Lemma accepted_checkout_records_order_witness :
  let w' :=
    snd (CommandsWebhook.POST Scenario.dev
           Scenario.accepts_bool
           (Scenario.reads Scenario.checkout)
           (Scenario.unsigned "checkout") Scenario.start) in
  exists newOrder row1 row2,
    orders (db w') = [newOrder] /\
    or_status newOrder = "PENDING" /\ or_totalAmount newOrder = 45%Z /\
    orderItems (db w') = [row1; row2] /\
    oi_productId row1 = "A" /\ oi_quantity row1 = 2%Z /\
    oi_productId row2 = "B" /\ oi_orderId row2 = or_id newOrder.
Proof.
  cbv zeta.
  destruct (accepted_checkout_records_order Scenario.dev
              Scenario.accepts_bool
              (Scenario.reads Scenario.checkout)
              (Scenario.unsigned "checkout") Scenario.start
              (mkResponse 200 (Success (Some "evt-1") (Some "command.checkout") None))
              (snd (CommandsWebhook.POST Scenario.dev
                      Scenario.accepts_bool
                      (Scenario.reads Scenario.checkout)
                      (Scenario.unsigned "checkout") Scenario.start))
              ltac:(vm_compute; reflexivity) eq_refl)
    as (event & w1 & newOrder & rows & Hverify & Horder & Hall & Horders &
        Hitems).
  injection Hverify as <- _.
  apply Forall2_cons_inv_r in Hall
    as (row1 & rest & (_ & Hp1 & _ & Hq1 & _) & Hall & ->).
  apply Forall2_cons_inv_r in Hall
    as (row2 & rest' & (Ho2 & Hp2 & _) & Hall & ->).
  apply Forall2_nil_inv_r in Hall as ->.
  exists newOrder, row1, row2.
  split; [exact Horders|]. rewrite Horder.
  split; [reflexivity|]. split; [reflexivity|].
  split; [exact Hitems|]. rewrite <- Horder. auto.
Defined.

(** ** Events of other types *)

(** A refund command read in a development deployment, and an accepted
    delivery with the signing keys configured. *)
Lemma commands_unknown_type_rejected_witness :
  CommandsWebhook.POST Scenario.dev Scenario.accepts_bool
    (Scenario.reads Cases.refund) (Scenario.unsigned "refund") Scenario.start =
    (Ok (mkResponse 400 (Failure "Unknown event type" None)),
     add_effect (Logged Warn "[Commands Webhook] Unknown event type")
       (Scenario.warned Scenario.start)) /\
  CommandsWebhook.POST Scenario.healthy Scenario.accepts_bool
    (Scenario.reads Scenario.checkout) (Scenario.signed "checkout")
    Scenario.start =
    (Ok (mkResponse 400 (Failure "Unknown event type" None)),
     add_effect (Logged Warn "[Commands Webhook] Unknown event type")
       (add_effect (VerifyCall "good" "checkout") Scenario.start)).
Proof.
  split.
  - apply (commands_unknown_type_rejected Scenario.dev
             Scenario.accepts_bool (Scenario.reads Cases.refund)
             (Scenario.unsigned "refund") Scenario.start (JObject Cases.refund)
             (Scenario.warned Scenario.start) eq_refl).
    discriminate.
  - apply (commands_unknown_type_rejected Scenario.healthy
             Scenario.accepts_bool (Scenario.reads Scenario.checkout)
             (Scenario.signed "checkout") Scenario.start (JBoolean true)
             (add_effect (VerifyCall "good" "checkout") Scenario.start)
             eq_refl).
    discriminate.
Defined.

(** X26.  The orders service acknowledges every verified event that is
    not a checkout command with 200 and does nothing else: the message is
    'Order event processed' for a type that starts with 'order.' and
    'Event ignored' for any other, and the only trace is the call to the
    receiver. *)
Theorem service_acknowledges_other_events env rv jp request w signature event :
  headers request !! "upstash-signature" = Some signature ->
  signature <> "" ->
  rv signature (body request) = Ok true ->
  jp (body request) = Ok event ->
  eventType event <> "command.checkout" ->
  OrdersService.POST env rv jp request w =
    (Ok (mkResponse 200
           (Message (if String.prefix "order." (eventType event)
                     then "Order event processed" else "Event ignored"))),
     add_effect (VerifyCall signature (body request)) w).
Proof.
  intros Hsig Hne Hvalid Hparse Htype.
  assert (Htruthy : truthy (Some signature) = true)
    by (destruct signature; [contradiction | reflexivity]).
  unfold OrdersService.POST, OrdersService.attempt,
    OrdersService.check_signature, try_catch, bind, emit, settle, ret.
  rewrite Hsig, Htruthy. simpl. rewrite Hvalid. simpl. rewrite Hparse.
  destruct (String.eqb (eventType event) "command.checkout") eqn:Heq;
    [apply String.eqb_eq in Heq; contradiction|].
  destruct (String.prefix "order." (eventType event)); reflexivity.
Qed.

Lemma service_acknowledges_other_events_witness :
  fst (OrdersService.POST Scenario.healthy Scenario.accepts_bool
         (Scenario.parses Cases.order_shipped) (Scenario.signed "checkout")
         Scenario.start) =
    Ok (mkResponse 200 (Message "Order event processed")) /\
  fst (OrdersService.POST Scenario.healthy Scenario.accepts_bool
         (Scenario.parses Cases.refund) (Scenario.signed "checkout")
         Scenario.start) =
    Ok (mkResponse 200 (Message "Event ignored")).
Proof.
  rewrite (service_acknowledges_other_events Scenario.healthy
             Scenario.accepts_bool (Scenario.parses Cases.order_shipped)
             (Scenario.signed "checkout") Scenario.start "good"
             Cases.order_shipped eq_refl ltac:(discriminate) eq_refl eq_refl
             ltac:(discriminate)).
  rewrite (service_acknowledges_other_events Scenario.healthy
             Scenario.accepts_bool (Scenario.parses Cases.refund)
             (Scenario.signed "checkout") Scenario.start "good"
             Cases.refund eq_refl ltac:(discriminate) eq_refl eq_refl
             ltac:(discriminate)).
  split; reflexivity.
Defined.

(** ** The store after any delivery *)

Lemma handler_untouched_or_checked_out env publishStockUpdate
    publishOrderCreated publishEmailNotification publishAuditLog stockLog
    stockMarks orderMarks emailMarks auditMarks event w r w' :
  (forall p c, publishes stockMarks (publishStockUpdate p c)) ->
  (forall p c, publishes orderMarks (publishOrderCreated p c)) ->
  (forall p c, publishes emailMarks (publishEmailNotification p c)) ->
  (forall p c, publishes auditMarks (publishAuditLog p c)) ->
  Checkout.handleCheckoutCommand env publishStockUpdate publishOrderCreated
    publishEmailNotification publishAuditLog stockLog event w = (r, w') ->
  untouched_or_checked_out (items (payload event)) w w'.
Proof.
  intros Hs Ho He Ha Hrun.
  apply (handleCheckoutCommand_run env _ _ _ _ _ stockMarks orderMarks
           emailMarks auditMarks Hs Ho He Ha) in Hrun.
  cbv zeta in Hrun.
  destruct Hrun as [(e & j & _ & Hdb & _)
                   | (newOrder & rows & after & Hlen & Hdb & _)].
  - now left.
  - right. eauto.
Qed.

(** X27.  Whatever the request and whatever fails, a delivery to the
    Commands webhook or to the orders service leaves the relational store
    either exactly as it was or with one whole checkout carried out (the
    order row, a line-item row for every item, and every item's quantity
    taken off the stock): never an order without its items or a partly
    reduced stock. *)
Theorem delivery_is_all_or_nothing env rv rj rvS jp request w :
  (forall response w',
      CommandsWebhook.POST env rv rj request w = (Ok response, w') ->
      db w' = db w \/
      exists event,
        fst (QstashWebhook.verifyQStashSignature env rv rj request w) =
          Ok (JObject event) /\
        untouched_or_checked_out (items (payload event)) w w') /\
  (forall response w',
      OrdersService.POST env rvS jp request w = (Ok response, w') ->
      db w' = db w \/
      exists event,
        jp (body request) = Ok event /\
        untouched_or_checked_out (items (payload event)) w w').
Proof.
  split.
  - intros response w' Hpost.
    unfold CommandsWebhook.POST, CommandsWebhook.attempt, try_catch in Hpost.
    destruct (QstashWebhook.verifyQStashSignature env rv rj request w)
      as [[value|e] w1] eqn:Hverify.
    2:{ rewrite (bind_throw _ _ _ _ _ Hverify), webhook_catch_run in Hpost.
        injection Hpost as _ <-. left.
        now destruct (verifier_counters env rv rj request _ _ _ Hverify)
          as (_ & _ & Hdb & _). }
    destruct (verifier_counters env rv rj request _ _ _ Hverify)
      as (_ & _ & Hdb1 & _).
    rewrite (bind_ok _ _ _ _ _ Hverify) in Hpost.
    destruct value as [event|flag].
    2:{ unfold bind, console_warn, emit, ret in Hpost.
        injection Hpost as _ <-. now left. }
    destruct (String.eqb (eventType event) "command.checkout").
    2:{ unfold bind, console_warn, emit, ret in Hpost.
        injection Hpost as _ <-. now left. }
    unfold bind at 1 in Hpost.
    destruct (CommandsWebhook.handleCheckoutCommand env event w1)
      as [r w2] eqn:Hrun.
    assert (Hstore : untouched_or_checked_out (items (payload event)) w w2).
    { unfold CommandsWebhook.handleCheckoutCommand in Hrun.
      eapply handler_untouched_or_checked_out in Hrun;
        try (intros p c; apply publishes_then_ret; apply producer_publishes).
      unfold untouched_or_checked_out in *. now rewrite <- Hdb1. }
    right. exists event. split; [reflexivity|].
    destruct r as [[]|e].
    + injection Hpost as _ <-. exact Hstore.
    + rewrite webhook_catch_run in Hpost. injection Hpost as _ <-.
      exact Hstore.
  - intros response w' Hpost.
    unfold OrdersService.POST, OrdersService.attempt, try_catch in Hpost.
    destruct (OrdersService.check_signature rvS request w)
      as [[rejected|e] w1] eqn:Hcheck.
    2:{ rewrite (bind_throw _ _ _ _ _ Hcheck) in Hpost.
        exfalso. revert Hcheck.
        unfold OrdersService.check_signature, try_catch, bind, emit, settle,
          console_error, ret.
        destruct (headers request !! "upstash-signature") as [sig|];
          [|discriminate].
        destruct (negb (truthy (Some sig))); [discriminate|].
        simpl. destruct (rvS sig (body request)) as [[|]|e0]; discriminate. }
    assert (Hdb1 : db w1 = db w).
    { revert Hcheck.
      unfold OrdersService.check_signature, try_catch, bind, emit, settle,
        console_error, ret.
      destruct (headers request !! "upstash-signature") as [sig|];
        [|intros H; injection H as _ <-; reflexivity].
      destruct (negb (truthy (Some sig)));
        [intros H; injection H as _ <-; reflexivity|].
      simpl. destruct (rvS sig (body request)) as [[|]|e0];
        intros H; injection H as _ <-; reflexivity. }
    rewrite (bind_ok _ _ _ _ _ Hcheck) in Hpost.
    destruct rejected as [early|].
    { injection Hpost as _ <-. now left. }
    unfold bind at 1, settle at 1 in Hpost.
    destruct (jp (body request)) as [event|e] eqn:Hparse.
    2:{ unfold bind, console_error, emit, ret in Hpost.
        injection Hpost as _ <-. now left. }
    destruct (String.eqb (eventType event) "command.checkout").
    2:{ destruct (String.prefix "order." (eventType event));
          injection Hpost as _ <-; now left. }
    unfold bind at 1 in Hpost.
    destruct (OrdersService.handleCheckoutCommand env event w1)
      as [r w2] eqn:Hrun.
    assert (Hstore : untouched_or_checked_out (items (payload event)) w w2).
    { unfold OrdersService.handleCheckoutCommand in Hrun.
      eapply handler_untouched_or_checked_out in Hrun;
        try (intros p c; apply publish_as_publishes).
      unfold untouched_or_checked_out in *. now rewrite <- Hdb1. }
    right. exists event. split; [reflexivity|].
    destruct r as [[]|e].
    + injection Hpost as _ <-. exact Hstore.
    + unfold bind, console_error, emit, ret in Hpost.
      injection Hpost as _ <-. exact Hstore.
Qed.

(** ** Every delivery is answered *)

Ltac answered :=
  eexists _, _; split; [reflexivity|]; simpl; auto 6.

(** X28.  The Commands webhook, the Notifications webhook and the orders
    service never let an error escape: whatever the request and whatever
    fails in the receiver, the parser, the stores, the queue or the
    mailer, [POST] resolves to a response, and its status is 200, 401 or
    500, or 400 from the Commands webhook alone. *)
Theorem deliveries_are_always_answered env rvC rjC rvN rjN rvS jp request w :
  (exists response w',
      CommandsWebhook.POST env rvC rjC request w = (Ok response, w') /\
      (status response = 200 \/ status response = 400 \/
       status response = 401 \/ status response = 500)%Z) /\
  (exists response w',
      NotificationsWebhook.POST env rvN rjN request w = (Ok response, w') /\
      (status response = 200 \/ status response = 401 \/
       status response = 500)%Z) /\
  (exists response w',
      OrdersService.POST env rvS jp request w = (Ok response, w') /\
      (status response = 200 \/ status response = 401 \/
       status response = 500)%Z).
Proof.
  split; [|split].
  - unfold CommandsWebhook.POST, try_catch.
    destruct (CommandsWebhook.attempt env rvC rjC request w)
      as [[response|e] w1] eqn:Hattempt.
    + exists response, w1. split; [reflexivity|].
      unfold CommandsWebhook.attempt in Hattempt.
      apply bind_inv in Hattempt
        as [(value & w0 & _ & Hrest)|(e & _ & Habs)]; [|discriminate Habs].
      destruct value as [event|flag].
      2:{ unfold bind, console_warn, emit, ret in Hrest.
          injection Hrest as <- _. right. now left. }
      destruct (String.eqb (eventType event) "command.checkout").
      * apply bind_inv in Hrest as [([] & w2 & _ & Hret)|(e & _ & Habs)];
          [|discriminate Habs].
        injection Hret as <- _. now left.
      * unfold bind, console_warn, emit, ret in Hrest.
        injection Hrest as <- _. right. now left.
    + rewrite webhook_catch_run. destruct (mentions_signature e); answered.
  - unfold NotificationsWebhook.POST, try_catch.
    destruct (NotificationsWebhook.attempt env rvN rjN request w)
      as [[response|e] w1] eqn:Hattempt.
    + exists response, w1. split; [reflexivity|].
      unfold NotificationsWebhook.attempt in Hattempt.
      apply bind_inv in Hattempt
        as [(event & w0 & _ & Hrest)|(e & _ & Habs)]; [|discriminate Habs].
      cbv zeta in Hrest.
      apply bind_inv in Hrest as [(o & w2 & _ & Hret)|(e & _ & Habs)];
        [|discriminate Habs].
      injection Hret as <- _. now left.
    + rewrite webhook_catch_run. destruct (mentions_signature e); answered.
  - unfold OrdersService.POST, try_catch.
    destruct (OrdersService.attempt env rvS jp request w)
      as [[response|e] w1] eqn:Hattempt.
    + exists response, w1. split; [reflexivity|].
      unfold OrdersService.attempt in Hattempt.
      apply bind_inv in Hattempt
        as [(rejected & w0 & Hcheck & Hrest)|(e & _ & Habs)];
        [|discriminate Habs].
      destruct rejected as [early|].
      * injection Hrest as <- _. right. left. revert Hcheck.
        unfold OrdersService.check_signature, try_catch, bind, emit, settle,
          console_error, ret.
        destruct (headers request !! "upstash-signature") as [sig|];
          [|intros H; injection H as <- _; reflexivity].
        destruct (negb (truthy (Some sig)));
          [intros H; injection H as <- _; reflexivity|].
        simpl. destruct (rvS sig (body request)) as [[|]|e0];
          intros H; try discriminate H; injection H as <- _; reflexivity.
      * apply bind_inv in Hrest as [(event & w2 & _ & Hrest)|(e & _ & Habs)];
          [|discriminate Habs].
        destruct (String.eqb (eventType event) "command.checkout").
        -- apply bind_inv in Hrest as [([] & w3 & _ & Hret)|(e & _ & Habs)];
             [|discriminate Habs].
           injection Hret as <- _. now left.
        -- destruct (String.prefix "order." (eventType event));
             injection Hrest as <- _; now left.
    + unfold bind, console_error, emit, ret. answered.
Qed.
